(** * poloniex-exchange-api: request signing and endpoint dispatch

    A shallow embedding of the signing and dispatch core of the Poloniex
    REST client.  Two revisions of the module are embedded side by side:

    - [Index]: [src/index.ts], where the raw client is called [rawClient];
    - [Agent]: the later revision (the one the README describes), where the
      raw client is called [rawAgent] and every request takes a
      [configOverride].

    The earliest revision is a flat client whose methods are those of the
    raw client of [src/index.ts], line for line; [Index] stands for it too.

    The external collaborators are modelled as follows: [qs.stringify] and
    [crypto.createHmac('sha512', ...)] are given executable definitions
    (module [Qs], module [Crypto]); [axios] is an arbitrary function from
    the call history and the request configuration to a settled promise;
    [Date.now()] is an input of the operations that read the clock. *)

From Stdlib Require Import ZArith List String Ascii Bool Lia Sorted.
From Stdlib Require Import DecimalString DecimalPos DecimalZ.
Import ListNotations.

Set Warnings "-register-all".

Local Open Scope string_scope.
Local Open Scope list_scope.
Local Open Scope Z_scope.

(* ================================================================== *)
(** * Bytes and strings *)

Module Bytes.

(** A byte is a [Z] in [0, 256); a JavaScript string is kept as the
    sequence of its UTF-8 bytes. *)
Definition bytes := list Z.

Definition of_ascii (c : ascii) : Z := Z.of_N (N_of_ascii c).

Definition of_string (s : string) : bytes :=
  map of_ascii (list_ascii_of_string s).

(** Big-endian representation of [x] on [n] bytes. *)
Fixpoint be_bytes (n : nat) (x : Z) : bytes :=
  match n with
  | O => []
  | S n' => Z.shiftr x (8 * Z.of_nat n') mod 256 :: be_bytes n' x
  end.

(** Big-endian value of a byte sequence. *)
Definition be_value (bs : bytes) : Z :=
  fold_left (fun acc b => acc * 256 + b) bs 0.

(** Cuts [l] into [n] consecutive chunks of [size] elements. *)
Fixpoint chunks {A} (size n : nat) (l : list A) : list (list A) :=
  match n with
  | O => []
  | S n' => firstn size l :: chunks size n' (skipn size l)
  end.

Definition hex_alphabet : string := "0123456789abcdef".

(** The lowercase hexadecimal digit of a nibble. *)
Definition hex_digit (d : Z) : ascii :=
  match String.get (Z.to_nat d) hex_alphabet with
  | Some c => c
  | None => "0"%char
  end.

(** [Buffer.toString('hex')]: two lowercase digits per byte. *)
Fixpoint hex (bs : bytes) : string :=
  match bs with
  | [] => EmptyString
  | b :: bs' =>
      String (hex_digit (b / 16 mod 16)) (String (hex_digit (b mod 16)) (hex bs'))
  end.

Definition is_lower_hex (c : ascii) : bool :=
  let n := of_ascii c in
  ((48 <=? n) && (n <=? 57)) || ((97 <=? n) && (n <=? 102)).

Fixpoint all_chars (p : ascii -> bool) (s : string) : bool :=
  match s with
  | EmptyString => true
  | String c s' => p c && all_chars p s'
  end.

End Bytes.

(* ================================================================== *)
(** * Node's [crypto]: HMAC-SHA512 (FIPS 180-4, RFC 2104) *)

Module Crypto.
Import Bytes.

Definition mask64 : Z := 0xffffffffffffffff.

Definition add64 (x y : Z) : Z := Z.land (x + y) mask64.
Definition not64 (x : Z) : Z := Z.lxor x mask64.
Definition ROTR (n x : Z) : Z :=
  Z.land (Z.lor (Z.shiftr x n) (Z.shiftl x (64 - n))) mask64.
Definition SHR (n x : Z) : Z := Z.shiftr x n.

Definition Ch (x y z : Z) : Z := Z.lxor (Z.land x y) (Z.land (not64 x) z).
Definition Maj (x y z : Z) : Z :=
  Z.lxor (Z.lxor (Z.land x y) (Z.land x z)) (Z.land y z).
Definition Sigma0 (x : Z) : Z := Z.lxor (Z.lxor (ROTR 28 x) (ROTR 34 x)) (ROTR 39 x).
Definition Sigma1 (x : Z) : Z := Z.lxor (Z.lxor (ROTR 14 x) (ROTR 18 x)) (ROTR 41 x).
Definition sigma0 (x : Z) : Z := Z.lxor (Z.lxor (ROTR 1 x) (ROTR 8 x)) (SHR 7 x).
Definition sigma1 (x : Z) : Z := Z.lxor (Z.lxor (ROTR 19 x) (ROTR 61 x)) (SHR 6 x).

Definition K : list Z :=
  [ 0x428a2f98d728ae22; 0x7137449123ef65cd; 0xb5c0fbcfec4d3b2f; 0xe9b5dba58189dbbc;
    0x3956c25bf348b538; 0x59f111f1b605d019; 0x923f82a4af194f9b; 0xab1c5ed5da6d8118;
    0xd807aa98a3030242; 0x12835b0145706fbe; 0x243185be4ee4b28c; 0x550c7dc3d5ffb4e2;
    0x72be5d74f27b896f; 0x80deb1fe3b1696b1; 0x9bdc06a725c71235; 0xc19bf174cf692694;
    0xe49b69c19ef14ad2; 0xefbe4786384f25e3; 0x0fc19dc68b8cd5b5; 0x240ca1cc77ac9c65;
    0x2de92c6f592b0275; 0x4a7484aa6ea6e483; 0x5cb0a9dcbd41fbd4; 0x76f988da831153b5;
    0x983e5152ee66dfab; 0xa831c66d2db43210; 0xb00327c898fb213f; 0xbf597fc7beef0ee4;
    0xc6e00bf33da88fc2; 0xd5a79147930aa725; 0x06ca6351e003826f; 0x142929670a0e6e70;
    0x27b70a8546d22ffc; 0x2e1b21385c26c926; 0x4d2c6dfc5ac42aed; 0x53380d139d95b3df;
    0x650a73548baf63de; 0x766a0abb3c77b2a8; 0x81c2c92e47edaee6; 0x92722c851482353b;
    0xa2bfe8a14cf10364; 0xa81a664bbc423001; 0xc24b8b70d0f89791; 0xc76c51a30654be30;
    0xd192e819d6ef5218; 0xd69906245565a910; 0xf40e35855771202a; 0x106aa07032bbd1b8;
    0x19a4c116b8d2d0c8; 0x1e376c085141ab53; 0x2748774cdf8eeb99; 0x34b0bcb5e19b48a8;
    0x391c0cb3c5c95a63; 0x4ed8aa4ae3418acb; 0x5b9cca4f7763e373; 0x682e6ff3d6b2b8a3;
    0x748f82ee5defb2fc; 0x78a5636f43172f60; 0x84c87814a1f0ab72; 0x8cc702081a6439ec;
    0x90befffa23631e28; 0xa4506cebde82bde9; 0xbef9a3f7b2c67915; 0xc67178f2e372532b;
    0xca273eceea26619c; 0xd186b8c721c0c207; 0xeada7dd6cde0eb1e; 0xf57d4f7fee6ed178;
    0x06f067aa72176fba; 0x0a637dc5a2c898a6; 0x113f9804bef90dae; 0x1b710b35131c471b;
    0x28db77f523047d84; 0x32caab7b40c72493; 0x3c9ebe0a15c9bebc; 0x431d67c49c100d4c;
    0x4cc5d4becb3e42b6; 0x597f299cfc657e2a; 0x5fcb6fab3ad6faec; 0x6c44198c4a475817 ].

(** The eight working variables [a .. h]. *)
Definition hash_state : Type := (Z * Z * Z * Z * Z * Z * Z * Z)%type.

Definition H0 : hash_state :=
  (0x6a09e667f3bcc908, 0xbb67ae8584caa73b, 0x3c6ef372fe94f82b, 0xa54ff53a5f1d36f1,
   0x510e527fade682d1, 0x9b05688c2b3e6c1f, 0x1f83d9abfb41bd6b, 0x5be0cd19137e2179).

(** Padding: a [1] bit, zeros up to 112 modulo 128, the bit length on
    sixteen bytes. *)
Definition pad (msg : bytes) : bytes :=
  let len := Z.of_nat (List.length msg) in
  msg ++ [0x80] ++ repeat 0 (Z.to_nat ((111 - len) mod 128)) ++ be_bytes 16 (8 * len).

(** Extends the schedule by [n] words; [w] holds the words so far, the
    latest first. *)
Fixpoint extend (n : nat) (w : list Z) : list Z :=
  match n with
  | O => w
  | S n' =>
      let wt := add64 (add64 (add64 (sigma1 (nth 1 w 0)) (nth 6 w 0))
                             (sigma0 (nth 14 w 0))) (nth 15 w 0) in
      extend n' (wt :: w)
  end.

Definition schedule (block : bytes) : list Z :=
  rev (extend 64 (rev (map be_value (chunks 8 16 block)))).

Definition round (s : hash_state) (kw : Z * Z) : hash_state :=
  let '(a, b, c, d, e, f, g, h) := s in
  let '(k, w) := kw in
  let T1 := add64 (add64 (add64 (add64 h (Sigma1 e)) (Ch e f g)) k) w in
  let T2 := add64 (Sigma0 a) (Maj a b c) in
  (add64 T1 T2, a, b, c, add64 d T1, e, f, g).

Definition compress (H : hash_state) (block : bytes) : hash_state :=
  let '(a, b, c, d, e, f, g, h) := fold_left round (combine K (schedule block)) H in
  let '(a0, b0, c0, d0, e0, f0, g0, h0) := H in
  (add64 a0 a, add64 b0 b, add64 c0 c, add64 d0 d,
   add64 e0 e, add64 f0 f, add64 g0 g, add64 h0 h).

Definition digest_bytes (H : hash_state) : bytes :=
  let '(a, b, c, d, e, f, g, h) := H in
  be_bytes 8 a ++ be_bytes 8 b ++ be_bytes 8 c ++ be_bytes 8 d ++
  be_bytes 8 e ++ be_bytes 8 f ++ be_bytes 8 g ++ be_bytes 8 h.

Definition sha512 (msg : bytes) : bytes :=
  let padded := pad msg in
  digest_bytes (fold_left compress (chunks 128 (List.length padded / 128) padded) H0).

Definition block_size : nat := 128.

(** RFC 2104: keys longer than a block are hashed first, then the key is
    filled with zeros up to the block size. *)
Definition hmac_key (key : bytes) : bytes :=
  let k := if (List.length key <=? block_size)%nat then key else sha512 key in
  k ++ repeat 0 (block_size - List.length k).

Definition hmac_sha512 (key msg : bytes) : bytes :=
  let k := hmac_key key in
  sha512 (map (Z.lxor 0x5c) k ++ sha512 (map (Z.lxor 0x36) k ++ msg)).

(** [crypto.createHmac('sha512', key).update(message).digest('hex')]. *)
Definition createHmac_sha512_hex (key message : string) : string :=
  hex (hmac_sha512 (of_string key) (of_string message)).

End Crypto.

(* ================================================================== *)
(** * JavaScript values *)

Module JS.

(** The values that flow through the client.  An object is the list of
    its own enumerable properties in enumeration order; [VFun] is a
    function value known by its name only; [VTypeError] is the
    [TypeError] the engine raises, with a description of its cause.
    Numbers are the integers (every number the program computes is one). *)
Inductive value : Type :=
| VUndefined
| VNull
| VBool (b : bool)
| VNum (n : Z)
| VStr (s : string)
| VObj (props : list (string * value))
| VFun (name : string)
| VTypeError (cause : string).

Definition object : Type := list (string * value).

(** How an expression completes: with a value, or by throwing. *)
Inductive completion (A : Type) : Type :=
| Normal (a : A)
| Throw (e : value).
Arguments Normal {A} a.
Arguments Throw {A} e.

(** A settled promise. *)
Inductive settled : Type :=
| Resolved (v : value)
| Rejected (reason : value).

(** [ToBoolean]. *)
Definition truthy (v : value) : bool :=
  match v with
  | VUndefined | VNull => false
  | VBool b => b
  | VNum n => negb (n =? 0)
  | VStr s => negb (s =? "")%string
  | VObj _ | VFun _ | VTypeError _ => true
  end.

Fixpoint lookup (k : string) (o : object) : option value :=
  match o with
  | [] => None
  | (k', v) :: o' => if (k =? k')%string then Some v else lookup k o'
  end.

(** [o[k] = v]: an existing property keeps its place, a new one goes
    last.  (Property names that are array indices, which an engine
    enumerates first, do not occur in the program.) *)
Fixpoint set_prop (o : object) (k : string) (v : value) : object :=
  match o with
  | [] => [(k, v)]
  | (k', v') :: o' =>
      if (k =? k')%string then (k', v) :: o' else (k', v') :: set_prop o' k v
  end.

(** [{ ...target, ...src }]: the own properties of [src] are copied in
    order; [undefined], [null] and the other non-objects contribute
    nothing (a string would contribute its characters: no string is
    spread by the program). *)
Definition spread (target : object) (src : value) : object :=
  match src with
  | VObj props => fold_left (fun o kv => set_prop o (fst kv) (snd kv)) props target
  | _ => target
  end.

(** The value of [v.k] when [v] is neither [undefined] nor [null]:
    the own property of an object, [undefined] otherwise (none of the
    names read by the program is inherited). *)
Definition prop (v : value) (k : string) : value :=
  match v with
  | VObj o => match lookup k o with Some x => x | None => VUndefined end
  | _ => VUndefined
  end.

(** The member expression [v.k]: reading a property of [undefined] or
    [null] throws a [TypeError]. *)
Definition get (v : value) (k : string) : completion value :=
  match v with
  | VUndefined | VNull =>
      Throw (VTypeError ("Cannot read property '" ++ k ++ "' of undefined or null")%string)
  | _ => Normal (prop v k)
  end.

Definition bind {A B} (c : completion A) (f : A -> completion B) : completion B :=
  match c with
  | Normal a => f a
  | Throw e => Throw e
  end.

(** [a || b], where [b] is evaluated only when [a] is falsy. *)
Definition or_else (a : completion value) (b : completion value) : completion value :=
  bind a (fun x => if truthy x then Normal x else b).

(** [String(n)] for a safe integer, one of at most 2^53 in absolute
    value: its decimal digits.  (A larger number is written with the fewest
    digits that give it back; that is not followed here.) *)
Definition string_of_number (n : Z) : string := NilZero.string_of_int (Z.to_int n).

(** The unit in the last place of the doubles around [m], for [m] above
    2^53: their mantissa has 53 bits. *)
Definition ulp (m : Z) : Z := 2 ^ (Z.log2 m - 52).

(** The multiple of [u] nearest to [m], a tie going to the even multiple. *)
Definition nearest_even (m u : Z) : Z :=
  let q := m / u in
  let r := m mod u in
  if 2 * r <? u then q * u
  else if u <? 2 * r then (q + 1) * u
  else if Z.even q then q * u else (q + 1) * u.

(** The number an integer result is: the nearest double.  Every integer up
    to 2^53 in absolute value is one; beyond, the result is rounded to the
    unit in the last place.  (The range of the doubles is not exceeded by
    anything the program computes.) *)
Definition number_of_integer (x : Z) : Z :=
  let m := Z.abs x in
  if m <=? 2 ^ 53 then x else Z.sgn x * nearest_even m (ulp m).

End JS.

(* ================================================================== *)
(** * The [qs] package: [qs.stringify] with its default options *)

Module Qs.
Import JS.

Definition hex_upper : string := "0123456789ABCDEF".

Definition upper_digit (d : Z) : ascii :=
  match String.get (Z.to_nat d) hex_upper with
  | Some c => c
  | None => "0"%char
  end.

(** The characters [utils.encode] leaves alone: [-], [.], [_], [~],
    digits and letters. *)
Definition unreserved (c : Z) : bool :=
  (c =? 0x2D) || (c =? 0x2E) || (c =? 0x5F) || (c =? 0x7E)
  || ((0x30 <=? c) && (c <=? 0x39))
  || ((0x41 <=? c) && (c <=? 0x5A))
  || ((0x61 <=? c) && (c <=? 0x7A)).

(** [utils.encode]: every other byte of the UTF-8 form becomes [%XX]. *)
Fixpoint encode (s : string) : string :=
  match s with
  | EmptyString => EmptyString
  | String c s' =>
      let n := Bytes.of_ascii c in
      if unreserved n then String c (encode s')
      else String "%" (String (upper_digit (n / 16)) (String (upper_digit (n mod 16)) (encode s')))
  end.

(** The inner [stringify(obj, prefix, ...)]: the list of [key=value]
    pairs of one property.  [undefined] is skipped, [null] is the empty
    string, a nested object contributes [prefix[key]] entries. *)
Fixpoint stringify_value (prefix : string) (v : value) : list string :=
  match v with
  | VUndefined => []
  | VNull => [(encode prefix ++ "=")%string]
  | VBool b => [(encode prefix ++ "=" ++ (if b then "true" else "false"))%string]
  | VNum n => [(encode prefix ++ "=" ++ encode (string_of_number n))%string]
  | VStr s => [(encode prefix ++ "=" ++ encode s)%string]
  | VObj props =>
      (fix entries (ps : list (string * value)) : list string :=
         match ps with
         | [] => []
         | (k, x) :: ps' =>
             stringify_value (prefix ++ "[" ++ k ++ "]")%string x ++ entries ps'
         end) props
  | VFun _ | VTypeError _ => []
  end.

(** [qs.stringify(obj)] for an object. *)
Definition stringify (obj : object) : string :=
  String.concat "&" (flat_map (fun kv => stringify_value (fst kv) (snd kv)) obj).

(** [qs.stringify(obj)] for an optional argument: anything that is not
    an object gives the empty string. *)
Definition stringify_opt (obj : option object) : string :=
  match obj with
  | Some o => stringify o
  | None => ""
  end.

End Qs.

Import JS.

(* ================================================================== *)
(** * What both revisions share *)

(** [IApiAuth]: the container of the API keys. *)
Record IApiAuth : Type := { publicKey : string; privateKey : string }.

(** The [auth] field as a JavaScript value: [undefined] when no keys were
    given, the credentials object otherwise. *)
Definition auth_value (a : option IApiAuth) : value :=
  match a with
  | None => VUndefined
  | Some k => VObj [("publicKey", VStr (publicKey k)); ("privateKey", VStr (privateKey k))]
  end.

(** The mutable state: the [auth] field of the raw client, and the
    configurations handed to [axios] so far, oldest first. *)
Record Store : Type := { auth : option IApiAuth; requests : list value }.

(** State passing: a method reads and writes the store. *)
Definition M (A : Type) : Type := Store -> A * Store.

Definition ret {A} (a : A) : M A := fun st => (a, st).

Definition bindM {A B} (m : M A) (f : A -> M B) : M B :=
  fun st => let (a, st') := m st in f a st'.

Notation "x <- m ;; k" := (bindM m (fun x => k))
  (at level 61, m at next level, right associativity).

(** The HTTP transport: given the earlier calls and a configuration, the
    promise it returns settles one way or the other. *)
Definition transport : Type := list value -> value -> settled.

(** [await axios(agentConfig)]. *)
Definition send (axios : transport) (agentConfig : value) : M settled :=
  fun st =>
    (axios (requests st) agentConfig,
     {| auth := auth st; requests := requests st ++ [agentConfig] |}).

(** [signMessage(postBody, privateKey)], the same in every revision. *)
Definition signMessage (postBody : object) (privateKey : string) : string :=
  let message := Qs.stringify postBody in
  Crypto.createHmac_sha512_hex privateKey message.

(** [generateNonce()]; [now] is what [Date.now()] returns, an integer
    number of milliseconds.  The product is a product of doubles: exact up
    to 2^53, rounded beyond. *)
Definition generateNonce (now : Z) : Z := number_of_integer (now * 1000).

(** [return Promise.reject(c)] in an async method: the promise is rejected
    with the value of [c], or with what evaluating [c] threw. *)
Definition reject_with (c : completion value) : settled :=
  match c with
  | Normal v => Rejected v
  | Throw e => Rejected e
  end.

(** [((pattern) => body)(arg)] with an object pattern: binding the pattern
    throws when [arg] is [undefined] or [null]; otherwise each name of the
    pattern stands for the property of [arg] with that name, [undefined]
    when there is none.  [body] is the object literal the arrow returns
    (its keys are distinct, so it is the list of its entries). *)
Definition arrow (arg : value) (body : (string -> value) -> object) : completion object :=
  match arg with
  | VUndefined | VNull => Throw (VTypeError "Cannot destructure 'undefined' or 'null'")
  | _ => Normal (body (prop arg))
  end.

(* ================================================================== *)
(** * [src/index.ts] *)

Module Index.

Definition defaultConfig : object :=
  [("rootUrl", VStr "https://poloniex.com"); ("timeout", VNum 5000)].

Definition defaultAgentConfig : object :=
  [("baseURL", prop (VObj defaultConfig) "rootUrl");
   ("headers", VObj [("User-Agent", VStr "Poloniex API Client (poloniex-api node package)")]);
   ("method", VStr "GET");
   ("timeout", prop (VObj defaultConfig) "timeout")].

Definition publicAgentConfig : object := spread [] (VObj defaultAgentConfig).

Definition privateAgentConfig : object :=
  set_prop (spread [] (VObj defaultAgentConfig)) "method" (VStr "POST").

(** The [agentConfig] of [getPublicEndpoint]. *)
Definition public_agentConfig (queryParams : option object) : object :=
  let uri := ("/public?" ++ Qs.stringify_opt queryParams)%string in
  set_prop (spread [] (VObj publicAgentConfig)) "url" (VStr uri).

(** The [headers] of [postToPrivateEndpoint]. *)
Definition private_headers (a : IApiAuth) (data : object) : object :=
  set_prop
    (set_prop (spread [] (prop (VObj privateAgentConfig) "headers"))
              "Key" (VStr (publicKey a)))
    "Sign" (VStr (signMessage data (privateKey a))).

(** The [agentConfig] of [postToPrivateEndpoint]. *)
Definition private_agentConfig (a : IApiAuth) (data : object) : object :=
  let uri := "/tradingApi" in
  set_prop
    (set_prop
       (set_prop (spread [] (VObj privateAgentConfig))
                 "headers" (VObj (private_headers a data)))
       "url" (VStr uri))
    "data" (VStr (Qs.stringify data)).

(** [err.response.data.error || err.response.data || err.response || err] *)
Definition rejectionReason (err : value) : completion value :=
  or_else (bind (bind (get err "response") (fun r => get r "data"))
                (fun d => get d "error"))
    (or_else (bind (get err "response") (fun r => get r "data"))
       (or_else (get err "response") (Normal err))).

Section RawClient.
Variable axios : transport.

Definition getRawClient (a : option IApiAuth) : Store :=
  {| auth := a; requests := [] |}.

Definition getPublicEndpoint (queryParams : option object) : M settled :=
  send axios (VObj (public_agentConfig queryParams)).

(** [isUpgraded(): boolean { return this.auth; }] *)
Definition isUpgraded : M value :=
  fun st => (auth_value (auth st), st).

Definition postToPrivateEndpoint (data : object) : M settled :=
  up <- isUpgraded ;;
  if negb (truthy up)
  then ret (Rejected (VStr "api keys are required to access private endpoints"))
  else
    fun st =>
      match auth st with
      | None =>
          (Rejected (VTypeError "Cannot read property 'publicKey' of undefined"), st)
      | Some a =>
          let (r, st') := send axios (VObj (private_agentConfig a data)) st in
          match r with
          | Resolved response => (Resolved response, st')
          | Rejected err => (reject_with (rejectionReason err), st')
          end
      end.

Definition upgrade (newAuth : IApiAuth) : M value :=
  fun st => (VUndefined, {| auth := Some newAuth; requests := requests st |}).

(** The object literal [getRawClient] returns, as the client sees it. *)
Definition rawClient (st : Store) : value :=
  VObj [("auth", auth_value (auth st));
        ("getPublicEndpoint", VFun "getPublicEndpoint");
        ("isUpgraded", VFun "isUpgraded");
        ("postToPrivateEndpoint", VFun "postToPrivateEndpoint");
        ("signMessage", VFun "signMessage");
        ("upgrade", VFun "upgrade")].

(** The call [callee(newAuth)] on the raw client: calling what is not
    a function throws.  Of the raw client's functions only the two
    that the client applies this way are followed. *)
Definition call_with_auth (callee : value) (newAuth : IApiAuth)
  : M (completion value) :=
  match callee with
  | VFun name =>
      if (name =? "upgrade")%string then v <- upgrade newAuth ;; ret (Normal v)
      else if (name =? "isUpgraded")%string then v <- isUpgraded ;; ret (Normal v)
      else ret (Normal VUndefined)
  | _ => ret (Throw (VTypeError "this.rawClient.update is not a function"))
  end.

End RawClient.

(** The client [getClient] returns. *)
Module Client.
Section Methods.
Variable axios : transport.

Definition getClient (a : option IApiAuth) : Store := getRawClient a.

(** [isUpgraded(): boolean { return this.rawClient.isUpgraded(); }] *)
Definition isUpgraded : M value := Index.isUpgraded.

(** [upgrade(newAuth): void { this.rawClient.update(newAuth); }] *)
Definition upgrade (newAuth : IApiAuth) : M (completion value) :=
  fun st => call_with_auth (prop (rawClient st) "update") newAuth st.

Definition returnOrderBook_params (queryParams : value) : object :=
  let command := "returnOrderBook" in
  let required := VObj [("command", VStr command)] in
  let optional :=
    if truthy queryParams
    then VObj [("currencyPair", prop queryParams "currencyPair");
               ("depth", prop queryParams "depth")]
    else VObj [("currencyPair", VStr "all")] in
  spread (spread [] required) optional.

Definition returnOrderBook (queryParams : value) : M settled :=
  getPublicEndpoint axios (Some (returnOrderBook_params queryParams)).

Definition returnBalances_params (now : Z) : object :=
  let command := "returnBalances" in
  let nonce := generateNonce now in
  [("command", VStr command); ("nonce", VNum nonce)].

(** [now] is the clock reading of the [generateNonce()] call. *)
Definition returnBalances (now : Z) : M settled :=
  postToPrivateEndpoint axios (returnBalances_params now).

(** The other methods of the client, in the order of the source. *)

(** The end of an async method whose [params] may have failed to build:
    what was thrown rejects the promise, otherwise the raw client is called. *)
Definition get_with (params : completion object) : M settled :=
  match params with
  | Normal p => getPublicEndpoint axios (Some p)
  | Throw e => ret (Rejected e)
  end.

Definition post_with (params : completion object) : M settled :=
  match params with
  | Normal p => postToPrivateEndpoint axios p
  | Throw e => ret (Rejected e)
  end.

Definition returnTicker_params : object :=
  let command := "returnTicker" in
  [("command", VStr command)].

Definition returnTicker : M settled :=
  getPublicEndpoint axios (Some returnTicker_params).

Definition return24Volume_params : object :=
  let command := "return24hVolume" in
  [("command", VStr command)].

Definition return24Volume : M settled :=
  getPublicEndpoint axios (Some return24Volume_params).

Definition returnPublicTradeHistory_params (queryParams : value) : completion object :=
  let command := "returnPublicTradeHistory" in
  arrow queryParams (fun pick =>
    [("command", VStr command); ("currencyPair", pick "currencyPair");
     ("start", pick "start"); ("end", pick "end")]).

Definition returnPublicTradeHistory (queryParams : value) : M settled :=
  get_with (returnPublicTradeHistory_params queryParams).

Definition returnChartData_params (queryParams : value) : completion object :=
  let command := "returnChartData" in
  arrow queryParams (fun pick =>
    [("command", VStr command); ("currencyPair", pick "currencyPair");
     ("start", pick "start"); ("end", pick "end"); ("period", pick "period")]).

Definition returnChartData (queryParams : value) : M settled :=
  get_with (returnChartData_params queryParams).

Definition returnCurrencies_params : object :=
  let command := "returnCurrencies" in
  [("command", VStr command)].

Definition returnCurrencies : M settled :=
  getPublicEndpoint axios (Some returnCurrencies_params).

Definition returnLoanOrders_params (queryParams : value) : completion object :=
  let command := "returnLoanOrders" in
  arrow queryParams (fun pick =>
    [("command", VStr command); ("currency", pick "currency")]).

Definition returnLoanOrders (queryParams : value) : M settled :=
  get_with (returnLoanOrders_params queryParams).

Definition returnCompleteBalances_params (now : Z) (queryParams : value) : object :=
  let command := "returnCompleteBalances" in
  let nonce := generateNonce now in
  let required := VObj [("command", VStr command); ("nonce", VNum nonce)] in
  let optional :=
    if truthy queryParams
    then VObj [("account", prop queryParams "account")]
    else VObj [("account", VStr "all")] in
  spread (spread [] required) optional.

Definition returnCompleteBalances (now : Z) (queryParams : value) : M settled :=
  postToPrivateEndpoint axios (returnCompleteBalances_params now queryParams).

Definition returnDepositAddress_params (now : Z) : object :=
  let command := "returnDepositAddress" in
  let nonce := generateNonce now in
  [("command", VStr command); ("nonce", VNum nonce)].

Definition returnDepositAddress (now : Z) : M settled :=
  postToPrivateEndpoint axios (returnDepositAddress_params now).

Definition generateNewAddress_params (now : Z) (queryParams : value) : completion object :=
  let command := "generateNewAddress" in
  let nonce := generateNonce now in
  arrow queryParams (fun pick =>
    [("command", VStr command); ("nonce", VNum nonce); ("currency", pick "currency")]).

Definition generateNewAddress (now : Z) (queryParams : value) : M settled :=
  post_with (generateNewAddress_params now queryParams).

Definition returnDepositsWithdrawals_params (now : Z) (queryParams : value) : completion object :=
  let command := "returnDepositsWithdrawals" in
  let nonce := generateNonce now in
  arrow queryParams (fun pick =>
    [("command", VStr command); ("nonce", VNum nonce); ("start", pick "start");
     ("end", pick "end")]).

Definition returnDepositsWithdrawals (now : Z) (queryParams : value) : M settled :=
  post_with (returnDepositsWithdrawals_params now queryParams).

Definition returnOpenOrders_params (now : Z) (queryParams : value) : object :=
  let command := "returnOpenOrders" in
  let nonce := generateNonce now in
  let required := VObj [("command", VStr command); ("nonce", VNum nonce)] in
  let optional :=
    if truthy queryParams
    then VObj [("currencyPair", prop queryParams "currencyPair")]
    else VObj [("currencyPair", VStr "all")] in
  spread (spread [] required) optional.

Definition returnOpenOrders (now : Z) (queryParams : value) : M settled :=
  postToPrivateEndpoint axios (returnOpenOrders_params now queryParams).

Definition returnPrivateTradeHistory_params (now : Z) (queryParams : value) : object :=
  let command := "returnPrivateTradeHistory" in
  let nonce := generateNonce now in
  let required := VObj [("command", VStr command); ("nonce", VNum nonce)] in
  let optional :=
    if truthy queryParams
    then VObj [("currencyPair", prop queryParams "currencyPair");
               ("start", prop queryParams "start"); ("end", prop queryParams "end");
               ("limit", prop queryParams "limit")]
    else VObj [("currencyPair", VStr "all")] in
  spread (spread [] required) optional.

Definition returnPrivateTradeHistory (now : Z) (queryParams : value) : M settled :=
  postToPrivateEndpoint axios (returnPrivateTradeHistory_params now queryParams).

Definition returnOrderTrades_params (now : Z) (queryParams : value) : completion object :=
  let command := "returnOrderTrades" in
  let nonce := generateNonce now in
  arrow queryParams (fun pick =>
    [("command", VStr command); ("nonce", VNum nonce); ("orderNumber", pick "orderNumber")]).

Definition returnOrderTrades (now : Z) (queryParams : value) : M settled :=
  post_with (returnOrderTrades_params now queryParams).

Definition buy_params (now : Z) (queryParams : value) : completion object :=
  let command := "buy" in
  let nonce := generateNonce now in
  arrow queryParams (fun pick =>
    [("command", VStr command); ("nonce", VNum nonce);
     ("currencyPair", pick "currencyPair"); ("rate", pick "rate");
     ("amount", pick "amount"); ("fillOrKill", pick "fillOrKill");
     ("immediateOrCancel", pick "immediateOrCancel"); ("postOnly", pick "postOnly")]).

Definition buy (now : Z) (queryParams : value) : M settled :=
  post_with (buy_params now queryParams).

Definition sell_params (now : Z) (queryParams : value) : completion object :=
  let command := "sell" in
  let nonce := generateNonce now in
  arrow queryParams (fun pick =>
    [("command", VStr command); ("nonce", VNum nonce);
     ("currencyPair", pick "currencyPair"); ("rate", pick "rate");
     ("amount", pick "amount"); ("fillOrKill", pick "fillOrKill");
     ("immediateOrCancel", pick "immediateOrCancel"); ("postOnly", pick "postOnly")]).

Definition sell (now : Z) (queryParams : value) : M settled :=
  post_with (sell_params now queryParams).

Definition cancelOrder_params (now : Z) (queryParams : value) : completion object :=
  let command := "cancelOrder" in
  let nonce := generateNonce now in
  arrow queryParams (fun pick =>
    [("command", VStr command); ("nonce", VNum nonce); ("orderNumber", pick "orderNumber")]).

Definition cancelOrder (now : Z) (queryParams : value) : M settled :=
  post_with (cancelOrder_params now queryParams).

Definition moveOrder_params (now : Z) (queryParams : value) : completion object :=
  let command := "moveOrder" in
  let nonce := generateNonce now in
  arrow queryParams (fun pick =>
    [("command", VStr command); ("nonce", VNum nonce); ("orderNumber", pick "orderNumber");
     ("rate", pick "rate"); ("amount", pick "amount");
     ("immediateOrCancel", pick "immediateOrCancel"); ("postOnly", pick "postOnly")]).

Definition moveOrder (now : Z) (queryParams : value) : M settled :=
  post_with (moveOrder_params now queryParams).

Definition withdraw_params (now : Z) (queryParams : value) : completion object :=
  let command := "withdraw" in
  let nonce := generateNonce now in
  arrow queryParams (fun pick =>
    [("command", VStr command); ("nonce", VNum nonce); ("currency", pick "currency");
     ("amount", pick "amount"); ("address", pick "address");
     ("paymentId", pick "paymentId")]).

Definition withdraw (now : Z) (queryParams : value) : M settled :=
  post_with (withdraw_params now queryParams).

Definition returnFeeInfo_params (now : Z) : object :=
  let command := "returnFeeInfo" in
  let nonce := generateNonce now in
  [("command", VStr command); ("nonce", VNum nonce)].

Definition returnFeeInfo (now : Z) : M settled :=
  postToPrivateEndpoint axios (returnFeeInfo_params now).

Definition returnAvailableAccountBalances_params (now : Z) (queryParams : value) : object :=
  let command := "returnAvailableAccountBalances" in
  let nonce := generateNonce now in
  let required := VObj [("command", VStr command); ("nonce", VNum nonce)] in
  let optional :=
    if truthy queryParams
    then VObj [("account", prop queryParams "account")]
    else VNull in
  spread (spread [] required) optional.

Definition returnAvailableAccountBalances (now : Z) (queryParams : value) : M settled :=
  postToPrivateEndpoint axios (returnAvailableAccountBalances_params now queryParams).

Definition returnTradableBalances_params (now : Z) : object :=
  let command := "returnTradableBalances" in
  let nonce := generateNonce now in
  [("command", VStr command); ("nonce", VNum nonce)].

Definition returnTradableBalances (now : Z) : M settled :=
  postToPrivateEndpoint axios (returnTradableBalances_params now).

Definition transferBalance_params (now : Z) (queryParams : value) : completion object :=
  let command := "transferBalance" in
  let nonce := generateNonce now in
  arrow queryParams (fun pick =>
    [("command", VStr command); ("nonce", VNum nonce); ("currency", pick "currency");
     ("amount", pick "amount"); ("fromAddress", pick "fromAddress");
     ("toAddress", pick "toAddress")]).

Definition transferBalance (now : Z) (queryParams : value) : M settled :=
  post_with (transferBalance_params now queryParams).

Definition returnMarginAccountSummary_params (now : Z) : object :=
  let command := "returnMarginAccountSummary" in
  let nonce := generateNonce now in
  [("command", VStr command); ("nonce", VNum nonce)].

Definition returnMarginAccountSummary (now : Z) : M settled :=
  postToPrivateEndpoint axios (returnMarginAccountSummary_params now).

Definition marginBuy_params (now : Z) (queryParams : value) : completion object :=
  let command := "marginBuy" in
  let nonce := generateNonce now in
  arrow queryParams (fun pick =>
    [("command", VStr command); ("nonce", VNum nonce);
     ("currencyPair", pick "currencyPair"); ("rate", pick "rate");
     ("amount", pick "amount"); ("lendingRate", pick "lendingRate")]).

Definition marginBuy (now : Z) (queryParams : value) : M settled :=
  post_with (marginBuy_params now queryParams).

Definition marginSell_params (now : Z) (queryParams : value) : completion object :=
  let command := "marginSell" in
  let nonce := generateNonce now in
  arrow queryParams (fun pick =>
    [("command", VStr command); ("nonce", VNum nonce);
     ("currencyPair", pick "currencyPair"); ("rate", pick "rate");
     ("amount", pick "amount"); ("lendingRate", pick "lendingRate")]).

Definition marginSell (now : Z) (queryParams : value) : M settled :=
  post_with (marginSell_params now queryParams).

Definition getMarginPosition_params (now : Z) (queryParams : value) : object :=
  let command := "getMarginPosition" in
  let nonce := generateNonce now in
  let required := VObj [("command", VStr command); ("nonce", VNum nonce)] in
  let optional :=
    if truthy queryParams
    then VObj [("currencyPair", prop queryParams "currencyPair")]
    else VObj [("currencyPair", VStr "all")] in
  spread (spread [] required) optional.

Definition getMarginPosition (now : Z) (queryParams : value) : M settled :=
  postToPrivateEndpoint axios (getMarginPosition_params now queryParams).

Definition closeMarginPosition_params (now : Z) (queryParams : value) : completion object :=
  let command := "closeMarginPosition" in
  let nonce := generateNonce now in
  arrow queryParams (fun pick =>
    [("command", VStr command); ("nonce", VNum nonce);
     ("currencyPair", pick "currencyPair")]).

Definition closeMarginPosition (now : Z) (queryParams : value) : M settled :=
  post_with (closeMarginPosition_params now queryParams).

Definition createLoanOffer_params (now : Z) (queryParams : value) : completion object :=
  let command := "createLoanOffer" in
  let nonce := generateNonce now in
  arrow queryParams (fun pick =>
    [("command", VStr command); ("nonce", VNum nonce); ("currency", pick "currency");
     ("amount", pick "amount"); ("duration", pick "duration");
     ("autoRenew", pick "autoRenew"); ("lendingRate", pick "lendingRate")]).

Definition createLoanOffer (now : Z) (queryParams : value) : M settled :=
  post_with (createLoanOffer_params now queryParams).

Definition cancelLoanOffer_params (now : Z) (queryParams : value) : completion object :=
  let command := "cancelLoanOffer" in
  let nonce := generateNonce now in
  arrow queryParams (fun pick =>
    [("command", VStr command); ("nonce", VNum nonce); ("orderNumber", pick "orderNumber")]).

Definition cancelLoanOffer (now : Z) (queryParams : value) : M settled :=
  post_with (cancelLoanOffer_params now queryParams).

Definition returnOpenLoanOffers_params (now : Z) : object :=
  let command := "returnOpenLoanOffers" in
  let nonce := generateNonce now in
  [("command", VStr command); ("nonce", VNum nonce)].

Definition returnOpenLoanOffers (now : Z) : M settled :=
  postToPrivateEndpoint axios (returnOpenLoanOffers_params now).

Definition returnActiveLoans_params (now : Z) : object :=
  let command := "returnActiveLoans" in
  let nonce := generateNonce now in
  [("command", VStr command); ("nonce", VNum nonce)].

Definition returnActiveLoans (now : Z) : M settled :=
  postToPrivateEndpoint axios (returnActiveLoans_params now).

Definition returnLendingHistory_params (now : Z) (queryParams : value) : completion object :=
  let command := "returnLendingHistory" in
  let nonce := generateNonce now in
  arrow queryParams (fun pick =>
    [("command", VStr command); ("nonce", VNum nonce); ("start", pick "start");
     ("end", pick "end"); ("limit", pick "limit")]).

Definition returnLendingHistory (now : Z) (queryParams : value) : M settled :=
  post_with (returnLendingHistory_params now queryParams).

Definition toggleAutoRenew_params (now : Z) (queryParams : value) : completion object :=
  let command := "toggleAutoRenew" in
  let nonce := generateNonce now in
  arrow queryParams (fun pick =>
    [("command", VStr command); ("nonce", VNum nonce); ("orderNumber", pick "orderNumber")]).

Definition toggleAutoRenew (now : Z) (queryParams : value) : M settled :=
  post_with (toggleAutoRenew_params now queryParams).

End Methods.
End Client.

End Index.

(* ================================================================== *)
(** * The later revision: [rawAgent] and [configOverride] *)

Module Agent.

Definition defaultConfig : object :=
  [("rootUrl", VStr "https://poloniex.com"); ("timeout", VNum 5000)].

Definition defaultAgentConfig : object :=
  [("baseURL", prop (VObj defaultConfig) "rootUrl");
   ("headers",
    VObj [("User-Agent", VStr "Poloniex API Client (poloniex-exchange-api node package)")]);
   ("method", VStr "GET");
   ("timeout", prop (VObj defaultConfig) "timeout");
   ("validateStatus", VFun "() => true")].

Definition publicAgentConfig : object := spread [] (VObj defaultAgentConfig).

Definition privateAgentConfig : object :=
  set_prop (spread [] (VObj defaultAgentConfig)) "method" (VStr "POST").

(** [const config = { ...defaultConfig, ...configOverride }] *)
Definition local_config (configOverride : value) : object :=
  spread (spread [] (VObj defaultConfig)) configOverride.

(** The [agentConfig] of [getPublicEndpoint]. *)
Definition public_agentConfig (queryParams : option object) (configOverride : value)
  : object :=
  let config := local_config configOverride in
  let uri := ("/public?" ++ Qs.stringify_opt queryParams)%string in
  spread (set_prop (spread [] (VObj publicAgentConfig)) "url" (VStr uri)) (VObj config).

(** The [headers] of [postToPrivateEndpoint]. *)
Definition private_headers (a : IApiAuth) (data : object) (configOverride : value)
  : object :=
  let config := local_config configOverride in
  let headersOverride :=
    if truthy (VObj config) then prop (VObj config) "headers" else VNull in
  spread
    (set_prop
       (set_prop (spread [] (prop (VObj privateAgentConfig) "headers"))
                 "Key" (VStr (publicKey a)))
       "Sign" (VStr (signMessage data (privateKey a))))
    headersOverride.

(** The [agentConfig] of [postToPrivateEndpoint]. *)
Definition private_agentConfig (a : IApiAuth) (data : object) (configOverride : value)
  : object :=
  let config := local_config configOverride in
  let uri := "/tradingApi" in
  let headers := private_headers a data configOverride in
  spread
    (set_prop
       (set_prop
          (set_prop (spread [] (VObj privateAgentConfig)) "headers" (VObj headers))
          "url" (VStr uri))
       "data" (VStr (Qs.stringify data)))
    (VObj config).

Section RawAgent.
Variable axios : transport.

Definition getRawAgent (a : option IApiAuth) : Store :=
  {| auth := a; requests := [] |}.

Definition getPublicEndpoint (queryParams : option object) (configOverride : value)
  : M settled :=
  r <- send axios (VObj (public_agentConfig queryParams configOverride)) ;;
  match r with
  | Resolved response => ret (Resolved response)
  | Rejected err => ret (Rejected err)
  end.

(** [isUpgraded(): boolean { return this.auth; }] *)
Definition isUpgraded : M value :=
  fun st => (auth_value (auth st), st).

Definition postToPrivateEndpoint (data : object) (configOverride : value)
  : M settled :=
  up <- isUpgraded ;;
  if negb (truthy up)
  then ret (Rejected (VStr "not authenticated"))
  else
    fun st =>
      match auth st with
      | None =>
          (Rejected (VTypeError "Cannot read property 'publicKey' of undefined"), st)
      | Some a =>
          let (r, st') :=
            send axios (VObj (private_agentConfig a data configOverride)) st in
          match r with
          | Resolved response => (Resolved response, st')
          | Rejected err => (Rejected err, st')
          end
      end.

Definition upgrade (newAuth : IApiAuth) : M value :=
  fun st => (VUndefined, {| auth := Some newAuth; requests := requests st |}).

End RawAgent.

(** The client [getClient(auth, requestConfig = null)] returns. *)
Module Client.
Section Methods.
Variable axios : transport.

(** The default value of the second parameter of [getClient]. *)
Definition default_requestConfig (requestConfig : value) : value :=
  match requestConfig with
  | VUndefined => VNull
  | _ => requestConfig
  end.

Variable requestConfig : value.

Definition getClient (a : option IApiAuth) : Store := getRawAgent a.

(** [isUpgraded(): boolean { return this.rawAgent.isUpgraded(); }] *)
Definition isUpgraded : M value := Agent.isUpgraded.

(** [upgrade(newAuth): void { this.rawAgent.upgrade(newAuth); }] *)
Definition upgrade (newAuth : IApiAuth) : M (completion value) :=
  v <- Agent.upgrade newAuth ;; ret (Normal VUndefined).

Definition returnOrderBook_params (queryParams : value) : object :=
  let command := "returnOrderBook" in
  let required := VObj [("command", VStr command)] in
  let optional :=
    if truthy queryParams
    then VObj [("currencyPair", prop queryParams "currencyPair");
               ("depth", prop queryParams "depth")]
    else VObj [("currencyPair", VStr "all")] in
  spread (spread [] required) optional.

Definition returnOrderBook (queryParams : value) : M settled :=
  getPublicEndpoint axios (Some (returnOrderBook_params queryParams))
                    (default_requestConfig requestConfig).

Definition returnBalances_params (now : Z) : object :=
  let command := "returnBalances" in
  let nonce := generateNonce now in
  [("command", VStr command); ("nonce", VNum nonce)].

(** [now] is the clock reading of the [generateNonce()] call. *)
Definition returnBalances (now : Z) : M settled :=
  postToPrivateEndpoint axios (returnBalances_params now)
                        (default_requestConfig requestConfig).

(** The other methods of the client, in the order of the source. *)

(** The end of an async method whose [params] may have failed to build:
    what was thrown rejects the promise, otherwise the raw client is called. *)
Definition get_with (params : completion object) : M settled :=
  match params with
  | Normal p => getPublicEndpoint axios (Some p) (default_requestConfig requestConfig)
  | Throw e => ret (Rejected e)
  end.

Definition post_with (params : completion object) : M settled :=
  match params with
  | Normal p => postToPrivateEndpoint axios p (default_requestConfig requestConfig)
  | Throw e => ret (Rejected e)
  end.

Definition returnTicker_params : object :=
  let command := "returnTicker" in
  [("command", VStr command)].

Definition returnTicker : M settled :=
  getPublicEndpoint axios (Some returnTicker_params) (default_requestConfig requestConfig).

Definition return24Volume_params : object :=
  let command := "return24hVolume" in
  [("command", VStr command)].

Definition return24Volume : M settled :=
  getPublicEndpoint axios (Some return24Volume_params) (default_requestConfig requestConfig).

Definition returnPublicTradeHistory_params (queryParams : value) : completion object :=
  let command := "returnTradeHistory" in
  arrow queryParams (fun pick =>
    [("command", VStr command); ("currencyPair", pick "currencyPair");
     ("start", pick "start"); ("end", pick "end")]).

Definition returnPublicTradeHistory (queryParams : value) : M settled :=
  get_with (returnPublicTradeHistory_params queryParams).

Definition returnChartData_params (queryParams : value) : completion object :=
  let command := "returnChartData" in
  arrow queryParams (fun pick =>
    [("command", VStr command); ("currencyPair", pick "currencyPair");
     ("start", pick "start"); ("end", pick "end"); ("period", pick "period")]).

Definition returnChartData (queryParams : value) : M settled :=
  get_with (returnChartData_params queryParams).

Definition returnCurrencies_params : object :=
  let command := "returnCurrencies" in
  [("command", VStr command)].

Definition returnCurrencies : M settled :=
  getPublicEndpoint axios (Some returnCurrencies_params) (default_requestConfig requestConfig).

Definition returnLoanOrders_params (queryParams : value) : completion object :=
  let command := "returnLoanOrders" in
  arrow queryParams (fun pick =>
    [("command", VStr command); ("currency", pick "currency")]).

Definition returnLoanOrders (queryParams : value) : M settled :=
  get_with (returnLoanOrders_params queryParams).

Definition returnCompleteBalances_params (now : Z) (queryParams : value) : object :=
  let command := "returnCompleteBalances" in
  let nonce := generateNonce now in
  let required := VObj [("command", VStr command); ("nonce", VNum nonce)] in
  let optional :=
    if truthy queryParams
    then VObj [("account", prop queryParams "account")]
    else VObj [("account", VStr "all")] in
  spread (spread [] required) optional.

Definition returnCompleteBalances (now : Z) (queryParams : value) : M settled :=
  postToPrivateEndpoint axios (returnCompleteBalances_params now queryParams)
    (default_requestConfig requestConfig).

Definition returnDepositAddress_params (now : Z) : object :=
  let command := "returnDepositAddress" in
  let nonce := generateNonce now in
  [("command", VStr command); ("nonce", VNum nonce)].

Definition returnDepositAddress (now : Z) : M settled :=
  postToPrivateEndpoint axios (returnDepositAddress_params now)
    (default_requestConfig requestConfig).

Definition generateNewAddress_params (now : Z) (queryParams : value) : completion object :=
  let command := "generateNewAddress" in
  let nonce := generateNonce now in
  arrow queryParams (fun pick =>
    [("command", VStr command); ("nonce", VNum nonce); ("currency", pick "currency")]).

Definition generateNewAddress (now : Z) (queryParams : value) : M settled :=
  post_with (generateNewAddress_params now queryParams).

Definition returnDepositsWithdrawals_params (now : Z) (queryParams : value) : completion object :=
  let command := "returnDepositsWithdrawals" in
  let nonce := generateNonce now in
  arrow queryParams (fun pick =>
    [("command", VStr command); ("nonce", VNum nonce); ("start", pick "start");
     ("end", pick "end")]).

Definition returnDepositsWithdrawals (now : Z) (queryParams : value) : M settled :=
  post_with (returnDepositsWithdrawals_params now queryParams).

Definition returnOpenOrders_params (now : Z) (queryParams : value) : object :=
  let command := "returnOpenOrders" in
  let nonce := generateNonce now in
  let required := VObj [("command", VStr command); ("nonce", VNum nonce)] in
  let optional :=
    if truthy queryParams
    then VObj [("currencyPair", prop queryParams "currencyPair")]
    else VObj [("currencyPair", VStr "all")] in
  spread (spread [] required) optional.

Definition returnOpenOrders (now : Z) (queryParams : value) : M settled :=
  postToPrivateEndpoint axios (returnOpenOrders_params now queryParams)
    (default_requestConfig requestConfig).

Definition returnPrivateTradeHistory_params (now : Z) (queryParams : value) : object :=
  let command := "returnTradeHistory" in
  let nonce := generateNonce now in
  let required := VObj [("command", VStr command); ("nonce", VNum nonce)] in
  let optional :=
    if truthy queryParams
    then VObj [("currencyPair", prop queryParams "currencyPair");
               ("start", prop queryParams "start"); ("end", prop queryParams "end");
               ("limit", prop queryParams "limit")]
    else VObj [("currencyPair", VStr "all")] in
  spread (spread [] required) optional.

Definition returnPrivateTradeHistory (now : Z) (queryParams : value) : M settled :=
  postToPrivateEndpoint axios (returnPrivateTradeHistory_params now queryParams)
    (default_requestConfig requestConfig).

Definition returnOrderTrades_params (now : Z) (queryParams : value) : completion object :=
  let command := "returnOrderTrades" in
  let nonce := generateNonce now in
  arrow queryParams (fun pick =>
    [("command", VStr command); ("nonce", VNum nonce); ("orderNumber", pick "orderNumber")]).

Definition returnOrderTrades (now : Z) (queryParams : value) : M settled :=
  post_with (returnOrderTrades_params now queryParams).

Definition buy_params (now : Z) (queryParams : value) : completion object :=
  let command := "buy" in
  let nonce := generateNonce now in
  arrow queryParams (fun pick =>
    [("command", VStr command); ("nonce", VNum nonce);
     ("currencyPair", pick "currencyPair"); ("rate", pick "rate");
     ("amount", pick "amount"); ("fillOrKill", pick "fillOrKill");
     ("immediateOrCancel", pick "immediateOrCancel"); ("postOnly", pick "postOnly")]).

Definition buy (now : Z) (queryParams : value) : M settled :=
  post_with (buy_params now queryParams).

Definition sell_params (now : Z) (queryParams : value) : completion object :=
  let command := "sell" in
  let nonce := generateNonce now in
  arrow queryParams (fun pick =>
    [("command", VStr command); ("nonce", VNum nonce);
     ("currencyPair", pick "currencyPair"); ("rate", pick "rate");
     ("amount", pick "amount"); ("fillOrKill", pick "fillOrKill");
     ("immediateOrCancel", pick "immediateOrCancel"); ("postOnly", pick "postOnly")]).

Definition sell (now : Z) (queryParams : value) : M settled :=
  post_with (sell_params now queryParams).

Definition cancelOrder_params (now : Z) (queryParams : value) : completion object :=
  let command := "cancelOrder" in
  let nonce := generateNonce now in
  arrow queryParams (fun pick =>
    [("command", VStr command); ("nonce", VNum nonce); ("orderNumber", pick "orderNumber")]).

Definition cancelOrder (now : Z) (queryParams : value) : M settled :=
  post_with (cancelOrder_params now queryParams).

Definition moveOrder_params (now : Z) (queryParams : value) : completion object :=
  let command := "moveOrder" in
  let nonce := generateNonce now in
  arrow queryParams (fun pick =>
    [("command", VStr command); ("nonce", VNum nonce); ("orderNumber", pick "orderNumber");
     ("rate", pick "rate"); ("amount", pick "amount");
     ("immediateOrCancel", pick "immediateOrCancel"); ("postOnly", pick "postOnly")]).

Definition moveOrder (now : Z) (queryParams : value) : M settled :=
  post_with (moveOrder_params now queryParams).

Definition withdraw_params (now : Z) (queryParams : value) : completion object :=
  let command := "withdraw" in
  let nonce := generateNonce now in
  arrow queryParams (fun pick =>
    [("command", VStr command); ("nonce", VNum nonce); ("currency", pick "currency");
     ("amount", pick "amount"); ("address", pick "address");
     ("paymentId", pick "paymentId")]).

Definition withdraw (now : Z) (queryParams : value) : M settled :=
  post_with (withdraw_params now queryParams).

Definition returnFeeInfo_params (now : Z) : object :=
  let command := "returnFeeInfo" in
  let nonce := generateNonce now in
  [("command", VStr command); ("nonce", VNum nonce)].

Definition returnFeeInfo (now : Z) : M settled :=
  postToPrivateEndpoint axios (returnFeeInfo_params now) (default_requestConfig requestConfig).

Definition returnAvailableAccountBalances_params (now : Z) (queryParams : value) : object :=
  let command := "returnAvailableAccountBalances" in
  let nonce := generateNonce now in
  let required := VObj [("command", VStr command); ("nonce", VNum nonce)] in
  let optional :=
    if truthy queryParams
    then VObj [("account", prop queryParams "account")]
    else VNull in
  spread (spread [] required) optional.

Definition returnAvailableAccountBalances (now : Z) (queryParams : value) : M settled :=
  postToPrivateEndpoint axios (returnAvailableAccountBalances_params now queryParams)
    (default_requestConfig requestConfig).

Definition returnTradableBalances_params (now : Z) : object :=
  let command := "returnTradableBalances" in
  let nonce := generateNonce now in
  [("command", VStr command); ("nonce", VNum nonce)].

Definition returnTradableBalances (now : Z) : M settled :=
  postToPrivateEndpoint axios (returnTradableBalances_params now)
    (default_requestConfig requestConfig).

Definition transferBalance_params (now : Z) (queryParams : value) : completion object :=
  let command := "transferBalance" in
  let nonce := generateNonce now in
  arrow queryParams (fun pick =>
    [("command", VStr command); ("nonce", VNum nonce); ("currency", pick "currency");
     ("amount", pick "amount"); ("fromAddress", pick "fromAddress");
     ("toAddress", pick "toAddress")]).

Definition transferBalance (now : Z) (queryParams : value) : M settled :=
  post_with (transferBalance_params now queryParams).

Definition returnMarginAccountSummary_params (now : Z) : object :=
  let command := "returnMarginAccountSummary" in
  let nonce := generateNonce now in
  [("command", VStr command); ("nonce", VNum nonce)].

Definition returnMarginAccountSummary (now : Z) : M settled :=
  postToPrivateEndpoint axios (returnMarginAccountSummary_params now)
    (default_requestConfig requestConfig).

Definition marginBuy_params (now : Z) (queryParams : value) : completion object :=
  let command := "marginBuy" in
  let nonce := generateNonce now in
  arrow queryParams (fun pick =>
    [("command", VStr command); ("nonce", VNum nonce);
     ("currencyPair", pick "currencyPair"); ("rate", pick "rate");
     ("amount", pick "amount"); ("lendingRate", pick "lendingRate")]).

Definition marginBuy (now : Z) (queryParams : value) : M settled :=
  post_with (marginBuy_params now queryParams).

Definition marginSell_params (now : Z) (queryParams : value) : completion object :=
  let command := "marginSell" in
  let nonce := generateNonce now in
  arrow queryParams (fun pick =>
    [("command", VStr command); ("nonce", VNum nonce);
     ("currencyPair", pick "currencyPair"); ("rate", pick "rate");
     ("amount", pick "amount"); ("lendingRate", pick "lendingRate")]).

Definition marginSell (now : Z) (queryParams : value) : M settled :=
  post_with (marginSell_params now queryParams).

Definition getMarginPosition_params (now : Z) (queryParams : value) : object :=
  let command := "getMarginPosition" in
  let nonce := generateNonce now in
  let required := VObj [("command", VStr command); ("nonce", VNum nonce)] in
  let optional :=
    if truthy queryParams
    then VObj [("currencyPair", prop queryParams "currencyPair")]
    else VObj [("currencyPair", VStr "all")] in
  spread (spread [] required) optional.

Definition getMarginPosition (now : Z) (queryParams : value) : M settled :=
  postToPrivateEndpoint axios (getMarginPosition_params now queryParams)
    (default_requestConfig requestConfig).

Definition closeMarginPosition_params (now : Z) (queryParams : value) : completion object :=
  let command := "closeMarginPosition" in
  let nonce := generateNonce now in
  arrow queryParams (fun pick =>
    [("command", VStr command); ("nonce", VNum nonce);
     ("currencyPair", pick "currencyPair")]).

Definition closeMarginPosition (now : Z) (queryParams : value) : M settled :=
  post_with (closeMarginPosition_params now queryParams).

Definition createLoanOffer_params (now : Z) (queryParams : value) : completion object :=
  let command := "createLoanOffer" in
  let nonce := generateNonce now in
  arrow queryParams (fun pick =>
    [("command", VStr command); ("nonce", VNum nonce); ("currency", pick "currency");
     ("amount", pick "amount"); ("duration", pick "duration");
     ("autoRenew", pick "autoRenew"); ("lendingRate", pick "lendingRate")]).

Definition createLoanOffer (now : Z) (queryParams : value) : M settled :=
  post_with (createLoanOffer_params now queryParams).

Definition cancelLoanOffer_params (now : Z) (queryParams : value) : completion object :=
  let command := "cancelLoanOffer" in
  let nonce := generateNonce now in
  arrow queryParams (fun pick =>
    [("command", VStr command); ("nonce", VNum nonce); ("orderNumber", pick "orderNumber")]).

Definition cancelLoanOffer (now : Z) (queryParams : value) : M settled :=
  post_with (cancelLoanOffer_params now queryParams).

Definition returnOpenLoanOffers_params (now : Z) : object :=
  let command := "returnOpenLoanOffers" in
  let nonce := generateNonce now in
  [("command", VStr command); ("nonce", VNum nonce)].

Definition returnOpenLoanOffers (now : Z) : M settled :=
  postToPrivateEndpoint axios (returnOpenLoanOffers_params now)
    (default_requestConfig requestConfig).

Definition returnActiveLoans_params (now : Z) : object :=
  let command := "returnActiveLoans" in
  let nonce := generateNonce now in
  [("command", VStr command); ("nonce", VNum nonce)].

Definition returnActiveLoans (now : Z) : M settled :=
  postToPrivateEndpoint axios (returnActiveLoans_params now) (default_requestConfig requestConfig).

Definition returnLendingHistory_params (now : Z) (queryParams : value) : completion object :=
  let command := "returnLendingHistory" in
  let nonce := generateNonce now in
  arrow queryParams (fun pick =>
    [("command", VStr command); ("nonce", VNum nonce); ("start", pick "start");
     ("end", pick "end"); ("limit", pick "limit")]).

Definition returnLendingHistory (now : Z) (queryParams : value) : M settled :=
  post_with (returnLendingHistory_params now queryParams).

Definition toggleAutoRenew_params (now : Z) (queryParams : value) : completion object :=
  let command := "toggleAutoRenew" in
  let nonce := generateNonce now in
  arrow queryParams (fun pick =>
    [("command", VStr command); ("nonce", VNum nonce); ("orderNumber", pick "orderNumber")]).

Definition toggleAutoRenew (now : Z) (queryParams : value) : M settled :=
  post_with (toggleAutoRenew_params now queryParams).

End Methods.
End Client.

End Agent.

(* ================================================================== *)
(** * Vocabulary of the statements *)

(** [configOverride] has an own property [k]. *)
Definition overrides (configOverride : value) (k : string) : bool :=
  match configOverride with
  | VObj props => match lookup k props with Some _ => true | None => false end
  | _ => false
  end.

Definition nullish (v : value) : bool :=
  match v with
  | VUndefined | VNull => true
  | _ => false
  end.

(** The first truthy candidate, [fallback] when there is none. *)
Fixpoint first_truthy (candidates : list value) (fallback : value) : value :=
  match candidates with
  | [] => fallback
  | c :: rest => if truthy c then c else first_truthy rest fallback
  end.

(** [cfg] is a POST whose body is the serialization of [data], signed for
    [a]: [Key] and [Sign] are as they must be, and every other header is
    the one of [base_headers]. *)
Definition signed_post (a : IApiAuth) (data : object) (base_headers : value) (cfg : value)
  : Prop :=
  prop cfg "method" = VStr "POST" /\
  prop cfg "data" = VStr (Qs.stringify data) /\
  prop (prop cfg "headers") "Key" = VStr (publicKey a) /\
  prop (prop cfg "headers") "Sign" =
    VStr (Crypto.createHmac_sha512_hex (privateKey a) (Qs.stringify data)) /\
  (forall k, k <> "Key" -> k <> "Sign" ->
     prop (prop cfg "headers") k = prop base_headers k).

(** [cfg] is a GET of the public endpoint with [queryParams] in the query
    string and neither a [Key] nor a [Sign] header. *)
Definition public_get (queryParams : option object) (cfg : value) : Prop :=
  prop cfg "method" = VStr "GET" /\
  prop cfg "url" = VStr ("/public?" ++ Qs.stringify_opt queryParams)%string /\
  prop (prop cfg "headers") "Key" = VUndefined /\
  prop (prop cfg "headers") "Sign" = VUndefined.

(** Two mock transports: one answers every call, one fails every call
    with [err]. *)
Definition answering : transport := fun _ _ => Resolved (VObj [("status", VNum 200)]).
Definition failing (err : value) : transport := fun _ _ => Rejected err.

(** The transport error whose response body is [{error: "Invalid nonce"}]. *)
Definition invalid_nonce : value :=
  VObj [("response", VObj [("status", VNum 422);
                           ("data", VObj [("error", VStr "Invalid nonce")])])].

Definition sample_auth : IApiAuth := {| publicKey := "PUB"; privateKey := "SECRET" |}.
Definition other_auth : IApiAuth := {| publicKey := "PUB2"; privateKey := "SECRET2" |}.

(* ================================================================== *)
(** * The methods of the client, listed *)

(** How a method takes its [queryParams]: not at all, through an arrow
    that binds the listed names unconditionally, or only when the argument
    is truthy, [otherwise] being an argument that stands for its absence. *)
Inductive arity : Type :=
| Nullary
| Required (fields : list string)
| Optional (fields : list string) (otherwise : value).

(** A method of the client: its name, the command it names, whether it
    goes to the private endpoint, how it takes its argument, and the
    method itself, given the clock reading of its [generateNonce()] call
    (if it makes one) and its argument. *)
Record operation : Type := {
  method : string;
  command : string;
  private : bool;
  argument : arity;
  run : Z -> value -> M settled
}.

Definition index_operations (axios : transport) : list operation :=
  [{| method := "returnTicker"; command := "returnTicker"; private := false;
     argument := Nullary;
     run := fun _ _ => Index.Client.returnTicker axios |};
   {| method := "return24Volume"; command := "return24hVolume"; private := false;
     argument := Nullary;
     run := fun _ _ => Index.Client.return24Volume axios |};
   {| method := "returnOrderBook"; command := "returnOrderBook"; private := false;
     argument := Optional ["currencyPair"; "depth"] (VObj [("currencyPair", VStr "all")]);
     run := fun _ => Index.Client.returnOrderBook axios |};
   {| method := "returnPublicTradeHistory"; command := "returnPublicTradeHistory"; private := false;
     argument := Required ["currencyPair"; "start"; "end"];
     run := fun _ => Index.Client.returnPublicTradeHistory axios |};
   {| method := "returnChartData"; command := "returnChartData"; private := false;
     argument := Required ["currencyPair"; "start"; "end"; "period"];
     run := fun _ => Index.Client.returnChartData axios |};
   {| method := "returnCurrencies"; command := "returnCurrencies"; private := false;
     argument := Nullary;
     run := fun _ _ => Index.Client.returnCurrencies axios |};
   {| method := "returnLoanOrders"; command := "returnLoanOrders"; private := false;
     argument := Required ["currency"];
     run := fun _ => Index.Client.returnLoanOrders axios |};
   {| method := "returnBalances"; command := "returnBalances"; private := true;
     argument := Nullary;
     run := fun now _ => Index.Client.returnBalances axios now |};
   {| method := "returnCompleteBalances"; command := "returnCompleteBalances"; private := true;
     argument := Optional ["account"] (VObj [("account", VStr "all")]);
     run := Index.Client.returnCompleteBalances axios |};
   {| method := "returnDepositAddress"; command := "returnDepositAddress"; private := true;
     argument := Nullary;
     run := fun now _ => Index.Client.returnDepositAddress axios now |};
   {| method := "generateNewAddress"; command := "generateNewAddress"; private := true;
     argument := Required ["currency"];
     run := Index.Client.generateNewAddress axios |};
   {| method := "returnDepositsWithdrawals"; command := "returnDepositsWithdrawals"; private := true;
     argument := Required ["start"; "end"];
     run := Index.Client.returnDepositsWithdrawals axios |};
   {| method := "returnOpenOrders"; command := "returnOpenOrders"; private := true;
     argument := Optional ["currencyPair"] (VObj [("currencyPair", VStr "all")]);
     run := Index.Client.returnOpenOrders axios |};
   {| method := "returnPrivateTradeHistory"; command := "returnPrivateTradeHistory"; private := true;
     argument := Optional ["currencyPair"; "start"; "end"; "limit"] (VObj [("currencyPair", VStr "all")]);
     run := Index.Client.returnPrivateTradeHistory axios |};
   {| method := "returnOrderTrades"; command := "returnOrderTrades"; private := true;
     argument := Required ["orderNumber"];
     run := Index.Client.returnOrderTrades axios |};
   {| method := "buy"; command := "buy"; private := true;
     argument := Required ["currencyPair"; "rate"; "amount"; "fillOrKill"; "immediateOrCancel"; "postOnly"];
     run := Index.Client.buy axios |};
   {| method := "sell"; command := "sell"; private := true;
     argument := Required ["currencyPair"; "rate"; "amount"; "fillOrKill"; "immediateOrCancel"; "postOnly"];
     run := Index.Client.sell axios |};
   {| method := "cancelOrder"; command := "cancelOrder"; private := true;
     argument := Required ["orderNumber"];
     run := Index.Client.cancelOrder axios |};
   {| method := "moveOrder"; command := "moveOrder"; private := true;
     argument := Required ["orderNumber"; "rate"; "amount"; "immediateOrCancel"; "postOnly"];
     run := Index.Client.moveOrder axios |};
   {| method := "withdraw"; command := "withdraw"; private := true;
     argument := Required ["currency"; "amount"; "address"; "paymentId"];
     run := Index.Client.withdraw axios |};
   {| method := "returnFeeInfo"; command := "returnFeeInfo"; private := true;
     argument := Nullary;
     run := fun now _ => Index.Client.returnFeeInfo axios now |};
   {| method := "returnAvailableAccountBalances"; command := "returnAvailableAccountBalances"; private := true;
     argument := Optional ["account"] (VObj []);
     run := Index.Client.returnAvailableAccountBalances axios |};
   {| method := "returnTradableBalances"; command := "returnTradableBalances"; private := true;
     argument := Nullary;
     run := fun now _ => Index.Client.returnTradableBalances axios now |};
   {| method := "transferBalance"; command := "transferBalance"; private := true;
     argument := Required ["currency"; "amount"; "fromAddress"; "toAddress"];
     run := Index.Client.transferBalance axios |};
   {| method := "returnMarginAccountSummary"; command := "returnMarginAccountSummary"; private := true;
     argument := Nullary;
     run := fun now _ => Index.Client.returnMarginAccountSummary axios now |};
   {| method := "marginBuy"; command := "marginBuy"; private := true;
     argument := Required ["currencyPair"; "rate"; "amount"; "lendingRate"];
     run := Index.Client.marginBuy axios |};
   {| method := "marginSell"; command := "marginSell"; private := true;
     argument := Required ["currencyPair"; "rate"; "amount"; "lendingRate"];
     run := Index.Client.marginSell axios |};
   {| method := "getMarginPosition"; command := "getMarginPosition"; private := true;
     argument := Optional ["currencyPair"] (VObj [("currencyPair", VStr "all")]);
     run := Index.Client.getMarginPosition axios |};
   {| method := "closeMarginPosition"; command := "closeMarginPosition"; private := true;
     argument := Required ["currencyPair"];
     run := Index.Client.closeMarginPosition axios |};
   {| method := "createLoanOffer"; command := "createLoanOffer"; private := true;
     argument := Required ["currency"; "amount"; "duration"; "autoRenew"; "lendingRate"];
     run := Index.Client.createLoanOffer axios |};
   {| method := "cancelLoanOffer"; command := "cancelLoanOffer"; private := true;
     argument := Required ["orderNumber"];
     run := Index.Client.cancelLoanOffer axios |};
   {| method := "returnOpenLoanOffers"; command := "returnOpenLoanOffers"; private := true;
     argument := Nullary;
     run := fun now _ => Index.Client.returnOpenLoanOffers axios now |};
   {| method := "returnActiveLoans"; command := "returnActiveLoans"; private := true;
     argument := Nullary;
     run := fun now _ => Index.Client.returnActiveLoans axios now |};
   {| method := "returnLendingHistory"; command := "returnLendingHistory"; private := true;
     argument := Required ["start"; "end"; "limit"];
     run := Index.Client.returnLendingHistory axios |};
   {| method := "toggleAutoRenew"; command := "toggleAutoRenew"; private := true;
     argument := Required ["orderNumber"];
     run := Index.Client.toggleAutoRenew axios |}].

Definition agent_operations (axios : transport) (requestConfig : value) : list operation :=
  [{| method := "returnTicker"; command := "returnTicker"; private := false;
     argument := Nullary;
     run := fun _ _ => Agent.Client.returnTicker axios requestConfig |};
   {| method := "return24Volume"; command := "return24hVolume"; private := false;
     argument := Nullary;
     run := fun _ _ => Agent.Client.return24Volume axios requestConfig |};
   {| method := "returnOrderBook"; command := "returnOrderBook"; private := false;
     argument := Optional ["currencyPair"; "depth"] (VObj [("currencyPair", VStr "all")]);
     run := fun _ => Agent.Client.returnOrderBook axios requestConfig |};
   {| method := "returnPublicTradeHistory"; command := "returnTradeHistory"; private := false;
     argument := Required ["currencyPair"; "start"; "end"];
     run := fun _ => Agent.Client.returnPublicTradeHistory axios requestConfig |};
   {| method := "returnChartData"; command := "returnChartData"; private := false;
     argument := Required ["currencyPair"; "start"; "end"; "period"];
     run := fun _ => Agent.Client.returnChartData axios requestConfig |};
   {| method := "returnCurrencies"; command := "returnCurrencies"; private := false;
     argument := Nullary;
     run := fun _ _ => Agent.Client.returnCurrencies axios requestConfig |};
   {| method := "returnLoanOrders"; command := "returnLoanOrders"; private := false;
     argument := Required ["currency"];
     run := fun _ => Agent.Client.returnLoanOrders axios requestConfig |};
   {| method := "returnBalances"; command := "returnBalances"; private := true;
     argument := Nullary;
     run := fun now _ => Agent.Client.returnBalances axios requestConfig now |};
   {| method := "returnCompleteBalances"; command := "returnCompleteBalances"; private := true;
     argument := Optional ["account"] (VObj [("account", VStr "all")]);
     run := Agent.Client.returnCompleteBalances axios requestConfig |};
   {| method := "returnDepositAddress"; command := "returnDepositAddress"; private := true;
     argument := Nullary;
     run := fun now _ => Agent.Client.returnDepositAddress axios requestConfig now |};
   {| method := "generateNewAddress"; command := "generateNewAddress"; private := true;
     argument := Required ["currency"];
     run := Agent.Client.generateNewAddress axios requestConfig |};
   {| method := "returnDepositsWithdrawals"; command := "returnDepositsWithdrawals"; private := true;
     argument := Required ["start"; "end"];
     run := Agent.Client.returnDepositsWithdrawals axios requestConfig |};
   {| method := "returnOpenOrders"; command := "returnOpenOrders"; private := true;
     argument := Optional ["currencyPair"] (VObj [("currencyPair", VStr "all")]);
     run := Agent.Client.returnOpenOrders axios requestConfig |};
   {| method := "returnPrivateTradeHistory"; command := "returnTradeHistory"; private := true;
     argument := Optional ["currencyPair"; "start"; "end"; "limit"] (VObj [("currencyPair", VStr "all")]);
     run := Agent.Client.returnPrivateTradeHistory axios requestConfig |};
   {| method := "returnOrderTrades"; command := "returnOrderTrades"; private := true;
     argument := Required ["orderNumber"];
     run := Agent.Client.returnOrderTrades axios requestConfig |};
   {| method := "buy"; command := "buy"; private := true;
     argument := Required ["currencyPair"; "rate"; "amount"; "fillOrKill"; "immediateOrCancel"; "postOnly"];
     run := Agent.Client.buy axios requestConfig |};
   {| method := "sell"; command := "sell"; private := true;
     argument := Required ["currencyPair"; "rate"; "amount"; "fillOrKill"; "immediateOrCancel"; "postOnly"];
     run := Agent.Client.sell axios requestConfig |};
   {| method := "cancelOrder"; command := "cancelOrder"; private := true;
     argument := Required ["orderNumber"];
     run := Agent.Client.cancelOrder axios requestConfig |};
   {| method := "moveOrder"; command := "moveOrder"; private := true;
     argument := Required ["orderNumber"; "rate"; "amount"; "immediateOrCancel"; "postOnly"];
     run := Agent.Client.moveOrder axios requestConfig |};
   {| method := "withdraw"; command := "withdraw"; private := true;
     argument := Required ["currency"; "amount"; "address"; "paymentId"];
     run := Agent.Client.withdraw axios requestConfig |};
   {| method := "returnFeeInfo"; command := "returnFeeInfo"; private := true;
     argument := Nullary;
     run := fun now _ => Agent.Client.returnFeeInfo axios requestConfig now |};
   {| method := "returnAvailableAccountBalances"; command := "returnAvailableAccountBalances"; private := true;
     argument := Optional ["account"] (VObj []);
     run := Agent.Client.returnAvailableAccountBalances axios requestConfig |};
   {| method := "returnTradableBalances"; command := "returnTradableBalances"; private := true;
     argument := Nullary;
     run := fun now _ => Agent.Client.returnTradableBalances axios requestConfig now |};
   {| method := "transferBalance"; command := "transferBalance"; private := true;
     argument := Required ["currency"; "amount"; "fromAddress"; "toAddress"];
     run := Agent.Client.transferBalance axios requestConfig |};
   {| method := "returnMarginAccountSummary"; command := "returnMarginAccountSummary"; private := true;
     argument := Nullary;
     run := fun now _ => Agent.Client.returnMarginAccountSummary axios requestConfig now |};
   {| method := "marginBuy"; command := "marginBuy"; private := true;
     argument := Required ["currencyPair"; "rate"; "amount"; "lendingRate"];
     run := Agent.Client.marginBuy axios requestConfig |};
   {| method := "marginSell"; command := "marginSell"; private := true;
     argument := Required ["currencyPair"; "rate"; "amount"; "lendingRate"];
     run := Agent.Client.marginSell axios requestConfig |};
   {| method := "getMarginPosition"; command := "getMarginPosition"; private := true;
     argument := Optional ["currencyPair"] (VObj [("currencyPair", VStr "all")]);
     run := Agent.Client.getMarginPosition axios requestConfig |};
   {| method := "closeMarginPosition"; command := "closeMarginPosition"; private := true;
     argument := Required ["currencyPair"];
     run := Agent.Client.closeMarginPosition axios requestConfig |};
   {| method := "createLoanOffer"; command := "createLoanOffer"; private := true;
     argument := Required ["currency"; "amount"; "duration"; "autoRenew"; "lendingRate"];
     run := Agent.Client.createLoanOffer axios requestConfig |};
   {| method := "cancelLoanOffer"; command := "cancelLoanOffer"; private := true;
     argument := Required ["orderNumber"];
     run := Agent.Client.cancelLoanOffer axios requestConfig |};
   {| method := "returnOpenLoanOffers"; command := "returnOpenLoanOffers"; private := true;
     argument := Nullary;
     run := fun now _ => Agent.Client.returnOpenLoanOffers axios requestConfig now |};
   {| method := "returnActiveLoans"; command := "returnActiveLoans"; private := true;
     argument := Nullary;
     run := fun now _ => Agent.Client.returnActiveLoans axios requestConfig now |};
   {| method := "returnLendingHistory"; command := "returnLendingHistory"; private := true;
     argument := Required ["start"; "end"; "limit"];
     run := Agent.Client.returnLendingHistory axios requestConfig |};
   {| method := "toggleAutoRenew"; command := "toggleAutoRenew"; private := true;
     argument := Required ["orderNumber"];
     run := Agent.Client.toggleAutoRenew axios requestConfig |}].

(** The names an operation reads from its argument. *)
Definition fields_of (op : operation) : list string :=
  match argument op with
  | Nullary => []
  | Required fields => fields
  | Optional fields _ => fields
  end.

(** The parameters that are serialized: those whose value is not
    [undefined]. *)
Definition is_defined (v : value) : bool :=
  match v with
  | VUndefined => false
  | _ => true
  end.

Definition defined_only (params : object) : object :=
  filter (fun kv => is_defined (snd kv)) params.

(** A value [qs] writes as one [key=value] pair. *)
Definition scalar (v : value) : bool :=
  match v with
  | VNull | VBool _ | VNum _ | VStr _ => true
  | _ => false
  end.

(** Occurrences of a character in a string. *)
Fixpoint count_char (c : ascii) (s : string) : nat :=
  match s with
  | EmptyString => O
  | String c' s' => ((if Ascii.eqb c c' then 1 else 0) + count_char c s')%nat
  end.

(** The keys of an object are distinct. *)
Definition well_formed (o : object) : Prop := NoDup (map fst o).

(* ================================================================== *)
(** * Reading a request back, and sessions *)

(** The pieces of [s] between the occurrences of [c]. *)
Fixpoint split_on (c : ascii) (s : string) : list string :=
  match s with
  | EmptyString => [EmptyString]
  | String c' s' =>
      if Ascii.eqb c c' then EmptyString :: split_on c s'
      else match split_on c s' with
           | [] => [String c' EmptyString]
           | piece :: pieces => String c' piece :: pieces
           end
  end.

(** [s] without its prefix [p], when it starts with it. *)
Fixpoint strip_prefix (p s : string) : option string :=
  match p, s with
  | EmptyString, _ => Some s
  | String a p', String b s' => if Ascii.eqb a b then strip_prefix p' s' else None
  | String _ _, EmptyString => None
  end.

(** The integer a string of decimal digits (with an optional sign) denotes. *)
Definition parse_integer (s : string) : option Z :=
  option_map Z.of_int (NilZero.int_of_string s).

Fixpoint first_some {A B : Type} (f : A -> option B) (l : list A) : option B :=
  match l with
  | [] => None
  | x :: l' => match f x with Some y => Some y | None => first_some f l' end
  end.

(** The nonce of a urlencoded body: the integer of the first [nonce=...]
    pair among the pairs that [&] separates. *)
Definition nonce_of_body (body : string) : option Z :=
  first_some (fun pair => match strip_prefix "nonce=" pair with
                          | Some digits => parse_integer digits
                          | None => None
                          end)
             (split_on "&" body).

(** The nonce a request carries: the one in the body handed to the
    transport, the [data] of the configuration. *)
Definition nonce_of_request (cfg : value) : option Z :=
  match prop cfg "data" with
  | VStr body => nonce_of_body body
  | _ => None
  end.

(** The nonces of a list of requests, in order. *)
Definition nonces_of (sent : list value) : list Z :=
  flat_map (fun cfg => match nonce_of_request cfg with
                       | Some n => [n]
                       | None => []
                       end) sent.

(** One call of a method of the client: the method, what [Date.now()]
    returns in its [generateNonce()], and its argument. *)
Record call : Type := { callee : operation; clock : Z; given : value }.

(** A session: the calls are made one after the other on the same client. *)
Fixpoint session (calls : list call) : M (list settled) :=
  match calls with
  | [] => ret []
  | c :: later =>
      r <- run (callee c) (clock c) (given c) ;;
      rs <- session later ;;
      ret (r :: rs)
  end.

(** A clock reading whose thousandfold is a safe integer, so that the
    product in [generateNonce] is exact (every date until the year 2255). *)
Definition exact_reading (now : Z) : Prop := 0 <= now /\ now * 1000 <= 2 ^ 53.

(** Whether a method that takes its argument this way gets as far as its
    request when given [queryParams]: only the arrow that binds the fields
    unconditionally throws, on [undefined] and on [null]. *)
Definition takes (how : arity) (queryParams : value) : bool :=
  match how with
  | Required _ => negb (nullish queryParams)
  | Nullary | Optional _ _ => true
  end.

(** A call of a private method among [ops], with an argument the method
    takes and an exact clock reading. *)
Definition private_call (ops : list operation) (c : call) : Prop :=
  In (callee c) ops /\ private (callee c) = true /\
  takes (argument (callee c)) (given c) = true /\ exact_reading (clock c).

(* ================================================================== *)
(** * Objects: lookup after update and after spread *)

Lemma lookup_set_prop_same (o : object) (k : string) (v : value) :
  lookup k (set_prop o k v) = Some v.
Proof.
  induction o as [|[k' v'] o IH]; simpl.
  - now rewrite String.eqb_refl.
  - destruct (String.eqb_spec k k') as [->|Hne]; simpl.
    + now rewrite String.eqb_refl.
    + apply String.eqb_neq in Hne. now rewrite Hne.
Qed.

Lemma lookup_set_prop_other (o : object) (k k' : string) (v : value) :
  k <> k' -> lookup k (set_prop o k' v) = lookup k o.
Proof.
  intros Hne. induction o as [|[k0 v0] o IH]; simpl.
  - apply String.eqb_neq in Hne. now rewrite Hne.
  - destruct (String.eqb_spec k' k0) as [->|Hk]; simpl.
    + apply String.eqb_neq in Hne. now rewrite Hne.
    + now rewrite IH.
Qed.

Lemma lookup_spread_unset (k : string) (src : value) (target : object) :
  overrides src k = false -> lookup k (spread target src) = lookup k target.
Proof.
  destruct src as [| | | | |props| |]; simpl; try reflexivity.
  revert target. induction props as [|[k' v] props IH]; intros target H; simpl in *.
  - reflexivity.
  - destruct (String.eqb_spec k k') as [->|Hne]; [discriminate|].
    rewrite IH by exact H. now apply lookup_set_prop_other.
Qed.

Lemma prop_spread_unset (k : string) (src : value) (target : object) :
  overrides src k = false -> prop (VObj (spread target src)) k = prop (VObj target) k.
Proof. intros H. unfold prop. now rewrite lookup_spread_unset. Qed.

(* ================================================================== *)
(** * The digest: length and alphabet *)

Lemma be_bytes_length (n : nat) (x : Z) : List.length (Bytes.be_bytes n x) = n.
Proof. induction n; simpl; congruence. Qed.

Lemma digest_bytes_length (H : Crypto.hash_state) :
  List.length (Crypto.digest_bytes H) = 64%nat.
Proof.
  destruct H as [[[[[[[a b] c] d] e] f] g] h]. unfold Crypto.digest_bytes.
  repeat rewrite length_app. repeat rewrite be_bytes_length. reflexivity.
Qed.

Lemma sha512_length (msg : Bytes.bytes) : List.length (Crypto.sha512 msg) = 64%nat.
Proof. unfold Crypto.sha512. apply digest_bytes_length. Qed.

Lemma hex_digit_lower (d : Z) :
  0 <= d < 16 -> Bytes.is_lower_hex (Bytes.hex_digit d) = true.
Proof.
  intros H.
  assert (E : d = 0 \/ d = 1 \/ d = 2 \/ d = 3 \/ d = 4 \/ d = 5 \/ d = 6 \/ d = 7 \/
              d = 8 \/ d = 9 \/ d = 10 \/ d = 11 \/ d = 12 \/ d = 13 \/ d = 14 \/ d = 15)
    by lia.
  repeat (destruct E as [->|E]; [reflexivity|]). subst d. reflexivity.
Qed.

Lemma hex_length (bs : Bytes.bytes) :
  String.length (Bytes.hex bs) = (2 * List.length bs)%nat.
Proof. induction bs as [|b bs IH]; simpl; [reflexivity|]. rewrite IH. lia. Qed.

Lemma hex_lower (bs : Bytes.bytes) :
  Bytes.all_chars Bytes.is_lower_hex (Bytes.hex bs) = true.
Proof.
  induction bs as [|b bs IH]; [reflexivity|].
  cbn [Bytes.hex Bytes.all_chars].
  rewrite !hex_digit_lower, IH; [reflexivity| |].
  - apply Z.mod_pos_bound. lia.
  - apply Z.mod_pos_bound. lia.
Qed.

(** Known answers: SHA-512 of ["abc"] (FIPS 180-4) and test cases 2 and 6
    of RFC 4231. *)
Example sha512_abc :
  Bytes.hex (Crypto.sha512 (Bytes.of_string "abc")) =
  "ddaf35a193617abacc417349ae20413112e6fa4e89a97ea20a9eeee64b55d39a2192992a274fc1a836ba3c23a3feebbd454d4423643ce80e2a9ac94fa54ca49f".
Proof. vm_compute. reflexivity. Qed.

Example hmac_rfc4231_case2 :
  Crypto.createHmac_sha512_hex "Jefe" "what do ya want for nothing?" =
  "164b7a7bfcf819e2e395fbe73b56e0a387bd64222e831fd610270cd7ea2505549758bf75c05a994a6d034f65f8f0e6fdcaeab1a34d4a6b4b636e070a38bce737".
Proof. vm_compute. reflexivity. Qed.

Example hmac_rfc4231_case6 :
  Bytes.hex (Crypto.hmac_sha512 (repeat 0xaa 131)
               (Bytes.of_string "Test Using Larger Than Block-Size Key - Hash Key First")) =
  "80b24263c7c1a3ebb71493c1dd7be8b49b46d1f41b4aeec1121b013783f8f3526b56d037e05f2598bd0fd2215d6a1e5295e64f73f63f0aec8b915a985d786598".
Proof. vm_compute. reflexivity. Qed.

(** C8. For every parameter map and every secret, the empty one included,
    [signMessage] returns exactly 128 characters, each a lowercase
    hexadecimal digit: the 64 bytes of an HMAC-SHA512 digest in hex. *)
Theorem signMessage_is_128_lower_hex (postBody : object) (key : string) :
  String.length (signMessage postBody key) = 128%nat /\
  Bytes.all_chars Bytes.is_lower_hex (signMessage postBody key) = true.
Proof.
  unfold signMessage, Crypto.createHmac_sha512_hex, Crypto.hmac_sha512. split.
  - rewrite hex_length, sha512_length. reflexivity.
  - apply hex_lower.
Qed.

(* ================================================================== *)
(** * Private requests *)

Section PrivateRequests.
Variable axios : transport.
Variables (a : IApiAuth) (data : object).

Lemma index_private_headers :
  Index.private_headers a data =
  [("User-Agent", VStr "Poloniex API Client (poloniex-api node package)");
   ("Key", VStr (publicKey a));
   ("Sign", VStr (signMessage data (privateKey a)))].
Proof. reflexivity. Qed.

Lemma local_config_unset (configOverride : value) (k : string) :
  overrides configOverride k = false ->
  lookup k Agent.defaultConfig = None ->
  overrides (VObj (Agent.local_config configOverride)) k = false.
Proof.
  intros Ho Hd. unfold overrides at 1, Agent.local_config.
  rewrite lookup_spread_unset by exact Ho.
  change (spread [] (VObj Agent.defaultConfig)) with Agent.defaultConfig.
  now rewrite Hd.
Qed.

Lemma agent_private_headers (configOverride : value) :
  overrides configOverride "headers" = false ->
  Agent.private_headers a data configOverride =
  [("User-Agent", VStr "Poloniex API Client (poloniex-exchange-api node package)");
   ("Key", VStr (publicKey a));
   ("Sign", VStr (signMessage data (privateKey a)))].
Proof.
  intros Ho.
  assert (Hc : prop (VObj (Agent.local_config configOverride)) "headers" = VUndefined).
  { pose proof (local_config_unset configOverride "headers" Ho eq_refl) as Hc.
    unfold overrides in Hc. unfold prop.
    destruct (lookup "headers" (Agent.local_config configOverride));
      [discriminate|reflexivity]. }
  unfold Agent.private_headers. cbn [truthy]. rewrite Hc. reflexivity.
Qed.

Lemma signed_headers (ua : string) (k : string) :
  k <> "Key" -> k <> "Sign" ->
  prop (VObj [("User-Agent", VStr ua); ("Key", VStr (publicKey a));
              ("Sign", VStr (signMessage data (privateKey a)))]) k =
  prop (VObj [("User-Agent", VStr ua)]) k.
Proof.
  intros Hk Hs. unfold prop, lookup.
  apply String.eqb_neq in Hk, Hs. rewrite Hk, Hs.
  destruct (k =? "User-Agent")%string; reflexivity.
Qed.

Lemma index_signed_post :
  signed_post a data (prop (VObj Index.privateAgentConfig) "headers")
              (VObj (Index.private_agentConfig a data)).
Proof.
  unfold signed_post. repeat split; try reflexivity.
  intros k Hk Hs.
  change (prop (VObj (Index.private_agentConfig a data)) "headers")
    with (VObj (Index.private_headers a data)).
  rewrite index_private_headers. now apply signed_headers.
Qed.

Lemma agent_signed_post (configOverride : value) :
  overrides configOverride "method" = false ->
  overrides configOverride "data" = false ->
  overrides configOverride "headers" = false ->
  signed_post a data (prop (VObj Agent.privateAgentConfig) "headers")
              (VObj (Agent.private_agentConfig a data configOverride)).
Proof.
  intros Hm Hd Hh. unfold signed_post, Agent.private_agentConfig.
  rewrite !prop_spread_unset by (apply local_config_unset; [assumption|reflexivity]).
  rewrite (agent_private_headers configOverride Hh).
  repeat split; try reflexivity.
  intros k Hk Hs.
  match goal with
  | |- prop (prop (VObj ?o) "headers") k = _ =>
      change (prop (VObj o) "headers")
        with (VObj [("User-Agent", VStr "Poloniex API Client (poloniex-exchange-api node package)");
                    ("Key", VStr (publicKey a));
                    ("Sign", VStr (signMessage data (privateKey a)))])
  end.
  now apply signed_headers.
Qed.

Lemma index_private_sends (st : Store) :
  auth st = Some a ->
  requests (snd (Index.postToPrivateEndpoint axios data st)) =
  requests st ++ [VObj (Index.private_agentConfig a data)].
Proof.
  intros Ha. unfold Index.postToPrivateEndpoint, bindM, Index.isUpgraded.
  rewrite Ha. cbn [auth_value truthy negb]. rewrite Ha. unfold send.
  destruct (axios _ _); reflexivity.
Qed.

Lemma agent_private_sends (configOverride : value) (st : Store) :
  auth st = Some a ->
  requests (snd (Agent.postToPrivateEndpoint axios data configOverride st)) =
  requests st ++ [VObj (Agent.private_agentConfig a data configOverride)].
Proof.
  intros Ha. unfold Agent.postToPrivateEndpoint, bindM, Agent.isUpgraded.
  rewrite Ha. cbn [auth_value truthy negb]. rewrite Ha. unfold send.
  destruct (axios _ _); reflexivity.
Qed.

End PrivateRequests.

(** C1, amended.  For an authenticated client, every parameter map and
    every request-config override that sets none of [method], [data] and
    [headers] (in [src/index.ts] there is no override at all),
    [postToPrivateEndpoint] hands the transport one POST configuration
    whose body is the urlencoded serialization of the parameters, whose
    [Key] header is the stored public key and whose [Sign] header is the
    HMAC-SHA512 of that very body under the stored private key; the other
    headers are the base headers, over which [Key] and [Sign] win. *)
Theorem private_request_is_signed_post
  (axios : transport) (a : IApiAuth) (data : object) (configOverride : value)
  (st : Store) :
  auth st = Some a ->
  overrides configOverride "method" = false ->
  overrides configOverride "data" = false ->
  overrides configOverride "headers" = false ->
  (requests (snd (Index.postToPrivateEndpoint axios data st)) =
     requests st ++ [VObj (Index.private_agentConfig a data)] /\
   signed_post a data (prop (VObj Index.privateAgentConfig) "headers")
               (VObj (Index.private_agentConfig a data)))
  /\
  (requests (snd (Agent.postToPrivateEndpoint axios data configOverride st)) =
     requests st ++ [VObj (Agent.private_agentConfig a data configOverride)] /\
   signed_post a data (prop (VObj Agent.privateAgentConfig) "headers")
               (VObj (Agent.private_agentConfig a data configOverride))).
Proof.
  intros Ha Hm Hd Hh. split; split.
  - now apply index_private_sends.
  - apply index_signed_post.
  - now apply agent_private_sends.
  - now apply agent_signed_post.
Qed.

Lemma private_request_is_signed_post_witness :
  let data := Agent.Client.returnBalances_params 1510000000000 in
  let st := Agent.getRawAgent (Some sample_auth) in
  (auth st = Some sample_auth /\
   overrides VNull "method" = false /\
   overrides VNull "data" = false /\
   overrides VNull "headers" = false) /\
  signed_post sample_auth data (prop (VObj Agent.privateAgentConfig) "headers")
              (VObj (Agent.private_agentConfig sample_auth data VNull)).
Proof.
  intros data st. split.
  - repeat split.
  - apply (private_request_is_signed_post answering sample_auth data VNull st);
      reflexivity.
Defined.

(** C1 as stated fails: a request-config override that carries [data]
    replaces the body, so the body sent is not the serialization of the
    parameters (and the signature is not over the body sent). *)
Lemma private_request_body_overridden :
  let configOverride := VObj [("data", VStr "command=withdraw")] in
  let data := Agent.Client.returnBalances_params 1510000000000 in
  let st := Agent.getRawAgent (Some sample_auth) in
  ~ (exists cfg,
        requests (snd (Agent.postToPrivateEndpoint answering data configOverride st)) =
          requests st ++ [cfg] /\
        signed_post sample_auth data (prop (VObj Agent.privateAgentConfig) "headers") cfg).
Proof.
  intros configOverride data st [cfg [Hreq [_ [Hbody _]]]].
  vm_compute in Hreq. injection Hreq as <-.
  vm_compute in Hbody. discriminate Hbody.
Qed.

(** C2.  Without credentials ([isUpgraded] falsy), [postToPrivateEndpoint]
    is rejected with the fixed "unauthenticated" reason and the store is
    left as it was: no configuration reaches the transport, whatever the
    transport is. *)
Theorem private_request_unauthenticated
  (axios : transport) (data : object) (configOverride : value) (st : Store) :
  truthy (fst (Agent.isUpgraded st)) = false ->
  Index.postToPrivateEndpoint axios data st =
    (Rejected (VStr "api keys are required to access private endpoints"), st) /\
  Agent.postToPrivateEndpoint axios data configOverride st =
    (Rejected (VStr "not authenticated"), st).
Proof.
  unfold Index.postToPrivateEndpoint, Agent.postToPrivateEndpoint, bindM, ret,
    Index.isUpgraded, Agent.isUpgraded.
  cbn [fst]. intros H. rewrite H. split; reflexivity.
Qed.

Lemma private_request_unauthenticated_witness :
  let st := Agent.getRawAgent None in
  let data := Agent.Client.returnBalances_params 1510000000000 in
  truthy (fst (Agent.isUpgraded st)) = false /\
  requests (snd (Agent.postToPrivateEndpoint answering data VNull st)) = [] /\
  fst (Agent.postToPrivateEndpoint answering data VNull st) =
    Rejected (VStr "not authenticated").
Proof.
  intros st data.
  destruct (private_request_unauthenticated answering data VNull st eq_refl) as [_ H].
  rewrite H. repeat split.
Defined.

(* ================================================================== *)
(** * Transport failures *)

Lemma get_present (v : value) (k : string) :
  nullish v = false -> get v k = Normal (prop v k).
Proof. destruct v; simpl; intros H; try reflexivity; discriminate. Qed.

Lemma rejectionReason_present (err : value) :
  let r := prop err "response" in
  let d := prop r "data" in
  nullish err = false -> nullish r = false -> nullish d = false ->
  Index.rejectionReason err = Normal (first_truthy [prop d "error"; d; r] err).
Proof.
  intros r d He Hr Hd. unfold Index.rejectionReason.
  rewrite (get_present err "response" He). cbn [bind]. fold r.
  rewrite (get_present r "data" Hr). cbn [bind]. fold d.
  rewrite (get_present d "error" Hd).
  unfold or_else, bind, first_truthy.
  destruct (truthy (prop d "error")); [reflexivity|].
  destruct (truthy d); [reflexivity|].
  destruct (truthy r); reflexivity.
Qed.

Lemma index_private_run (axios : transport) (a : IApiAuth) (data : object) (st : Store) :
  auth st = Some a ->
  Index.postToPrivateEndpoint axios data st =
  (match axios (requests st) (VObj (Index.private_agentConfig a data)) with
   | Resolved response => Resolved response
   | Rejected err => reject_with (Index.rejectionReason err)
   end,
   {| auth := auth st;
      requests := requests st ++ [VObj (Index.private_agentConfig a data)] |}).
Proof.
  intros Ha. unfold Index.postToPrivateEndpoint, bindM, Index.isUpgraded.
  rewrite Ha. cbn [auth_value truthy negb]. rewrite Ha. unfold send. rewrite Ha.
  destruct (axios _ _); reflexivity.
Qed.

Lemma agent_private_run (axios : transport) (a : IApiAuth) (data : object)
  (configOverride : value) (st : Store) :
  auth st = Some a ->
  Agent.postToPrivateEndpoint axios data configOverride st =
  (axios (requests st) (VObj (Agent.private_agentConfig a data configOverride)),
   {| auth := auth st;
      requests := requests st ++ [VObj (Agent.private_agentConfig a data configOverride)] |}).
Proof.
  intros Ha. unfold Agent.postToPrivateEndpoint, bindM, Agent.isUpgraded.
  rewrite Ha. cbn [auth_value truthy negb]. rewrite Ha. unfold send. rewrite Ha.
  destruct (axios _ _); reflexivity.
Qed.

Lemma agent_public_run (axios : transport) (q : option object) (configOverride : value)
  (st : Store) :
  Agent.getPublicEndpoint axios q configOverride st =
  (axios (requests st) (VObj (Agent.public_agentConfig q configOverride)),
   {| auth := auth st;
      requests := requests st ++ [VObj (Agent.public_agentConfig q configOverride)] |}).
Proof.
  unfold Agent.getPublicEndpoint, bindM, send. destruct (axios _ _); reflexivity.
Qed.

Lemma index_private_unauthenticated (axios : transport) (data : object) (st : Store) :
  auth st = None ->
  Index.postToPrivateEndpoint axios data st =
    (Rejected (VStr "api keys are required to access private endpoints"), st).
Proof.
  intros Ha. unfold Index.postToPrivateEndpoint, bindM, Index.isUpgraded.
  now rewrite Ha.
Qed.

Lemma agent_private_unauthenticated (axios : transport) (data : object)
  (configOverride : value) (st : Store) :
  auth st = None ->
  Agent.postToPrivateEndpoint axios data configOverride st =
    (Rejected (VStr "not authenticated"), st).
Proof.
  intros Ha. unfold Agent.postToPrivateEndpoint, bindM, Agent.isUpgraded.
  now rewrite Ha.
Qed.

Lemma nullish_prop (v : value) (k : string) :
  nullish (prop v k) = false -> nullish v = false.
Proof. destruct v; simpl; intros H; try reflexivity; discriminate. Qed.

(** C3, amended.  In [src/index.ts], when the transport fails on the
    request with an error [err] that carries a response with a body, the
    rejection is the first truthy one of the body's [error] field, the
    body, the response (and [err] itself after them); whenever the body's
    [error] field is the string ["Invalid nonce"], it is exactly that
    string.  In the later revision, when the transport fails on the
    request with [err], whatever [err] is, the rejection is [err] itself,
    unchanged. *)
Theorem private_request_rejection
  (axios : transport) (a : IApiAuth) (data : object) (configOverride : value)
  (st : Store) (err : value) :
  auth st = Some a ->
  (axios (requests st) (VObj (Index.private_agentConfig a data)) = Rejected err ->
   nullish (prop (prop err "response") "data") = false ->
   fst (Index.postToPrivateEndpoint axios data st) =
     Rejected (first_truthy [prop (prop (prop err "response") "data") "error";
                             prop (prop err "response") "data";
                             prop err "response"] err)) /\
  (axios (requests st) (VObj (Index.private_agentConfig a data)) = Rejected err ->
   prop (prop (prop err "response") "data") "error" = VStr "Invalid nonce" ->
   fst (Index.postToPrivateEndpoint axios data st) = Rejected (VStr "Invalid nonce")) /\
  (axios (requests st) (VObj (Agent.private_agentConfig a data configOverride)) =
     Rejected err ->
   fst (Agent.postToPrivateEndpoint axios data configOverride st) = Rejected err).
Proof.
  intros Ha.
  assert (Hchain : axios (requests st) (VObj (Index.private_agentConfig a data)) =
                     Rejected err ->
                   nullish (prop (prop err "response") "data") = false ->
                   fst (Index.postToPrivateEndpoint axios data st) =
                     Rejected (first_truthy
                                 [prop (prop (prop err "response") "data") "error";
                                  prop (prop err "response") "data";
                                  prop err "response"] err)).
  { intros Hax Hd.
    pose proof (nullish_prop _ _ Hd) as Hr. pose proof (nullish_prop _ _ Hr) as He.
    rewrite (index_private_run axios a data st Ha). cbn [fst]. rewrite Hax.
    now rewrite (rejectionReason_present err He Hr Hd). }
  split; [exact Hchain|]. split.
  - intros Hax Herror. rewrite (Hchain Hax).
    + cbn [first_truthy]. now rewrite Herror.
    + apply (nullish_prop _ "error"). now rewrite Herror.
  - intros Hax. rewrite (agent_private_run axios a data configOverride st Ha).
    cbn [fst]. exact Hax.
Qed.

Lemma private_request_rejection_witness :
  let data := Index.Client.returnBalances_params 1510000000000 in
  let st := Index.getRawClient (Some sample_auth) in
  fst (Index.postToPrivateEndpoint (failing invalid_nonce) data st) =
    Rejected (VStr "Invalid nonce") /\
  fst (Agent.postToPrivateEndpoint (failing invalid_nonce) data VNull st) =
    Rejected invalid_nonce.
Proof.
  intros data st.
  destruct (private_request_rejection (failing invalid_nonce) sample_auth data VNull st
              invalid_nonce eq_refl)
    as [H1 [_ H3]].
  split; [exact (H1 eq_refl eq_refl) | exact (H3 eq_refl)].
Defined.

(** C3 as stated fails: in the later revision the error whose response
    body is [{error: "Invalid nonce"}] is passed on whole; the rejection
    is the wrapping error, not the string. *)
Lemma agent_rejection_is_raw_error :
  let data := Agent.Client.returnBalances_params 1510000000000 in
  let st := Agent.getRawAgent (Some sample_auth) in
  fst (Agent.postToPrivateEndpoint (failing invalid_nonce) data VNull st) <>
    Rejected (VStr "Invalid nonce").
Proof. intros data st. vm_compute. discriminate. Qed.

(* ================================================================== *)
(** * Credentials *)

Lemma agent_upgrade_replaces (newAuth : IApiAuth) (st : Store) :
  Agent.Client.upgrade newAuth st =
    (Normal VUndefined, {| auth := Some newAuth; requests := requests st |}).
Proof. reflexivity. Qed.

(** In the later revision the second of two upgrades is the one that
    counts: the next private request is signed for the second pair. *)
Lemma agent_upgrade_twice (axios : transport) (first second : IApiAuth)
  (data : object) (st : Store) :
  let st2 := snd (Agent.Client.upgrade second (snd (Agent.Client.upgrade first st))) in
  requests (snd (Agent.postToPrivateEndpoint axios data VNull st2)) =
    requests st ++ [VObj (Agent.private_agentConfig second data VNull)] /\
  signed_post second data (prop (VObj Agent.privateAgentConfig) "headers")
              (VObj (Agent.private_agentConfig second data VNull)).
Proof.
  intros st2. split.
  - now rewrite (agent_private_sends axios second data VNull st2).
  - now apply agent_signed_post.
Qed.

(** C4.  In [src/index.ts] the client's [upgrade] does not succeed: it
    calls [update], which the raw client does not have, so the call throws
    a [TypeError] and the credentials stay as they were.  After two such
    upgrades of a client built without keys the store still holds none,
    and a private request is refused as unauthenticated. *)
Theorem index_client_upgrade_throws :
  (forall (newAuth : IApiAuth) (st : Store),
      Index.Client.upgrade newAuth st =
        (Throw (VTypeError "this.rawClient.update is not a function"), st)) /\
  (let st0 := Index.Client.getClient None in
   let st2 := snd (Index.Client.upgrade other_auth
                     (snd (Index.Client.upgrade sample_auth st0))) in
   auth st2 = None /\
   Index.Client.returnBalances answering 1510000000000 st2 =
     (Rejected (VStr "api keys are required to access private endpoints"), st0)).
Proof. split; [intros newAuth st|]; repeat split. Qed.

(** With the truthiness of its result, [isUpgraded] does tell whether
    credentials are present. *)
Lemma isUpgraded_truthy_iff (st : Store) :
  truthy (fst (Agent.isUpgraded st)) = true <-> auth st <> None.
Proof.
  unfold Agent.isUpgraded. cbn [fst]. destruct (auth st); simpl; split; congruence.
Qed.

(** C5.  [isUpgraded] does not return a boolean: it returns the [auth]
    field itself.  On a client built without credentials that is
    [undefined], not [false]; right after an upgrade it is the credentials
    object, private key included, not [true]. *)
Theorem isUpgraded_returns_auth_field :
  (forall (st : Store) (b : bool),
      fst (Agent.Client.isUpgraded st) <> VBool b /\
      fst (Index.Client.isUpgraded st) <> VBool b) /\
  fst (Agent.Client.isUpgraded (Agent.Client.getClient None)) = VUndefined /\
  fst (Index.Client.isUpgraded (Index.Client.getClient None)) = VUndefined /\
  (forall (newAuth : IApiAuth) (st : Store),
      fst (Agent.Client.isUpgraded (snd (Agent.Client.upgrade newAuth st))) =
        VObj [("publicKey", VStr (publicKey newAuth));
              ("privateKey", VStr (privateKey newAuth))] /\
      fst (Index.isUpgraded (snd (Index.upgrade newAuth st))) =
        VObj [("publicKey", VStr (publicKey newAuth));
              ("privateKey", VStr (privateKey newAuth))]).
Proof.
  repeat split; try reflexivity;
    unfold Agent.Client.isUpgraded, Index.Client.isUpgraded, Agent.isUpgraded,
      Index.isUpgraded; cbn [fst]; destruct (auth st); discriminate.
Qed.

(* ================================================================== *)
(** * What a request leaves alone *)

Lemma index_public_keeps_auth (axios : transport) (q : option object) (st : Store) :
  auth (snd (Index.getPublicEndpoint axios q st)) = auth st.
Proof. reflexivity. Qed.

Lemma agent_public_keeps_auth (axios : transport) (q : option object)
  (configOverride : value) (st : Store) :
  auth (snd (Agent.getPublicEndpoint axios q configOverride st)) = auth st.
Proof.
  unfold Agent.getPublicEndpoint, bindM, send. destruct (axios _ _); reflexivity.
Qed.

Lemma index_private_keeps_auth (axios : transport) (data : object) (st : Store) :
  auth (snd (Index.postToPrivateEndpoint axios data st)) = auth st.
Proof.
  unfold Index.postToPrivateEndpoint, bindM, Index.isUpgraded, ret, send.
  destruct (auth st) as [a|] eqn:Ha; cbn [auth_value truthy negb].
  - rewrite Ha. destruct (axios _ _); reflexivity.
  - exact Ha.
Qed.

Lemma agent_private_keeps_auth (axios : transport) (data : object)
  (configOverride : value) (st : Store) :
  auth (snd (Agent.postToPrivateEndpoint axios data configOverride st)) = auth st.
Proof.
  unfold Agent.postToPrivateEndpoint, bindM, Agent.isUpgraded, ret, send.
  destruct (auth st) as [a|] eqn:Ha; cbn [auth_value truthy negb].
  - rewrite Ha. destruct (axios _ _); reflexivity.
  - exact Ha.
Qed.

(** C9.  Neither send operation touches the credentials: after
    [getPublicEndpoint] and after [postToPrivateEndpoint], in both
    revisions and whatever the transport answers, the [auth] field is what
    it was.  The raw client's [upgrade] is what writes it. *)
Theorem send_operations_keep_auth
  (axios : transport) (q : option object) (data : object) (configOverride : value)
  (newAuth : IApiAuth) (st : Store) :
  auth (snd (Index.getPublicEndpoint axios q st)) = auth st /\
  auth (snd (Index.postToPrivateEndpoint axios data st)) = auth st /\
  auth (snd (Agent.getPublicEndpoint axios q configOverride st)) = auth st /\
  auth (snd (Agent.postToPrivateEndpoint axios data configOverride st)) = auth st /\
  auth (snd (Index.upgrade newAuth st)) = Some newAuth /\
  auth (snd (Agent.upgrade newAuth st)) = Some newAuth.
Proof.
  repeat split.
  - apply index_private_keeps_auth.
  - apply agent_public_keeps_auth.
  - apply agent_private_keeps_auth.
Qed.

(* ================================================================== *)
(** * Public requests *)

Lemma index_public_get (q : option object) :
  public_get q (VObj (Index.public_agentConfig q)).
Proof. repeat split. Qed.

Lemma agent_public_get (q : option object) (configOverride : value) :
  overrides configOverride "method" = false ->
  overrides configOverride "url" = false ->
  overrides configOverride "headers" = false ->
  public_get q (VObj (Agent.public_agentConfig q configOverride)).
Proof.
  intros Hm Hu Hh. unfold public_get, Agent.public_agentConfig.
  rewrite !prop_spread_unset by (apply local_config_unset; [assumption|reflexivity]).
  repeat split.
Qed.

Lemma agent_public_sends (axios : transport) (q : option object)
  (configOverride : value) (st : Store) :
  requests (snd (Agent.getPublicEndpoint axios q configOverride st)) =
  requests st ++ [VObj (Agent.public_agentConfig q configOverride)].
Proof.
  unfold Agent.getPublicEndpoint, bindM, send. destruct (axios _ _); reflexivity.
Qed.

(** C7, amended.  For every parameter map and every request-config
    override that sets none of [method], [url] and [headers] (in
    [src/index.ts] there is no override), [getPublicEndpoint] hands the
    transport one GET configuration whose URL is [/public?] followed by
    the urlencoded parameters and whose headers hold neither [Key] nor
    [Sign].  The order-book operation with [{currencyPair: "BTC_ETH"}] on a
    client without credentials issues
    GET [/public?command=returnOrderBook&currencyPair=BTC_ETH]. *)
Theorem public_request_is_get
  (axios : transport) (q : option object) (configOverride : value) (st : Store) :
  overrides configOverride "method" = false ->
  overrides configOverride "url" = false ->
  overrides configOverride "headers" = false ->
  (requests (snd (Index.getPublicEndpoint axios q st)) =
     requests st ++ [VObj (Index.public_agentConfig q)] /\
   public_get q (VObj (Index.public_agentConfig q))) /\
  (requests (snd (Agent.getPublicEndpoint axios q configOverride st)) =
     requests st ++ [VObj (Agent.public_agentConfig q configOverride)] /\
   public_get q (VObj (Agent.public_agentConfig q configOverride))) /\
  map (fun cfg => (prop cfg "method", prop cfg "url",
                   prop (prop cfg "headers") "Key", prop (prop cfg "headers") "Sign"))
      (requests (snd (Agent.Client.returnOrderBook axios VUndefined
                        (VObj [("currencyPair", VStr "BTC_ETH")])
                        (Agent.Client.getClient None)))) =
    [(VStr "GET", VStr "/public?command=returnOrderBook&currencyPair=BTC_ETH",
      VUndefined, VUndefined)] /\
  map (fun cfg => (prop cfg "method", prop cfg "url",
                   prop (prop cfg "headers") "Key", prop (prop cfg "headers") "Sign"))
      (requests (snd (Index.Client.returnOrderBook axios
                        (VObj [("currencyPair", VStr "BTC_ETH")])
                        (Index.Client.getClient None)))) =
    [(VStr "GET", VStr "/public?command=returnOrderBook&currencyPair=BTC_ETH",
      VUndefined, VUndefined)].
Proof.
  intros Hm Hu Hh. repeat split; try (now apply agent_public_get).
  - apply agent_public_sends.
  - unfold Agent.Client.returnOrderBook. rewrite agent_public_sends. reflexivity.
Qed.

Lemma public_request_is_get_witness :
  let q := Some [("command", VStr "returnTicker")] in
  overrides VNull "method" = false /\
  public_get q (VObj (Agent.public_agentConfig q VNull)) /\
  prop (VObj (Agent.public_agentConfig q VNull)) "url" =
    VStr "/public?command=returnTicker".
Proof.
  intros q.
  destruct (public_request_is_get answering q VNull (Agent.getRawAgent None)
              eq_refl eq_refl eq_refl) as [_ [[_ Hget] _]].
  split; [reflexivity|]. split; [exact Hget|]. exact (proj1 (proj2 Hget)).
Defined.

(** C7 as stated fails: a request-config override that carries [method]
    wins over the default, and the public request is no longer a GET. *)
Lemma public_request_method_overridden :
  let configOverride := VObj [("method", VStr "POST")] in
  let q := Some [("command", VStr "returnTicker")] in
  let st := Agent.getRawAgent None in
  ~ (exists cfg,
        requests (snd (Agent.getPublicEndpoint answering q configOverride st)) =
          requests st ++ [cfg] /\
        public_get q cfg).
Proof.
  intros configOverride q st [cfg [Hreq [Hmethod _]]].
  vm_compute in Hreq. injection Hreq as <-.
  vm_compute in Hmethod. discriminate Hmethod.
Qed.

(** C10.  A public request does not depend on the credentials: two
    stores that differ only in [auth] give, for the same parameters (and
    the same override), the same configuration to the transport and the
    same outcome; that configuration is a function of the parameters and
    the override alone. *)
Theorem public_request_ignores_credentials
  (axios : transport) (q : option object) (configOverride : value)
  (a1 a2 : option IApiAuth) (log : list value) :
  let st1 := {| auth := a1; requests := log |} in
  let st2 := {| auth := a2; requests := log |} in
  (fst (Index.getPublicEndpoint axios q st1) = fst (Index.getPublicEndpoint axios q st2) /\
   requests (snd (Index.getPublicEndpoint axios q st1)) =
     requests (snd (Index.getPublicEndpoint axios q st2)) /\
   requests (snd (Index.getPublicEndpoint axios q st1)) =
     log ++ [VObj (Index.public_agentConfig q)]) /\
  (fst (Agent.getPublicEndpoint axios q configOverride st1) =
     fst (Agent.getPublicEndpoint axios q configOverride st2) /\
   requests (snd (Agent.getPublicEndpoint axios q configOverride st1)) =
     requests (snd (Agent.getPublicEndpoint axios q configOverride st2)) /\
   requests (snd (Agent.getPublicEndpoint axios q configOverride st1)) =
     log ++ [VObj (Agent.public_agentConfig q configOverride)]).
Proof.
  intros st1 st2. split; [repeat split|].
  rewrite !agent_public_sends. repeat split.
  unfold Agent.getPublicEndpoint, bindM, send, st1, st2. cbn [requests].
  destruct (axios log _); reflexivity.
Qed.

(* ================================================================== *)
(** * Two behaviours worth recording *)

(** In the later revision an override that carries [headers] ends up as
    the headers of the request as it is: the merged headers, [Key] and
    [Sign] among them, are replaced when the local configuration is spread
    last. *)
Lemma agent_headers_override_replaces_merged :
  let configOverride := VObj [("headers", VObj [("Accept", VStr "application/json")])] in
  let data := Agent.Client.returnBalances_params 1510000000000 in
  let cfg := VObj (Agent.private_agentConfig sample_auth data configOverride) in
  prop (VObj (Agent.private_headers sample_auth data configOverride)) "Key" = VStr "PUB" /\
  prop cfg "headers" = VObj [("Accept", VStr "application/json")] /\
  prop (prop cfg "headers") "Key" = VUndefined /\
  prop (prop cfg "headers") "Sign" = VUndefined.
Proof. intros configOverride data cfg. vm_compute. repeat split. Qed.

(** In [src/index.ts] a transport error without a response (a network
    failure) is not passed on: reading [data] of the missing response
    throws, and the rejection is that [TypeError]. *)
Lemma index_rejection_without_response :
  let err := VObj [("message", VStr "Network Error"); ("code", VStr "ECONNREFUSED")] in
  let data := Index.Client.returnBalances_params 1510000000000 in
  let st := Index.getRawClient (Some sample_auth) in
  fst (Index.postToPrivateEndpoint (failing err) data st) =
    Rejected (VTypeError "Cannot read property 'data' of undefined or null").
Proof. intros err data st. vm_compute. reflexivity. Qed.

(** The scenario of the specification: the balances operation of a client
    built with [PUB] and [SECRET] posts [command=returnBalances&nonce=N]
    to [/tradingApi], signed with HMAC-SHA512 under [SECRET]. *)
Example returnBalances_scenario :
  map (fun cfg => (prop cfg "method", prop cfg "url", prop cfg "data",
                   prop (prop cfg "headers") "Key", prop (prop cfg "headers") "Sign"))
      (requests (snd (Agent.Client.returnBalances answering VUndefined 1510000000000
                        (Agent.Client.getClient (Some sample_auth))))) =
  [(VStr "POST", VStr "/tradingApi",
    VStr "command=returnBalances&nonce=1510000000000000",
    VStr "PUB",
    VStr "76e6960f3e6dd701fb164cdde8c7ae85c0f2bfc27a768092ca6a27c60bc5bc1764d9dc9ad1dc3859826692948d8eca756ddf05f5a0db0185e5bd7f4160d234c3")].
Proof. vm_compute. reflexivity. Qed.

(* ================================================================== *)
(** * Serialization: what is written and what is not *)

Lemma append_assoc_s (s1 s2 s3 : string) :
  ((s1 ++ s2) ++ s3 = s1 ++ (s2 ++ s3))%string.
Proof. induction s1 as [|c s1 IH]; simpl; [reflexivity|now rewrite IH]. Qed.

Lemma count_char_append (c : ascii) (s1 s2 : string) :
  count_char c (s1 ++ s2)%string = (count_char c s1 + count_char c s2)%nat.
Proof. induction s1 as [|c' s1 IH]; simpl; [reflexivity|]. rewrite IH. lia. Qed.

Lemma of_ascii_bound (c : ascii) : 0 <= Bytes.of_ascii c < 256.
Proof.
  unfold Bytes.of_ascii. pose proof (N_ascii_bounded c). lia.
Qed.

Lemma upper_digit_unreserved (d : Z) :
  Qs.unreserved (Bytes.of_ascii (Qs.upper_digit d)) = true.
Proof.
  unfold Qs.upper_digit. generalize (Z.to_nat d). intros n.
  do 16 (destruct n as [|n]; [reflexivity|]). reflexivity.
Qed.

Lemma stringify_defined_only (params : object) :
  Qs.stringify (defined_only params) = Qs.stringify params.
Proof.
  unfold Qs.stringify. f_equal.
  induction params as [|[k v] params IH]; [reflexivity|].
  cbn [defined_only filter snd]. fold (defined_only params).
  destruct v; cbn [is_defined flat_map fst snd]; now rewrite IH.
Qed.

Lemma same_serialization_same_signature (d1 d2 : object) (key : string) :
  Qs.stringify d1 = Qs.stringify d2 -> signMessage d1 key = signMessage d2 key.
Proof. intros H. unfold signMessage. now rewrite H. Qed.

Lemma index_private_config_serialization (a : IApiAuth) (d1 d2 : object) :
  Qs.stringify d1 = Qs.stringify d2 ->
  Index.private_agentConfig a d1 = Index.private_agentConfig a d2.
Proof.
  intros H. unfold Index.private_agentConfig, Index.private_headers.
  now rewrite H, (same_serialization_same_signature d1 d2 _ H).
Qed.

Lemma agent_private_config_serialization (a : IApiAuth) (d1 d2 : object) (o : value) :
  Qs.stringify d1 = Qs.stringify d2 ->
  Agent.private_agentConfig a d1 o = Agent.private_agentConfig a d2 o.
Proof.
  intros H. unfold Agent.private_agentConfig, Agent.private_headers.
  now rewrite H, (same_serialization_same_signature d1 d2 _ H).
Qed.

Lemma index_private_serialization (axios : transport) (d1 d2 : object) (st : Store) :
  Qs.stringify d1 = Qs.stringify d2 ->
  Index.postToPrivateEndpoint axios d1 st = Index.postToPrivateEndpoint axios d2 st.
Proof.
  intros H. unfold Index.postToPrivateEndpoint, bindM.
  destruct (Index.isUpgraded st) as [up st']. destruct (negb (truthy up)); [reflexivity|].
  destruct (auth st') as [a|]; [|reflexivity].
  now rewrite (index_private_config_serialization a d1 d2 H).
Qed.

Lemma agent_private_serialization (axios : transport) (d1 d2 : object) (o : value)
  (st : Store) :
  Qs.stringify d1 = Qs.stringify d2 ->
  Agent.postToPrivateEndpoint axios d1 o st = Agent.postToPrivateEndpoint axios d2 o st.
Proof.
  intros H. unfold Agent.postToPrivateEndpoint, bindM.
  destruct (Agent.isUpgraded st) as [up st']. destruct (negb (truthy up)); [reflexivity|].
  destruct (auth st') as [a|]; [|reflexivity].
  now rewrite (agent_private_config_serialization a d1 d2 o H).
Qed.

Lemma index_public_serialization (axios : transport) (d1 d2 : object) (st : Store) :
  Qs.stringify d1 = Qs.stringify d2 ->
  Index.getPublicEndpoint axios (Some d1) st = Index.getPublicEndpoint axios (Some d2) st.
Proof.
  intros H. unfold Index.getPublicEndpoint, Index.public_agentConfig, Qs.stringify_opt.
  now rewrite H.
Qed.

Lemma agent_public_serialization (axios : transport) (d1 d2 : object) (o : value)
  (st : Store) :
  Qs.stringify d1 = Qs.stringify d2 ->
  Agent.getPublicEndpoint axios (Some d1) o st = Agent.getPublicEndpoint axios (Some d2) o st.
Proof.
  intros H. unfold Agent.getPublicEndpoint, Agent.public_agentConfig, Qs.stringify_opt.
  now rewrite H.
Qed.

(** X1.  A parameter whose value is [undefined] is neither sent nor
    signed: with or without such parameters the serialization, the
    signature and the whole behaviour of both send operations are the
    same, in both revisions. *)
Theorem undefined_parameters_are_dropped
  (axios : transport) (params : object) (key : string) (configOverride : value)
  (st : Store) :
  Qs.stringify (defined_only params) = Qs.stringify params /\
  signMessage (defined_only params) key = signMessage params key /\
  Index.getPublicEndpoint axios (Some (defined_only params)) st =
    Index.getPublicEndpoint axios (Some params) st /\
  Index.postToPrivateEndpoint axios (defined_only params) st =
    Index.postToPrivateEndpoint axios params st /\
  Agent.getPublicEndpoint axios (Some (defined_only params)) configOverride st =
    Agent.getPublicEndpoint axios (Some params) configOverride st /\
  Agent.postToPrivateEndpoint axios (defined_only params) configOverride st =
    Agent.postToPrivateEndpoint axios params configOverride st.
Proof.
  pose proof (stringify_defined_only params) as H. repeat split.
  - exact H.
  - now apply same_serialization_same_signature.
  - now apply index_public_serialization.
  - now apply index_private_serialization.
  - now apply agent_public_serialization.
  - now apply agent_private_serialization.
Qed.

Lemma encode_safe (c : ascii) (s : string) :
  Qs.unreserved (Bytes.of_ascii c) = false -> c <> "%"%char ->
  count_char c (Qs.encode s) = O.
Proof.
  intros Hc Hp. induction s as [|c' s IH]; [reflexivity|].
  cbn [Qs.encode]. destruct (Qs.unreserved (Bytes.of_ascii c')) eqn:E.
  - cbn [count_char]. rewrite IH.
    destruct (Ascii.eqb_spec c c') as [->|_]; [congruence|reflexivity].
  - cbn [count_char]. rewrite IH.
    destruct (Ascii.eqb_spec c "%"%char) as [->|_]; [congruence|].
    destruct (Ascii.eqb_spec c (Qs.upper_digit (Bytes.of_ascii c' / 16))) as [->|_];
      [now rewrite upper_digit_unreserved in Hc|].
    destruct (Ascii.eqb_spec c (Qs.upper_digit (Bytes.of_ascii c' mod 16))) as [->|_];
      [now rewrite upper_digit_unreserved in Hc|].
    reflexivity.
Qed.

Lemma encode_unreserved (s : string) :
  Bytes.all_chars (fun c => Qs.unreserved (Bytes.of_ascii c)) s = true ->
  Qs.encode s = s.
Proof.
  induction s as [|c s IH]; [reflexivity|]. cbn [Bytes.all_chars Qs.encode].
  intros H. apply andb_true_iff in H as [Hc Hs]. now rewrite Hc, IH.
Qed.

Lemma encode_alphabet (s : string) :
  Bytes.all_chars (fun c => Qs.unreserved (Bytes.of_ascii c) || Ascii.eqb c "%")
                  (Qs.encode s) = true.
Proof.
  induction s as [|c s IH]; [reflexivity|]. cbn [Qs.encode].
  destruct (Qs.unreserved (Bytes.of_ascii c)) eqn:E; cbn [Bytes.all_chars].
  - now rewrite E, IH.
  - rewrite !upper_digit_unreserved, IH. reflexivity.
Qed.

Lemma count_char_concat (c : ascii) (sep : string) (n : nat) (pieces : list string) :
  Forall (fun p => count_char c p = n) pieces ->
  count_char c (String.concat sep pieces) =
  (List.length pieces * n + (List.length pieces - 1) * count_char c sep)%nat.
Proof.
  induction 1 as [|p pieces Hp Hall IH]; [reflexivity|].
  destruct pieces as [|p' pieces].
  - simpl. lia.
  - change (String.concat sep (p :: p' :: pieces))
      with (p ++ sep ++ String.concat sep (p' :: pieces))%string.
    rewrite !count_char_append, IH, Hp. cbn [List.length]. nia.
Qed.

Lemma string_of_number_unreserved (n : Z) :
  Bytes.all_chars (fun c => Qs.unreserved (Bytes.of_ascii c)) (string_of_number n) = true.
Proof.
  assert (U : forall d, Bytes.all_chars (fun c => Qs.unreserved (Bytes.of_ascii c))
                          (NilEmpty.string_of_uint d) = true).
  { induction d; cbn [NilEmpty.string_of_uint Bytes.all_chars]; try rewrite IHd;
      reflexivity. }
  assert (V : forall d, Bytes.all_chars (fun c => Qs.unreserved (Bytes.of_ascii c))
                          (NilZero.string_of_uint d) = true).
  { intros d. destruct d; try apply U. reflexivity. }
  unfold string_of_number. destruct (Z.to_int n) as [d|d]; cbn [NilZero.string_of_int].
  - apply V.
  - cbn [Bytes.all_chars]. now rewrite V.
Qed.

Lemma scalar_piece (k : string) (v : value) :
  scalar v = true ->
  exists piece, Qs.stringify_value k v = [piece] /\
                count_char "=" piece = 1%nat /\ count_char "&" piece = 0%nat.
Proof.
  assert (Ek : forall s, count_char "=" (Qs.encode s) = 0%nat)
    by (intros s; now apply encode_safe).
  assert (Ak : forall s, count_char "&" (Qs.encode s) = 0%nat)
    by (intros s; now apply encode_safe).
  destruct v; try discriminate; intros _; eexists; (split; [reflexivity|]);
    rewrite !count_char_append, ?Ek, ?Ak; try destruct b; split; reflexivity.
Qed.

Lemma scalar_pieces (c : ascii) (n : nat) (params : object) :
  (forall k v, scalar v = true ->
     exists piece, Qs.stringify_value k v = [piece] /\ count_char c piece = n) ->
  Forall (fun kv => scalar (snd kv) = true) params ->
  List.length (flat_map (fun kv => Qs.stringify_value (fst kv) (snd kv)) params) =
    List.length params /\
  Forall (fun p => count_char c p = n)
         (flat_map (fun kv => Qs.stringify_value (fst kv) (snd kv)) params).
Proof.
  intros Hpiece. induction 1 as [|[k v] params Hv Hall [IHl IHf]].
  - split; [reflexivity|constructor].
  - cbn [flat_map fst snd]. destruct (Hpiece k v Hv) as [piece [-> Hc]].
    cbn [app List.length]. split; [now rewrite IHl|now constructor].
Qed.

(** X2.  When every parameter is a string, a number, a boolean or [null],
    the serialized form holds exactly one [=] per parameter and one [&]
    between two parameters: nothing in a key or in a value can pass for a
    separator. *)
Theorem serialization_separators (params : object) :
  Forall (fun kv => scalar (snd kv) = true) params ->
  count_char "=" (Qs.stringify params) = List.length params /\
  count_char "&" (Qs.stringify params) = (List.length params - 1)%nat.
Proof.
  intros Hs. unfold Qs.stringify. split.
  - destruct (scalar_pieces "=" 1 params) as [Hl Hf]; [|exact Hs|].
    + intros k v Hv. destruct (scalar_piece k v Hv) as [p [E [H1 _]]]. eauto.
    + rewrite (count_char_concat _ _ _ _ Hf), Hl. cbn [count_char]. simpl. lia.
  - destruct (scalar_pieces "&" 0 params) as [Hl Hf]; [|exact Hs|].
    + intros k v Hv. destruct (scalar_piece k v Hv) as [p [E [_ H0]]]. eauto.
    + rewrite (count_char_concat _ _ _ _ Hf), Hl. cbn [count_char]. simpl. lia.
Qed.

Lemma serialization_separators_witness :
  let params := [("command", VStr "returnOpenOrders"); ("nonce", VNum 1510000000000000);
                 ("currencyPair", VStr "BTC_ETH&command=withdraw")] in
  Forall (fun kv => scalar (snd kv) = true) params /\
  Qs.stringify params =
    "command=returnOpenOrders&nonce=1510000000000000&currencyPair=BTC_ETH%26command%3Dwithdraw" /\
  count_char "&" (Qs.stringify params) = 2%nat.
Proof.
  intros params.
  assert (Hs : Forall (fun kv => scalar (snd kv) = true) params)
    by (repeat constructor).
  split; [exact Hs|]. split; [reflexivity|].
  exact (proj2 (serialization_separators params Hs)).
Defined.

Lemma encode_length (s : string) : (String.length s <= String.length (Qs.encode s))%nat.
Proof.
  induction s as [|c s IH]; [apply le_n|]. cbn [Qs.encode].
  destruct (Qs.unreserved (Bytes.of_ascii c)); cbn [String.length]; lia.
Qed.

(** X3.  [encode] writes nothing but letters, digits, [-], [.], [_], [~]
    and the percent sign, and the strings it leaves as they are are
    exactly those made of the first six kinds. *)
Theorem encode_verbatim_iff_unreserved (s : string) :
  Bytes.all_chars (fun c => Qs.unreserved (Bytes.of_ascii c) || Ascii.eqb c "%")
                  (Qs.encode s) = true /\
  (Qs.encode s = s <->
   Bytes.all_chars (fun c => Qs.unreserved (Bytes.of_ascii c)) s = true).
Proof.
  split; [apply encode_alphabet|]. split; [|apply encode_unreserved].
  induction s as [|c s IH]; [reflexivity|]. cbn [Qs.encode Bytes.all_chars].
  destruct (Qs.unreserved (Bytes.of_ascii c)) eqn:E.
  - intros H. injection H as H. now rewrite IH.
  - intros H. injection H as _ H. exfalso.
    pose proof (encode_length s) as L. rewrite <- H in L at 1.
    cbn [String.length] in L. lia.
Qed.

(* ================================================================== *)
(** * The request configuration and its override *)

Lemma lookup_set_prop (o : object) (k k' : string) (v : value) :
  lookup k (set_prop o k' v) = if (k =? k')%string then Some v else lookup k o.
Proof.
  destruct (String.eqb_spec k k') as [->|Hne].
  - apply lookup_set_prop_same.
  - now apply lookup_set_prop_other.
Qed.

Lemma lookup_none_iff (k : string) (o : object) :
  lookup k o = None <-> ~ In k (map fst o).
Proof.
  induction o as [|[k' v] o IH]; simpl.
  - tauto.
  - destruct (String.eqb_spec k k') as [->|Hne].
    + split; [discriminate|]. intros H. exfalso. apply H. now left.
    + rewrite IH. split; [intros H [E|I]; [congruence|tauto]|tauto].
Qed.

Lemma set_prop_keys (o : object) (k k' : string) (v : value) :
  In k' (map fst (set_prop o k v)) <-> k' = k \/ In k' (map fst o).
Proof.
  induction o as [|[k0 v0] o IH]; simpl.
  - split; [intros [E|[]]; auto|intros [E|[]]; auto].
  - destruct (String.eqb_spec k k0) as [->|Hne]; simpl.
    + split; [intros [E|I]; auto|intros [E|[E|I]]; auto].
    + rewrite IH. tauto.
Qed.

Lemma set_prop_well_formed (o : object) (k : string) (v : value) :
  well_formed o -> well_formed (set_prop o k v).
Proof.
  unfold well_formed. induction o as [|[k0 v0] o IH]; simpl; intros H.
  - repeat constructor. intros [].
  - inversion H as [|? ? Hnin Hnd]; subst.
    destruct (String.eqb_spec k k0) as [->|Hne]; simpl.
    + now constructor.
    + constructor; [|now apply IH].
      rewrite set_prop_keys. intros [E|I]; [congruence|contradiction].
Qed.

Lemma spread_well_formed (target : object) (src : value) :
  well_formed target -> well_formed (spread target src).
Proof.
  destruct src as [| | | | |props| |]; simpl; try tauto.
  revert target. induction props as [|[k v] props IH]; intros target H; simpl.
  - exact H.
  - apply IH. now apply set_prop_well_formed.
Qed.

Lemma lookup_spread_set (k : string) (v : value) (props target : object) :
  well_formed props -> lookup k props = Some v ->
  lookup k (spread target (VObj props)) = Some v.
Proof.
  unfold well_formed. revert target.
  induction props as [|[k' v'] props IH]; intros target Hnd Hk; simpl in *.
  - discriminate.
  - inversion Hnd as [|? ? Hnin Hnd']; subst.
    destruct (String.eqb_spec k k') as [->|Hne].
    + injection Hk as ->.
      change (fold_left (fun o kv => set_prop o (fst kv) (snd kv)) props
                (set_prop target k' v))
        with (spread (set_prop target k' v) (VObj props)).
      rewrite lookup_spread_unset.
      * apply lookup_set_prop_same.
      * unfold overrides. apply lookup_none_iff in Hnin. now rewrite Hnin.
    + now apply IH.
Qed.

Lemma local_config_well_formed (configOverride : value) :
  well_formed (Agent.local_config configOverride).
Proof.
  unfold Agent.local_config. apply spread_well_formed, spread_well_formed. constructor.
Qed.

Lemma lookup_spread_same (k : string) (c1 c2 target1 target2 : object) :
  well_formed c1 -> well_formed c2 ->
  lookup k c1 = lookup k c2 ->
  lookup k target1 = lookup k target2 ->
  lookup k (spread target1 (VObj c1)) = lookup k (spread target2 (VObj c2)).
Proof.
  intros W1 W2 Hc Ht. destruct (lookup k c1) as [v|] eqn:E1.
  - rewrite (lookup_spread_set k v c1 target1 W1 E1).
    symmetry. now apply lookup_spread_set.
  - rewrite !lookup_spread_unset; [exact Ht| |]; unfold overrides.
    + now rewrite <- Hc.
    + now rewrite E1.
Qed.

Lemma local_config_frame (configOverride : value) (k : string) :
  overrides configOverride k = false ->
  lookup k (Agent.local_config configOverride) = lookup k (Agent.local_config VNull).
Proof.
  intros H. unfold Agent.local_config. now rewrite lookup_spread_unset.
Qed.

(** X4.  Every setting of a request-config override reaches the transport
    as the caller gave it: in the configuration of a public request and
    in that of a private one, the value under a key of the override is the
    override's, whatever the client has under that key ([method], [url],
    [data] and [headers] included). *)
Theorem override_settings_win
  (a : IApiAuth) (data : object) (q : option object) (settings : object)
  (k : string) (v : value) :
  well_formed settings ->
  lookup k settings = Some v ->
  prop (VObj (Agent.public_agentConfig q (VObj settings))) k = v /\
  prop (VObj (Agent.private_agentConfig a data (VObj settings))) k = v.
Proof.
  intros W Hk.
  assert (Hc : lookup k (Agent.local_config (VObj settings)) = Some v).
  { unfold Agent.local_config. now apply lookup_spread_set. }
  pose proof (local_config_well_formed (VObj settings)) as Wc.
  unfold prop, Agent.public_agentConfig, Agent.private_agentConfig.
  now rewrite !(lookup_spread_set k v _ _ Wc Hc).
Qed.

Lemma override_settings_win_witness :
  let settings := [("timeout", VNum 10000); ("headers", VObj [("Accept", VStr "*/*")])] in
  let data := Agent.Client.returnBalances_params 1510000000000 in
  well_formed settings /\
  prop (VObj (Agent.private_agentConfig sample_auth data (VObj settings))) "timeout" =
    VNum 10000 /\
  prop (VObj (Agent.private_agentConfig sample_auth data (VObj settings))) "headers" =
    VObj [("Accept", VStr "*/*")].
Proof.
  intros settings data.
  assert (W : well_formed settings).
  { unfold well_formed. repeat constructor; simpl; intuition discriminate. }
  split; [exact W|]. split.
  - exact (proj2 (override_settings_win sample_auth data None settings "timeout" _ W eq_refl)).
  - exact (proj2 (override_settings_win sample_auth data None settings "headers" _ W eq_refl)).
Defined.

(** X5.  An override changes nothing but what it sets: under a key the
    override does not have, the configuration of a public request and
    that of a private request are what they are without any override. *)
Theorem override_leaves_other_settings
  (a : IApiAuth) (data : object) (q : option object) (configOverride : value)
  (k : string) :
  overrides configOverride k = false ->
  prop (VObj (Agent.public_agentConfig q configOverride)) k =
    prop (VObj (Agent.public_agentConfig q VNull)) k /\
  prop (VObj (Agent.private_agentConfig a data configOverride)) k =
    prop (VObj (Agent.private_agentConfig a data VNull)) k.
Proof.
  intros H. pose proof (local_config_frame configOverride k H) as Hc.
  unfold prop, Agent.public_agentConfig, Agent.private_agentConfig. split.
  - now rewrite (lookup_spread_same k _ _ _ _ (local_config_well_formed configOverride)
                   (local_config_well_formed VNull) Hc eq_refl).
  - rewrite (lookup_spread_same k (Agent.local_config configOverride)
               (Agent.local_config VNull) _
               (set_prop
                  (set_prop
                     (set_prop (spread [] (VObj Agent.privateAgentConfig)) "headers"
                        (VObj (Agent.private_headers a data VNull)))
                     "url" (VStr "/tradingApi"))
                  "data" (VStr (Qs.stringify data)))
               (local_config_well_formed configOverride)
               (local_config_well_formed VNull) Hc); [reflexivity|].
    rewrite !lookup_set_prop.
    destruct (k =? "data")%string; [reflexivity|].
    destruct (k =? "url")%string; [reflexivity|].
    destruct (String.eqb_spec k "headers") as [->|_]; [|reflexivity].
    now rewrite (agent_private_headers a data configOverride H),
                (agent_private_headers a data VNull eq_refl).
Qed.

Lemma override_leaves_other_settings_witness :
  let configOverride := VObj [("rootUrl", VStr "https://example.org")] in
  let data := Agent.Client.returnBalances_params 1510000000000 in
  overrides configOverride "baseURL" = false /\
  prop (VObj (Agent.private_agentConfig sample_auth data configOverride)) "baseURL" =
    VStr "https://poloniex.com".
Proof.
  intros configOverride data. split; [reflexivity|].
  exact (proj2 (override_leaves_other_settings sample_auth data None configOverride
                  "baseURL" eq_refl)).
Defined.

(** X6.  Unless the override itself names [baseURL], every request of
    either revision is addressed to [https://poloniex.com]: the [rootUrl]
    entry of the local configuration is copied into the request but does
    not decide where it goes. *)
Theorem requests_go_to_poloniex
  (a : IApiAuth) (data : object) (q : option object) (configOverride : value) :
  overrides configOverride "baseURL" = false ->
  prop (VObj (Index.public_agentConfig q)) "baseURL" = VStr "https://poloniex.com" /\
  prop (VObj (Index.private_agentConfig a data)) "baseURL" = VStr "https://poloniex.com" /\
  prop (VObj (Agent.public_agentConfig q configOverride)) "baseURL" =
    VStr "https://poloniex.com" /\
  prop (VObj (Agent.private_agentConfig a data configOverride)) "baseURL" =
    VStr "https://poloniex.com".
Proof.
  intros H. split; [reflexivity|]. split; [reflexivity|].
  unfold Agent.public_agentConfig, Agent.private_agentConfig.
  rewrite !prop_spread_unset by (apply local_config_unset; [exact H|reflexivity]).
  split; reflexivity.
Qed.

Lemma requests_go_to_poloniex_witness :
  let configOverride := VObj [("rootUrl", VStr "https://example.org"); ("timeout", VNum 1)] in
  overrides configOverride "baseURL" = false /\
  prop (VObj (Agent.public_agentConfig None configOverride)) "rootUrl" =
    VStr "https://example.org" /\
  prop (VObj (Agent.public_agentConfig None configOverride)) "baseURL" =
    VStr "https://poloniex.com".
Proof.
  intros configOverride. split; [reflexivity|]. split; [reflexivity|].
  exact (proj1 (proj2 (proj2 (requests_go_to_poloniex sample_auth [] None configOverride
                                eq_refl)))).
Defined.

(* ================================================================== *)
(** * What comes back from the transport *)

(** X7.  What the transport settles with is what the caller gets.  The
    public operation of either revision, with or without credentials,
    returns the very outcome of its one [axios] call, a response or a
    failure.  With credentials the private operation of the later revision
    does the same, and the one of [src/index.ts] does so for a response
    and replaces a failure by its rejection reason; without credentials
    neither private operation has an outcome of the transport to return,
    and each rejects with its own message. *)
Theorem transport_outcome_is_returned
  (axios : transport) (q : option object) (data : object)
  (configOverride : value) (st : Store) :
  fst (Agent.getPublicEndpoint axios q configOverride st) =
    axios (requests st) (VObj (Agent.public_agentConfig q configOverride)) /\
  fst (Index.getPublicEndpoint axios q st) =
    axios (requests st) (VObj (Index.public_agentConfig q)) /\
  match auth st with
  | Some a =>
      fst (Agent.postToPrivateEndpoint axios data configOverride st) =
        axios (requests st) (VObj (Agent.private_agentConfig a data configOverride)) /\
      fst (Index.postToPrivateEndpoint axios data st) =
        match axios (requests st) (VObj (Index.private_agentConfig a data)) with
        | Resolved response => Resolved response
        | Rejected err => reject_with (Index.rejectionReason err)
        end
  | None =>
      fst (Agent.postToPrivateEndpoint axios data configOverride st) =
        Rejected (VStr "not authenticated") /\
      fst (Index.postToPrivateEndpoint axios data st) =
        Rejected (VStr "api keys are required to access private endpoints")
  end.
Proof.
  rewrite agent_public_run. split; [reflexivity|]. split; [reflexivity|].
  destruct (auth st) as [a|] eqn:Ha.
  - rewrite (agent_private_run axios a data configOverride st Ha),
      (index_private_run axios a data st Ha).
    split; reflexivity.
  - rewrite (agent_private_unauthenticated axios data configOverride st Ha),
      (index_private_unauthenticated axios data st Ha).
    split; reflexivity.
Qed.

Lemma transport_outcome_is_returned_witness :
  let st := Agent.getRawAgent (Some sample_auth) in
  let data := Agent.Client.returnBalances_params 1510000000000 in
  fst (Agent.postToPrivateEndpoint answering data VNull st) =
    Resolved (VObj [("status", VNum 200)]) /\
  fst (Agent.postToPrivateEndpoint (failing invalid_nonce) data VNull st) =
    Rejected invalid_nonce /\
  fst (Index.getPublicEndpoint (failing invalid_nonce) None
         (Index.getRawClient None)) = Rejected invalid_nonce.
Proof.
  intros st data. split; [|split].
  - exact (proj1 (proj2 (proj2 (transport_outcome_is_returned answering None data
                                  VNull st)))).
  - exact (proj1 (proj2 (proj2 (transport_outcome_is_returned (failing invalid_nonce)
                                  None data VNull st)))).
  - exact (proj1 (proj2 (transport_outcome_is_returned (failing invalid_nonce) None data
                           VNull (Index.getRawClient None)))).
Defined.

Lemma get_nullish (v : value) (k : string) :
  nullish v = true -> exists cause, get v k = Throw (VTypeError cause).
Proof. destruct v; simpl; intros H; try discriminate; eauto. Qed.

Lemma rejectionReason_throws (err : value) :
  nullish (prop err "response") = true \/
  nullish (prop (prop err "response") "data") = true ->
  exists cause, Index.rejectionReason err = Throw (VTypeError cause).
Proof.
  intros H. unfold Index.rejectionReason, or_else.
  destruct (nullish err) eqn:He.
  { destruct (get_nullish err "response" He) as [c ->]. simpl. eauto. }
  rewrite (get_present err "response" He). cbn [bind].
  destruct (nullish (prop err "response")) eqn:Hr.
  { destruct (get_nullish _ "data" Hr) as [c ->]. simpl. eauto. }
  rewrite (get_present _ "data" Hr). cbn [bind].
  destruct H as [H|H]; [discriminate|].
  destruct (get_nullish _ "error" H) as [c ->]. simpl. eauto.
Qed.

(** X8.  In [src/index.ts] a transport failure that carries no response,
    or a response without a body, is not passed on: evaluating the
    rejection reason throws, and the private request is rejected with
    that [TypeError] instead of the failure. *)
Theorem index_failure_without_body_is_type_error
  (axios : transport) (a : IApiAuth) (data : object) (st : Store) (err : value) :
  auth st = Some a ->
  axios (requests st) (VObj (Index.private_agentConfig a data)) = Rejected err ->
  nullish (prop err "response") = true \/
  nullish (prop (prop err "response") "data") = true ->
  exists cause,
    fst (Index.postToPrivateEndpoint axios data st) = Rejected (VTypeError cause).
Proof.
  intros Ha Hax H. rewrite (index_private_run axios a data st Ha), Hax. cbn [fst].
  destruct (rejectionReason_throws err H) as [cause ->]. simpl. eauto.
Qed.

Lemma index_failure_without_body_is_type_error_witness :
  let err := VObj [("message", VStr "timeout of 5000ms exceeded");
                   ("code", VStr "ECONNABORTED")] in
  let data := Index.Client.returnBalances_params 1510000000000 in
  let st := Index.getRawClient (Some sample_auth) in
  nullish (prop err "response") = true /\
  exists cause,
    fst (Index.postToPrivateEndpoint (failing err) data st) = Rejected (VTypeError cause).
Proof.
  intros err data st. split; [reflexivity|].
  exact (index_failure_without_body_is_type_error (failing err) sample_auth data st err
           eq_refl eq_refl (or_introl eq_refl)).
Defined.

(** X9.  When the rejection reason of [src/index.ts] does evaluate, it is
    truthy and it is one of the body's [error] field, the body and the
    response: the last alternative, the raw error, is never the one
    chosen for being last. *)
Theorem index_rejection_reason_is_truthy (err reason : value) :
  Index.rejectionReason err = Normal reason ->
  truthy reason = true /\
  (reason = prop (prop (prop err "response") "data") "error" \/
   reason = prop (prop err "response") "data" \/
   reason = prop err "response").
Proof.
  unfold Index.rejectionReason, or_else.
  destruct (nullish err) eqn:He.
  { destruct (get_nullish err "response" He) as [c ->]. discriminate. }
  rewrite (get_present err "response" He). cbn [bind].
  set (r := prop err "response").
  destruct (nullish r) eqn:Hr.
  { destruct (get_nullish r "data" Hr) as [c ->]. discriminate. }
  rewrite (get_present r "data" Hr). cbn [bind].
  set (d := prop r "data").
  destruct (nullish d) eqn:Hd.
  { destruct (get_nullish d "error" Hd) as [c ->]. discriminate. }
  rewrite (get_present d "error" Hd). cbn [bind].
  destruct (truthy (prop d "error")) eqn:Te.
  { intros H. injection H as <-. auto. }
  destruct (truthy d) eqn:Td.
  { intros H. injection H as <-. auto. }
  assert (Tr : truthy r = true).
  { unfold d in Hd. destruct r; try reflexivity; discriminate. }
  rewrite Tr. intros H. injection H as <-. auto.
Qed.

Lemma index_rejection_reason_is_truthy_witness :
  Index.rejectionReason invalid_nonce = Normal (VStr "Invalid nonce") /\
  truthy (VStr "Invalid nonce") = true.
Proof.
  split; [reflexivity|].
  exact (proj1 (index_rejection_reason_is_truthy invalid_nonce (VStr "Invalid nonce")
                  eq_refl)).
Defined.

(* ================================================================== *)
(** * The methods of the client *)

Lemma arrow_present (arg : value) (body : (string -> value) -> object) :
  nullish arg = false -> arrow arg body = Normal (body (prop arg)).
Proof. destruct arg; simpl; intros H; try reflexivity; discriminate. Qed.

Lemma arrow_absent (arg : value) (body : (string -> value) -> object) :
  nullish arg = true ->
  arrow arg body = Throw (VTypeError "Cannot destructure 'undefined' or 'null'").
Proof. destruct arg; simpl; intros H; try reflexivity; discriminate. Qed.

Lemma truthy_present (v : value) : truthy v = true -> nullish v = false.
Proof. destruct v; simpl; intros H; try reflexivity; discriminate. Qed.

(** Splits a statement about every listed operation into one goal per
    operation. *)
Ltac each_operation :=
  unfold index_operations, agent_operations;
  repeat (apply Forall_cons; [cbn [method command private argument run fields_of]|]);
  [..|apply Forall_nil].

Section Unauthenticated.
Variable axios : transport.
Variable requestConfig : value.

Lemma index_post_refused (p : object) (st : Store) :
  auth st = None ->
  snd (Index.postToPrivateEndpoint axios p st) = st /\
  exists reason, fst (Index.postToPrivateEndpoint axios p st) = Rejected reason /\
    (reason = VStr "not authenticated" \/
     reason = VStr "api keys are required to access private endpoints" \/
     exists cause, reason = VTypeError cause).
Proof.
  intros Ha. rewrite (index_private_unauthenticated axios p st Ha).
  split; [reflexivity|]. eexists. split; [reflexivity|]. auto.
Qed.

Lemma agent_post_refused (p : object) (o : value) (st : Store) :
  auth st = None ->
  snd (Agent.postToPrivateEndpoint axios p o st) = st /\
  exists reason, fst (Agent.postToPrivateEndpoint axios p o st) = Rejected reason /\
    (reason = VStr "not authenticated" \/
     reason = VStr "api keys are required to access private endpoints" \/
     exists cause, reason = VTypeError cause).
Proof.
  intros Ha. rewrite (agent_private_unauthenticated axios p o st Ha).
  split; [reflexivity|]. eexists. split; [reflexivity|]. auto.
Qed.

Lemma index_post_with_refused (arg : value) (body : (string -> value) -> object)
  (st : Store) :
  auth st = None ->
  snd (Index.Client.post_with axios (arrow arg body) st) = st /\
  exists reason,
    fst (Index.Client.post_with axios (arrow arg body) st) = Rejected reason /\
    (reason = VStr "not authenticated" \/
     reason = VStr "api keys are required to access private endpoints" \/
     exists cause, reason = VTypeError cause).
Proof.
  intros Ha. destruct (nullish arg) eqn:N.
  - rewrite (arrow_absent arg body N). split; [reflexivity|].
    eexists. split; [reflexivity|]. eauto.
  - rewrite (arrow_present arg body N). now apply index_post_refused.
Qed.

Lemma agent_post_with_refused (arg : value) (body : (string -> value) -> object)
  (st : Store) :
  auth st = None ->
  snd (Agent.Client.post_with axios requestConfig (arrow arg body) st) = st /\
  exists reason,
    fst (Agent.Client.post_with axios requestConfig (arrow arg body) st) =
      Rejected reason /\
    (reason = VStr "not authenticated" \/
     reason = VStr "api keys are required to access private endpoints" \/
     exists cause, reason = VTypeError cause).
Proof.
  intros Ha. destruct (nullish arg) eqn:N.
  - rewrite (arrow_absent arg body N). split; [reflexivity|].
    eexists. split; [reflexivity|]. eauto.
  - rewrite (arrow_present arg body N). now apply agent_post_refused.
Qed.

Lemma operations_refused :
  Forall (fun op =>
            private op = true ->
            forall (now : Z) (queryParams : value) (st : Store),
              auth st = None ->
              snd (run op now queryParams st) = st /\
              exists reason,
                fst (run op now queryParams st) = Rejected reason /\
                (reason = VStr "not authenticated" \/
                 reason = VStr "api keys are required to access private endpoints" \/
                 exists cause, reason = VTypeError cause))
         (index_operations axios ++ agent_operations axios requestConfig).
Proof.
  apply Forall_app. split; each_operation; intros Hp now queryParams st Ha;
    try discriminate Hp;
    first [ now apply index_post_refused
          | now apply agent_post_refused
          | now apply index_post_with_refused
          | now apply agent_post_with_refused ].
Qed.

End Unauthenticated.

(** X10.  Without credentials no private method of the client sends
    anything, in either revision and whatever its argument: the promise is
    rejected (as unauthenticated or, when a required argument is missing,
    with a [TypeError]) and the store, the log of requests included, is
    as it was. *)
Theorem private_methods_need_credentials
  (axios : transport) (requestConfig : value) (op : operation)
  (now : Z) (queryParams : value) (st : Store) :
  In op (index_operations axios ++ agent_operations axios requestConfig) ->
  private op = true ->
  auth st = None ->
  snd (run op now queryParams st) = st /\
  exists reason,
    fst (run op now queryParams st) = Rejected reason /\
    (reason = VStr "not authenticated" \/
     reason = VStr "api keys are required to access private endpoints" \/
     exists cause, reason = VTypeError cause).
Proof.
  intros Hin Hp Ha.
  exact (proj1 (Forall_forall _ _) (operations_refused axios requestConfig) op Hin Hp
           now queryParams st Ha).
Qed.
(** Unfolds the methods of the client and their parameter builders. *)
Ltac unfold_methods :=
  cbv beta zeta delta
    [Index.Client.returnTicker Index.Client.returnTicker_params
     Index.Client.return24Volume Index.Client.return24Volume_params
     Index.Client.returnOrderBook Index.Client.returnOrderBook_params
     Index.Client.returnPublicTradeHistory Index.Client.returnPublicTradeHistory_params
     Index.Client.returnChartData Index.Client.returnChartData_params
     Index.Client.returnCurrencies Index.Client.returnCurrencies_params
     Index.Client.returnLoanOrders Index.Client.returnLoanOrders_params
     Index.Client.returnBalances Index.Client.returnBalances_params
     Index.Client.returnCompleteBalances Index.Client.returnCompleteBalances_params
     Index.Client.returnDepositAddress Index.Client.returnDepositAddress_params
     Index.Client.generateNewAddress Index.Client.generateNewAddress_params
     Index.Client.returnDepositsWithdrawals
     Index.Client.returnDepositsWithdrawals_params Index.Client.returnOpenOrders
     Index.Client.returnOpenOrders_params Index.Client.returnPrivateTradeHistory
     Index.Client.returnPrivateTradeHistory_params Index.Client.returnOrderTrades
     Index.Client.returnOrderTrades_params Index.Client.buy Index.Client.buy_params
     Index.Client.sell Index.Client.sell_params Index.Client.cancelOrder
     Index.Client.cancelOrder_params Index.Client.moveOrder
     Index.Client.moveOrder_params Index.Client.withdraw Index.Client.withdraw_params
     Index.Client.returnFeeInfo Index.Client.returnFeeInfo_params
     Index.Client.returnAvailableAccountBalances
     Index.Client.returnAvailableAccountBalances_params
     Index.Client.returnTradableBalances Index.Client.returnTradableBalances_params
     Index.Client.transferBalance Index.Client.transferBalance_params
     Index.Client.returnMarginAccountSummary
     Index.Client.returnMarginAccountSummary_params Index.Client.marginBuy
     Index.Client.marginBuy_params Index.Client.marginSell
     Index.Client.marginSell_params Index.Client.getMarginPosition
     Index.Client.getMarginPosition_params Index.Client.closeMarginPosition
     Index.Client.closeMarginPosition_params Index.Client.createLoanOffer
     Index.Client.createLoanOffer_params Index.Client.cancelLoanOffer
     Index.Client.cancelLoanOffer_params Index.Client.returnOpenLoanOffers
     Index.Client.returnOpenLoanOffers_params Index.Client.returnActiveLoans
     Index.Client.returnActiveLoans_params Index.Client.returnLendingHistory
     Index.Client.returnLendingHistory_params Index.Client.toggleAutoRenew
     Index.Client.toggleAutoRenew_params Agent.Client.returnTicker
     Agent.Client.returnTicker_params Agent.Client.return24Volume
     Agent.Client.return24Volume_params Agent.Client.returnOrderBook
     Agent.Client.returnOrderBook_params Agent.Client.returnPublicTradeHistory
     Agent.Client.returnPublicTradeHistory_params Agent.Client.returnChartData
     Agent.Client.returnChartData_params Agent.Client.returnCurrencies
     Agent.Client.returnCurrencies_params Agent.Client.returnLoanOrders
     Agent.Client.returnLoanOrders_params Agent.Client.returnBalances
     Agent.Client.returnBalances_params Agent.Client.returnCompleteBalances
     Agent.Client.returnCompleteBalances_params Agent.Client.returnDepositAddress
     Agent.Client.returnDepositAddress_params Agent.Client.generateNewAddress
     Agent.Client.generateNewAddress_params Agent.Client.returnDepositsWithdrawals
     Agent.Client.returnDepositsWithdrawals_params Agent.Client.returnOpenOrders
     Agent.Client.returnOpenOrders_params Agent.Client.returnPrivateTradeHistory
     Agent.Client.returnPrivateTradeHistory_params Agent.Client.returnOrderTrades
     Agent.Client.returnOrderTrades_params Agent.Client.buy Agent.Client.buy_params
     Agent.Client.sell Agent.Client.sell_params Agent.Client.cancelOrder
     Agent.Client.cancelOrder_params Agent.Client.moveOrder
     Agent.Client.moveOrder_params Agent.Client.withdraw Agent.Client.withdraw_params
     Agent.Client.returnFeeInfo Agent.Client.returnFeeInfo_params
     Agent.Client.returnAvailableAccountBalances
     Agent.Client.returnAvailableAccountBalances_params
     Agent.Client.returnTradableBalances Agent.Client.returnTradableBalances_params
     Agent.Client.transferBalance Agent.Client.transferBalance_params
     Agent.Client.returnMarginAccountSummary
     Agent.Client.returnMarginAccountSummary_params Agent.Client.marginBuy
     Agent.Client.marginBuy_params Agent.Client.marginSell
     Agent.Client.marginSell_params Agent.Client.getMarginPosition
     Agent.Client.getMarginPosition_params Agent.Client.closeMarginPosition
     Agent.Client.closeMarginPosition_params Agent.Client.createLoanOffer
     Agent.Client.createLoanOffer_params Agent.Client.cancelLoanOffer
     Agent.Client.cancelLoanOffer_params Agent.Client.returnOpenLoanOffers
     Agent.Client.returnOpenLoanOffers_params Agent.Client.returnActiveLoans
     Agent.Client.returnActiveLoans_params Agent.Client.returnLendingHistory
     Agent.Client.returnLendingHistory_params Agent.Client.toggleAutoRenew
     Agent.Client.toggleAutoRenew_params].

Section EveryMethod.
Variable axios : transport.
Variable requestConfig : value.

Lemma index_get_once (q : option object) (st : Store) :
  auth (snd (Index.getPublicEndpoint axios q st)) = auth st /\
  exists sent,
    requests (snd (Index.getPublicEndpoint axios q st)) = requests st ++ sent /\
    (List.length sent <= 1)%nat.
Proof. split; [reflexivity|]. eexists. split; [reflexivity|]. apply le_n. Qed.

Lemma agent_get_once (q : option object) (o : value) (st : Store) :
  auth (snd (Agent.getPublicEndpoint axios q o st)) = auth st /\
  exists sent,
    requests (snd (Agent.getPublicEndpoint axios q o st)) = requests st ++ sent /\
    (List.length sent <= 1)%nat.
Proof.
  rewrite agent_public_run. split; [reflexivity|].
  eexists. split; [reflexivity|]. apply le_n.
Qed.

Lemma index_post_once (p : object) (st : Store) :
  auth (snd (Index.postToPrivateEndpoint axios p st)) = auth st /\
  exists sent,
    requests (snd (Index.postToPrivateEndpoint axios p st)) = requests st ++ sent /\
    (List.length sent <= 1)%nat.
Proof.
  destruct (auth st) as [a|] eqn:Ha.
  - rewrite (index_private_run axios a p st Ha). split; [exact Ha|].
    eexists. split; [reflexivity|]. apply le_n.
  - rewrite (index_private_unauthenticated axios p st Ha). split; [exact Ha|].
    exists []. split; [now rewrite app_nil_r|]. apply le_0_n.
Qed.

Lemma agent_post_once (p : object) (o : value) (st : Store) :
  auth (snd (Agent.postToPrivateEndpoint axios p o st)) = auth st /\
  exists sent,
    requests (snd (Agent.postToPrivateEndpoint axios p o st)) = requests st ++ sent /\
    (List.length sent <= 1)%nat.
Proof.
  destruct (auth st) as [a|] eqn:Ha.
  - rewrite (agent_private_run axios a p o st Ha). split; [exact Ha|].
    eexists. split; [reflexivity|]. apply le_n.
  - rewrite (agent_private_unauthenticated axios p o st Ha). split; [exact Ha|].
    exists []. split; [now rewrite app_nil_r|]. apply le_0_n.
Qed.

Lemma thrown_once (e : value) (st : Store) :
  auth (snd (ret (Rejected e) st)) = auth st /\
  exists sent,
    requests (snd (ret (Rejected e) st)) = requests st ++ sent /\
    (List.length sent <= 1)%nat.
Proof.
  split; [reflexivity|]. exists []. split; [now rewrite app_nil_r|]. apply le_0_n.
Qed.

Lemma operations_send_once :
  Forall (fun op =>
            forall (now : Z) (queryParams : value) (st : Store),
              auth (snd (run op now queryParams st)) = auth st /\
              exists sent,
                requests (snd (run op now queryParams st)) = requests st ++ sent /\
                (List.length sent <= 1)%nat)
         (index_operations axios ++ agent_operations axios requestConfig).
Proof.
  apply Forall_app. split; each_operation; intros now queryParams st;
    unfold_methods;
    unfold Index.Client.get_with, Index.Client.post_with, Agent.Client.get_with,
      Agent.Client.post_with;
    try match goal with
        | |- context [arrow ?v ?b] => destruct (arrow v b)
        end;
    first [ apply index_get_once | apply agent_get_once | apply index_post_once
          | apply agent_post_once | apply thrown_once ].
Qed.

Lemma operations_missing_argument :
  Forall (fun op =>
            forall fields, argument op = Required fields ->
            forall (now : Z) (queryParams : value) (st : Store),
              nullish queryParams = true ->
              run op now queryParams st =
                (Rejected (VTypeError "Cannot destructure 'undefined' or 'null'"), st))
         (index_operations axios ++ agent_operations axios requestConfig).
Proof.
  apply Forall_app. split; each_operation; intros fields Hr now queryParams st Hn;
    try discriminate Hr; unfold_methods;
    now rewrite (arrow_absent queryParams _ Hn).
Qed.

Lemma operations_absent_argument :
  Forall (fun op =>
            forall fields otherwise, argument op = Optional fields otherwise ->
            forall (now : Z) (queryParams : value) (st : Store),
              truthy queryParams = false ->
              run op now queryParams st = run op now otherwise st)
         (index_operations axios ++ agent_operations axios requestConfig).
Proof.
  apply Forall_app. split; each_operation;
    intros fields otherwise Ho now queryParams st Hf;
    try discriminate Ho; injection Ho as <- <-;
    first [ apply index_public_serialization | apply agent_public_serialization
          | apply index_private_serialization | apply agent_private_serialization ];
    unfold_methods; rewrite Hf; reflexivity.
Qed.

Lemma operations_read_their_fields :
  Forall (fun op =>
            forall (now : Z) (q1 q2 : value) (st : Store),
              truthy q1 = true -> truthy q2 = true ->
              (forall k, In k (fields_of op) -> prop q1 k = prop q2 k) ->
              run op now q1 st = run op now q2 st)
         (index_operations axios ++ agent_operations axios requestConfig).
Proof.
  apply Forall_app. split; each_operation; intros now q1 q2 st H1 H2 Hk;
    unfold_methods;
    rewrite ?(arrow_present q1 _ (truthy_present q1 H1)),
            ?(arrow_present q2 _ (truthy_present q2 H2)), ?H1, ?H2;
    rewrite ?Hk by (simpl; tauto); reflexivity.
Qed.

End EveryMethod.

Lemma append_nil_s (s : string) : (s ++ "")%string = s.
Proof. induction s as [|c s IH]; simpl; [reflexivity|now rewrite IH]. Qed.

Lemma concat_head (sep piece : string) (pieces : list string) :
  exists tail, String.concat sep (piece :: pieces) = (piece ++ tail)%string.
Proof.
  destruct pieces as [|p pieces].
  - exists ""%string. simpl. now rewrite append_nil_s.
  - eexists. reflexivity.
Qed.

Lemma stringify_starts_with_command (params : object) (name : string) :
  (exists rest, params = ("command", VStr name) :: rest) ->
  Qs.encode name = name ->
  exists tail, Qs.stringify params = ("command=" ++ name ++ tail)%string.
Proof.
  intros [rest ->] En. unfold Qs.stringify.
  cbn [flat_map fst snd Qs.stringify_value app]. rewrite En.
  destruct (concat_head "&" ("command=" ++ name)
              (flat_map (fun kv => Qs.stringify_value (fst kv) (snd kv)) rest))
    as [tail Ht].
  exists tail. rewrite <- append_assoc_s. exact Ht.
Qed.



Section MethodsAndCommands.
Variable axios : transport.
Variable requestConfig : value.



Lemma index_public_calls :
  Forall (fun op =>
            private op = false ->
            forall (now : Z) (queryParams : value) (st : Store),
              nullish queryParams = false ->
              exists params,
                run op now queryParams st =
                  Index.getPublicEndpoint axios (Some params) st /\
                exists tail,
                  Qs.stringify params = ("command=" ++ command op ++ tail)%string)
         (index_operations axios).
Proof.
  each_operation; intros Hp now queryParams st Hn; try discriminate Hp;
    unfold_methods; rewrite ?(arrow_present queryParams _ Hn);
    unfold Index.Client.get_with; cbv beta iota;
    (eexists; split; [reflexivity|]);
    (apply stringify_starts_with_command;
     [destruct (truthy queryParams); eexists; reflexivity|reflexivity]).
Qed.

Lemma agent_public_calls :
  Forall (fun op =>
            private op = false ->
            forall (now : Z) (queryParams : value) (st : Store),
              nullish queryParams = false ->
              exists params,
                run op now queryParams st =
                  Agent.getPublicEndpoint axios (Some params)
                    (Agent.Client.default_requestConfig requestConfig) st /\
                exists tail,
                  Qs.stringify params = ("command=" ++ command op ++ tail)%string)
         (agent_operations axios requestConfig).
Proof.
  each_operation; intros Hp now queryParams st Hn; try discriminate Hp;
    unfold_methods; rewrite ?(arrow_present queryParams _ Hn);
    unfold Agent.Client.get_with; cbv beta iota;
    (eexists; split; [reflexivity|]);
    (apply stringify_starts_with_command;
     [destruct (truthy queryParams); eexists; reflexivity|reflexivity]).
Qed.

End MethodsAndCommands.

(** Finds an entry in a list of operations. *)
Ltac listed :=
  apply in_or_app; (left + right); unfold index_operations, agent_operations;
  cbn [In]; solve [repeat first [left; reflexivity | right]].

Lemma private_methods_need_credentials_witness :
  let op := {| method := "withdraw"; command := "withdraw"; private := true;
               argument := Required ["currency"; "amount"; "address"; "paymentId"];
               run := Agent.Client.withdraw answering VNull |} in
  let queryParams := VObj [("currency", VStr "BTC"); ("amount", VNum 1);
                           ("address", VStr "1BoatSLRHtKNngkdXEeobR76b53LETtpyT")] in
  let st := Agent.Client.getClient None in
  In op (index_operations answering ++ agent_operations answering VNull) /\
  snd (run op 1510000000000 queryParams st) = st.
Proof.
  intros op queryParams st.
  assert (Hin : In op (index_operations answering ++ agent_operations answering VNull))
    by listed.
  split; [exact Hin|].
  exact (proj1 (private_methods_need_credentials answering VNull op 1510000000000
                  queryParams st Hin eq_refl eq_refl)).
Defined.

(** X11.  A method of the client makes at most one call of the transport
    and leaves the credentials alone: after any method, in either
    revision, the log of requests is the one before with nothing or one
    request added, and the [auth] field is unchanged.  Nothing is retried. *)
Theorem methods_send_at_most_once
  (axios : transport) (requestConfig : value) (op : operation)
  (now : Z) (queryParams : value) (st : Store) :
  In op (index_operations axios ++ agent_operations axios requestConfig) ->
  auth (snd (run op now queryParams st)) = auth st /\
  exists sent,
    requests (snd (run op now queryParams st)) = requests st ++ sent /\
    (List.length sent <= 1)%nat.
Proof.
  intros Hin.
  exact (proj1 (Forall_forall _ _) (operations_send_once axios requestConfig) op Hin
           now queryParams st).
Qed.

Lemma methods_send_at_most_once_witness :
  let op := {| method := "returnChartData"; command := "returnChartData"; private := false;
               argument := Required ["currencyPair"; "start"; "end"; "period"];
               run := fun _ => Index.Client.returnChartData (failing invalid_nonce) |} in
  let st := Index.Client.getClient (Some sample_auth) in
  In op (index_operations (failing invalid_nonce) ++
         agent_operations (failing invalid_nonce) VNull) /\
  auth (snd (run op 0 (VObj [("currencyPair", VStr "BTC_XMR")]) st)) = Some sample_auth.
Proof.
  intros op st.
  assert (Hin : In op (index_operations (failing invalid_nonce) ++
                       agent_operations (failing invalid_nonce) VNull)) by listed.
  split; [exact Hin|].
  exact (proj1 (methods_send_at_most_once (failing invalid_nonce) VNull op 0
                  (VObj [("currencyPair", VStr "BTC_XMR")]) st Hin)).
Defined.

(** X12.  A method that binds its argument unconditionally fails when the
    argument is missing ([undefined] or [null]): in either revision, with
    or without credentials, the promise is rejected with the [TypeError]
    of the binding and nothing is sent. *)
Theorem missing_argument_is_type_error
  (axios : transport) (requestConfig : value) (op : operation) (fields : list string)
  (now : Z) (queryParams : value) (st : Store) :
  In op (index_operations axios ++ agent_operations axios requestConfig) ->
  argument op = Required fields ->
  nullish queryParams = true ->
  run op now queryParams st =
    (Rejected (VTypeError "Cannot destructure 'undefined' or 'null'"), st).
Proof.
  intros Hin Hr Hn.
  exact (proj1 (Forall_forall _ _) (operations_missing_argument axios requestConfig)
           op Hin fields Hr now queryParams st Hn).
Qed.

Lemma missing_argument_is_type_error_witness :
  let op := {| method := "buy"; command := "buy"; private := true;
               argument := Required ["currencyPair"; "rate"; "amount"; "fillOrKill";
                                     "immediateOrCancel"; "postOnly"];
               run := Agent.Client.buy answering VNull |} in
  let st := Agent.Client.getClient (Some sample_auth) in
  In op (index_operations answering ++ agent_operations answering VNull) /\
  run op 1510000000000 VUndefined st =
    (Rejected (VTypeError "Cannot destructure 'undefined' or 'null'"), st).
Proof.
  intros op st.
  assert (Hin : In op (index_operations answering ++ agent_operations answering VNull))
    by listed.
  split; [exact Hin|].
  exact (missing_argument_is_type_error answering VNull op _ 1510000000000 VUndefined st
           Hin eq_refl eq_refl).
Defined.

(** X13.  A method whose argument is optional treats every falsy argument
    as an absent one, and an absent argument as the default: the call
    behaves as the call with [{currencyPair: 'all'}] (with
    [{account: 'all'}] for the complete balances, with an empty object for
    the available account balances). *)
Theorem absent_argument_is_default
  (axios : transport) (requestConfig : value) (op : operation) (fields : list string)
  (otherwise : value) (now : Z) (queryParams : value) (st : Store) :
  In op (index_operations axios ++ agent_operations axios requestConfig) ->
  argument op = Optional fields otherwise ->
  truthy queryParams = false ->
  run op now queryParams st = run op now otherwise st.
Proof.
  intros Hin Ho Hf.
  exact (proj1 (Forall_forall _ _) (operations_absent_argument axios requestConfig)
           op Hin fields otherwise Ho now queryParams st Hf).
Qed.

Lemma absent_argument_is_default_witness :
  let op := {| method := "returnPrivateTradeHistory"; command := "returnTradeHistory";
               private := true;
               argument := Optional ["currencyPair"; "start"; "end"; "limit"]
                             (VObj [("currencyPair", VStr "all")]);
               run := Agent.Client.returnPrivateTradeHistory answering VNull |} in
  let st := Agent.Client.getClient (Some sample_auth) in
  In op (index_operations answering ++ agent_operations answering VNull) /\
  run op 1510000000000 VUndefined st =
    run op 1510000000000 (VObj [("currencyPair", VStr "all")]) st.
Proof.
  intros op st.
  assert (Hin : In op (index_operations answering ++ agent_operations answering VNull))
    by listed.
  split; [exact Hin|].
  exact (absent_argument_is_default answering VNull op _ _ 1510000000000 VUndefined st
           Hin eq_refl eq_refl).
Defined.

(** X14.  A method reads nothing of its argument but the fields it names:
    two truthy arguments that agree on those fields give the same
    outcome and the same request, so whatever else the caller's object
    holds is neither sent nor signed. *)
Theorem methods_read_their_fields_only
  (axios : transport) (requestConfig : value) (op : operation)
  (now : Z) (q1 q2 : value) (st : Store) :
  In op (index_operations axios ++ agent_operations axios requestConfig) ->
  truthy q1 = true ->
  truthy q2 = true ->
  (forall k, In k (fields_of op) -> prop q1 k = prop q2 k) ->
  run op now q1 st = run op now q2 st.
Proof.
  intros Hin H1 H2 Hk.
  exact (proj1 (Forall_forall _ _) (operations_read_their_fields axios requestConfig)
           op Hin now q1 q2 st H1 H2 Hk).
Qed.

Lemma methods_read_their_fields_only_witness :
  let op := {| method := "cancelOrder"; command := "cancelOrder"; private := true;
               argument := Required ["orderNumber"];
               run := Agent.Client.cancelOrder answering VNull |} in
  let q1 := VObj [("orderNumber", VStr "120466")] in
  let q2 := VObj [("orderNumber", VStr "120466"); ("command", VStr "withdraw");
                  ("nonce", VNum 1)] in
  let st := Agent.Client.getClient (Some sample_auth) in
  In op (index_operations answering ++ agent_operations answering VNull) /\
  run op 1510000000000 q1 st = run op 1510000000000 q2 st.
Proof.
  intros op q1 q2 st.
  assert (Hin : In op (index_operations answering ++ agent_operations answering VNull))
    by listed.
  split; [exact Hin|].
  apply (methods_read_their_fields_only answering VNull op 1510000000000 q1 q2 st Hin
           eq_refl eq_refl).
  intros k [<-|[]]. reflexivity.
Defined.



(** X16.  The query of every public method starts with its command: when
    the argument is not missing, the method sends one request, with or
    without credentials, built from a parameter map whose serialization
    begins [command=<command>]. *)
Theorem public_methods_send_command
  (axios : transport) (requestConfig : value) (op : operation)
  (now : Z) (queryParams : value) (st : Store) :
  In op (index_operations axios ++ agent_operations axios requestConfig) ->
  private op = false ->
  nullish queryParams = false ->
  exists params tail,
    (requests (snd (run op now queryParams st)) =
       requests st ++ [VObj (Index.public_agentConfig (Some params))] \/
     requests (snd (run op now queryParams st)) =
       requests st ++
         [VObj (Agent.public_agentConfig (Some params)
                  (Agent.Client.default_requestConfig requestConfig))]) /\
    Qs.stringify params = ("command=" ++ command op ++ tail)%string.
Proof.
  intros Hin Hp Hn. apply in_app_or in Hin as [Hin|Hin].
  - destruct (proj1 (Forall_forall _ _) (index_public_calls axios) op Hin Hp
                now queryParams st Hn) as [params [Hrun [tail Hs]]].
    exists params, tail. split; [left|exact Hs]. now rewrite Hrun.
  - destruct (proj1 (Forall_forall _ _) (agent_public_calls axios requestConfig) op Hin Hp
                now queryParams st Hn) as [params [Hrun [tail Hs]]].
    exists params, tail. split; [right|exact Hs].
    now rewrite Hrun, agent_public_run.
Qed.

Lemma public_methods_send_command_witness :
  let op := {| method := "return24Volume"; command := "return24hVolume"; private := false;
               argument := Nullary;
               run := fun _ _ => Agent.Client.return24Volume answering VNull |} in
  let st := Agent.Client.getClient None in
  In op (index_operations answering ++ agent_operations answering VNull) /\
  exists params tail,
    (requests (snd (run op 0 (VObj []) st)) =
       requests st ++ [VObj (Index.public_agentConfig (Some params))] \/
     requests (snd (run op 0 (VObj []) st)) =
       requests st ++
         [VObj (Agent.public_agentConfig (Some params)
                  (Agent.Client.default_requestConfig VNull))]) /\
    Qs.stringify params = ("command=" ++ "return24hVolume" ++ tail)%string.
Proof.
  intros op st.
  assert (Hin : In op (index_operations answering ++ agent_operations answering VNull))
    by listed.
  split; [exact Hin|].
  exact (public_methods_send_command answering VNull op 0 (VObj []) st Hin eq_refl
           eq_refl).
Defined.

(* ================================================================== *)
(** * Credentials, once more *)

(** X17.  New credentials are the ones used from then on: after the
    client's [upgrade] in the later revision, and after the raw client's
    [upgrade] in [src/index.ts], a private request is sent (whether or not
    the client had keys before) and its configuration is the one built
    for the new pair alone. *)
Theorem upgrade_then_private_request
  (axios : transport) (newAuth : IApiAuth) (data : object) (configOverride : value)
  (st : Store) :
  requests (snd (Agent.postToPrivateEndpoint axios data configOverride
                   (snd (Agent.Client.upgrade newAuth st)))) =
    requests st ++ [VObj (Agent.private_agentConfig newAuth data configOverride)] /\
  requests (snd (Index.postToPrivateEndpoint axios data (snd (Index.upgrade newAuth st)))) =
    requests st ++ [VObj (Index.private_agentConfig newAuth data)].
Proof.
  split.
  - now rewrite (agent_private_run axios newAuth data configOverride
                   (snd (Agent.Client.upgrade newAuth st)) eq_refl).
  - now rewrite (index_private_run axios newAuth data (snd (Index.upgrade newAuth st))
                   eq_refl).
Qed.

(** X18.  As a condition, [isUpgraded()] tells whether the client has
    credentials: in both revisions its result is truthy exactly when the
    [auth] field is set, hence falsy on a client built without keys and
    truthy after the raw client's [upgrade]. *)
Theorem isUpgraded_is_truthy_iff_credentials (newAuth : IApiAuth) (st : Store) :
  (truthy (fst (Index.Client.isUpgraded st)) = true <-> auth st <> None) /\
  (truthy (fst (Agent.Client.isUpgraded st)) = true <-> auth st <> None) /\
  truthy (fst (Index.Client.isUpgraded (Index.Client.getClient None))) = false /\
  truthy (fst (Agent.Client.isUpgraded (Agent.Client.getClient None))) = false /\
  truthy (fst (Index.Client.isUpgraded (snd (Index.upgrade newAuth st)))) = true /\
  truthy (fst (Agent.Client.isUpgraded (snd (Agent.Client.upgrade newAuth st)))) = true.
Proof.
  unfold Index.Client.isUpgraded, Agent.Client.isUpgraded, Index.isUpgraded,
    Agent.isUpgraded. cbn [fst].
  repeat split; try reflexivity; destruct (auth st); simpl; congruence.
Qed.

(* ================================================================== *)
(** * Where private requests go, and requests without parameters *)

Lemma overrides_default_requestConfig (requestConfig : value) (k : string) :
  overrides (Agent.Client.default_requestConfig requestConfig) k =
  overrides requestConfig k.
Proof. destruct requestConfig; reflexivity. Qed.

Section TradingApi.
Variable axios : transport.
Variable requestConfig : value.
Hypothesis Hurl : overrides requestConfig "url" = false.
Hypothesis Hmethod : overrides requestConfig "method" = false.

Lemma index_post_target (p : object) (st : Store) :
  exists sent,
    requests (snd (Index.postToPrivateEndpoint axios p st)) = requests st ++ sent /\
    Forall (fun cfg => prop cfg "url" = VStr "/tradingApi" /\
                       prop cfg "method" = VStr "POST") sent.
Proof.
  destruct (auth st) as [a|] eqn:Ha.
  - rewrite (index_private_run axios a p st Ha). eexists. split; [reflexivity|].
    repeat constructor.
  - rewrite (index_private_unauthenticated axios p st Ha). exists [].
    split; [now rewrite app_nil_r|constructor].
Qed.

Lemma agent_post_target (p : object) (st : Store) :
  exists sent,
    requests (snd (Agent.postToPrivateEndpoint axios p
                     (Agent.Client.default_requestConfig requestConfig) st)) =
      requests st ++ sent /\
    Forall (fun cfg => prop cfg "url" = VStr "/tradingApi" /\
                       prop cfg "method" = VStr "POST") sent.
Proof.
  destruct (auth st) as [a|] eqn:Ha.
  - rewrite (agent_private_run axios a p _ st Ha). eexists. split; [reflexivity|].
    constructor; [|constructor]. unfold Agent.private_agentConfig.
    rewrite !prop_spread_unset
      by (apply local_config_unset;
          [now rewrite overrides_default_requestConfig|reflexivity]).
    split; reflexivity.
  - rewrite (agent_private_unauthenticated axios p _ st Ha). exists [].
    split; [now rewrite app_nil_r|constructor].
Qed.

Lemma thrown_target (e : value) (st : Store) :
  exists sent,
    requests (snd (ret (Rejected e) st)) = requests st ++ sent /\
    Forall (fun cfg => prop cfg "url" = VStr "/tradingApi" /\
                       prop cfg "method" = VStr "POST") sent.
Proof. exists []. split; [now rewrite app_nil_r|constructor]. Qed.

Lemma operations_target :
  Forall (fun op =>
            private op = true ->
            forall (now : Z) (queryParams : value) (st : Store),
              exists sent,
                requests (snd (run op now queryParams st)) = requests st ++ sent /\
                Forall (fun cfg => prop cfg "url" = VStr "/tradingApi" /\
                                   prop cfg "method" = VStr "POST") sent)
         (index_operations axios ++ agent_operations axios requestConfig).
Proof.
  apply Forall_app. split; each_operation; intros Hp now queryParams st;
    try discriminate Hp; unfold_methods;
    unfold Index.Client.post_with, Agent.Client.post_with;
    try match goal with
        | |- context [arrow ?v ?b] => destruct (arrow v b)
        end;
    first [ apply index_post_target | apply agent_post_target | apply thrown_target ].
Qed.

End TradingApi.

(** X19.  Unless the request configuration of the client sets [url] or
    [method], whatever a private method sends is a POST to [/tradingApi]:
    the command, the nonce and the other parameters never travel in the
    URL. *)
Theorem private_methods_post_to_trading_api
  (axios : transport) (requestConfig : value) (op : operation)
  (now : Z) (queryParams : value) (st : Store) :
  overrides requestConfig "url" = false ->
  overrides requestConfig "method" = false ->
  In op (index_operations axios ++ agent_operations axios requestConfig) ->
  private op = true ->
  exists sent,
    requests (snd (run op now queryParams st)) = requests st ++ sent /\
    Forall (fun cfg => prop cfg "url" = VStr "/tradingApi" /\
                       prop cfg "method" = VStr "POST") sent.
Proof.
  intros Hu Hm Hin Hp.
  exact (proj1 (Forall_forall _ _) (operations_target axios requestConfig Hu Hm) op Hin Hp
           now queryParams st).
Qed.

Lemma private_methods_post_to_trading_api_witness :
  let requestConfig := VObj [("timeout", VNum 10000)] in
  let op := {| method := "sell"; command := "sell"; private := true;
               argument := Required ["currencyPair"; "rate"; "amount"; "fillOrKill";
                                     "immediateOrCancel"; "postOnly"];
               run := Agent.Client.sell answering requestConfig |} in
  let st := Agent.Client.getClient (Some sample_auth) in
  let queryParams := VObj [("currencyPair", VStr "BTC_ETH"); ("rate", VNum 1);
                           ("amount", VNum 2)] in
  In op (index_operations answering ++ agent_operations answering requestConfig) /\
  exists sent,
    requests (snd (run op 1510000000000 queryParams st)) = requests st ++ sent /\
    Forall (fun cfg => prop cfg "url" = VStr "/tradingApi" /\
                       prop cfg "method" = VStr "POST") sent.
Proof.
  intros requestConfig op st queryParams.
  assert (Hin : In op (index_operations answering ++
                       agent_operations answering requestConfig)) by listed.
  split; [exact Hin|].
  exact (private_methods_post_to_trading_api answering requestConfig op 1510000000000
           queryParams st eq_refl eq_refl Hin eq_refl).
Defined.

Lemma stringify_nothing (params : object) :
  Forall (fun kv => snd kv = VUndefined) params -> Qs.stringify params = "".
Proof.
  intros H. unfold Qs.stringify.
  replace (flat_map (fun kv => Qs.stringify_value (fst kv) (snd kv)) params)
    with (@nil string); [reflexivity|].
  induction H as [|[k v] params Hv Hall IH]; [reflexivity|].
  cbn [flat_map fst snd] in *. subst v. exact IH.
Qed.

(** X20.  A request without parameters has an empty query: when the
    parameter map is empty, or holds only [undefined] values, the
    serialization is the empty string, the public URL is exactly
    [/public?], and the public request is the one sent when no argument is
    given at all. *)
Theorem no_parameters_empty_query
  (axios : transport) (params : object) (configOverride : value) (st : Store) :
  Forall (fun kv => snd kv = VUndefined) params ->
  Qs.stringify params = "" /\
  prop (VObj (Index.public_agentConfig (Some params))) "url" = VStr "/public?" /\
  Index.getPublicEndpoint axios (Some params) st = Index.getPublicEndpoint axios None st /\
  Agent.getPublicEndpoint axios (Some params) configOverride st =
    Agent.getPublicEndpoint axios None configOverride st.
Proof.
  intros H. pose proof (stringify_nothing params H) as E.
  unfold Index.getPublicEndpoint, Agent.getPublicEndpoint, Index.public_agentConfig,
    Agent.public_agentConfig, Qs.stringify_opt.
  rewrite E. repeat split.
Qed.

Lemma no_parameters_empty_query_witness :
  let params := [("currencyPair", VUndefined); ("depth", VUndefined)] in
  Forall (fun kv => snd kv = VUndefined) params /\
  prop (VObj (Index.public_agentConfig (Some params))) "url" = VStr "/public?".
Proof.
  intros params.
  assert (H : Forall (fun kv => snd kv = VUndefined) params) by (repeat constructor).
  split; [exact H|].
  exact (proj1 (proj2 (no_parameters_empty_query answering params VNull
                         (Index.getRawClient None) H))).
Defined.

(* ================================================================== *)
(** * Nonces *)

Lemma split_on_piece (c : ascii) (s : string) :
  count_char c s = O -> split_on c s = [s].
Proof.
  induction s as [|c' s IH]; [reflexivity|]. cbn [count_char split_on].
  destruct (Ascii.eqb c c'); [discriminate|]. intros H. now rewrite IH.
Qed.

Lemma split_on_append (c : ascii) (s1 s2 : string) :
  count_char c s1 = O ->
  split_on c (s1 ++ String c s2)%string = s1 :: split_on c s2.
Proof.
  induction s1 as [|c' s1 IH]; cbn [count_char split_on append].
  - intros _. now rewrite Ascii.eqb_refl.
  - destruct (Ascii.eqb c c'); [discriminate|]. intros H. now rewrite IH.
Qed.

Lemma parse_integer_string_of_number (n : Z) :
  parse_integer (string_of_number n) = Some n.
Proof.
  unfold parse_integer, string_of_number. rewrite NilZero.isi.
  - cbn [option_map]. now rewrite DecimalZ.of_to.
  - destruct n; simpl; try discriminate.
    intros H. injection H as H. now apply Unsigned.to_uint_nonnil in H.
  - destruct n; simpl; try discriminate.
    intros H. injection H as H. now apply Unsigned.to_uint_nonnil in H.
Qed.

(** The nonce of the serialization of a parameter map that begins with
    the command and the nonce is the nonce of the map. *)
Lemma nonce_of_serialization (params : object) (n : Z) :
  (exists name rest, params = ("command", VStr name) :: ("nonce", VNum n) :: rest) ->
  nonce_of_body (Qs.stringify params) = Some n.
Proof.
  intros [name [rest ->]]. unfold Qs.stringify.
  cbn [flat_map fst snd Qs.stringify_value app].
  rewrite (encode_unreserved _ (string_of_number_unreserved n)).
  set (pairs := flat_map (fun kv => Qs.stringify_value (fst kv) (snd kv)) rest).
  change (String.concat "&"
            ((Qs.encode "command" ++ "=" ++ Qs.encode name)%string ::
             (Qs.encode "nonce" ++ "=" ++ string_of_number n)%string :: pairs))
    with (("command=" ++ Qs.encode name) ++
          String "&" (String.concat "&" (("nonce=" ++ string_of_number n)%string :: pairs)))%string.
  unfold nonce_of_body. rewrite split_on_append.
  2:{ rewrite count_char_append. now rewrite (encode_safe "&" name). }
  cbn [first_some].
  change (strip_prefix "nonce=" ("command=" ++ Qs.encode name)) with (@None string).
  cbv iota.
  assert (Hn : count_char "&" ("nonce=" ++ string_of_number n) = O).
  { rewrite count_char_append.
    rewrite <- (encode_unreserved _ (string_of_number_unreserved n)).
    now rewrite (encode_safe "&" (string_of_number n)). }
  assert (Hp : exists more,
             split_on "&" (String.concat "&" (("nonce=" ++ string_of_number n)%string :: pairs))
             = ("nonce=" ++ string_of_number n)%string :: more).
  { destruct pairs as [|p pairs].
    - exists []. now apply split_on_piece.
    - eexists.
      change (String.concat "&" (("nonce=" ++ string_of_number n)%string :: p :: pairs))
        with (("nonce=" ++ string_of_number n) ++
              String "&" (String.concat "&" (p :: pairs)))%string.
      now apply split_on_append. }
  destruct Hp as [more ->]. cbn [first_some].
  change (strip_prefix "nonce=" ("nonce=" ++ string_of_number n))
    with (Some (string_of_number n)).
  cbv iota. now rewrite parse_integer_string_of_number.
Qed.

Lemma generateNonce_exact (now : Z) :
  exact_reading now -> generateNonce now = 1000 * now.
Proof.
  intros [H0 H1]. unfold generateNonce, number_of_integer.
  rewrite Z.abs_eq by lia.
  destruct (Z.leb_spec (now * 1000) (2 ^ 53)); lia.
Qed.

Section NonceOfEveryMethod.
Variable axios : transport.
Variable requestConfig : value.

Lemma index_private_nonces :
  Forall (fun op =>
            private op = true ->
            forall (now : Z) (queryParams : value) (st : Store),
              takes (argument op) queryParams = true ->
              exists params,
                run op now queryParams st =
                  Index.postToPrivateEndpoint axios params st /\
                nonce_of_body (Qs.stringify params) = Some (generateNonce now))
         (index_operations axios).
Proof.
  each_operation; intros Hp now queryParams st Hn; try discriminate Hp;
    cbn [takes] in Hn;
    try apply negb_true_iff in Hn; unfold_methods;
    try rewrite (arrow_present queryParams _ Hn);
    unfold Index.Client.post_with; cbv beta iota;
    (eexists; split; [reflexivity|]);
    (apply nonce_of_serialization; destruct (truthy queryParams);
     eexists; eexists; reflexivity).
Qed.

Lemma agent_private_nonces :
  Forall (fun op =>
            private op = true ->
            forall (now : Z) (queryParams : value) (st : Store),
              takes (argument op) queryParams = true ->
              exists params,
                run op now queryParams st =
                  Agent.postToPrivateEndpoint axios params
                    (Agent.Client.default_requestConfig requestConfig) st /\
                nonce_of_body (Qs.stringify params) = Some (generateNonce now))
         (agent_operations axios requestConfig).
Proof.
  each_operation; intros Hp now queryParams st Hn; try discriminate Hp;
    cbn [takes] in Hn;
    try apply negb_true_iff in Hn; unfold_methods;
    try rewrite (arrow_present queryParams _ Hn);
    unfold Agent.Client.post_with; cbv beta iota;
    (eexists; split; [reflexivity|]);
    (apply nonce_of_serialization; destruct (truthy queryParams);
     eexists; eexists; reflexivity).
Qed.

(** What one call of a private method does to the log, and the nonce of
    the request it adds. *)
Lemma private_call_sends_nonce (a : IApiAuth) (c : call) (st : Store) :
  auth st = Some a ->
  overrides requestConfig "data" = false ->
  private_call (index_operations axios ++ agent_operations axios requestConfig) c ->
  exists cfg,
    auth (snd (run (callee c) (clock c) (given c) st)) = Some a /\
    requests (snd (run (callee c) (clock c) (given c) st)) = requests st ++ [cfg] /\
    nonce_of_request cfg = Some (1000 * clock c).
Proof.
  intros Ha Hd [Hin [Hp [Hn He]]]. rewrite <- (generateNonce_exact _ He).
  apply in_app_or in Hin as [Hin|Hin].
  - destruct (proj1 (Forall_forall _ _) index_private_nonces _ Hin Hp
                (clock c) (given c) st Hn) as [params [-> Hnonce]].
    rewrite (index_private_run axios a params st Ha).
    eexists. split; [exact Ha|]. split; [reflexivity|].
    unfold nonce_of_request.
    change (prop (VObj (Index.private_agentConfig a params)) "data")
      with (VStr (Qs.stringify params)).
    exact Hnonce.
  - destruct (proj1 (Forall_forall _ _) agent_private_nonces _ Hin Hp
                (clock c) (given c) st Hn) as [params [-> Hnonce]].
    rewrite (agent_private_run axios a params _ st Ha).
    eexists. split; [exact Ha|]. split; [reflexivity|].
    unfold nonce_of_request, Agent.private_agentConfig.
    rewrite prop_spread_unset
      by (apply local_config_unset;
          [now rewrite overrides_default_requestConfig|reflexivity]).
    exact Hnonce.
Qed.

Lemma session_step (c : call) (later : list call) (st : Store) :
  snd (session (c :: later) st) =
  snd (session later (snd (run (callee c) (clock c) (given c) st))).
Proof.
  cbn [session]. unfold bindM, ret.
  destruct (run (callee c) (clock c) (given c) st) as [r st1]. cbn [snd].
  destruct (session later st1). reflexivity.
Qed.

Lemma session_requests (a : IApiAuth) (calls : list call) :
  overrides requestConfig "data" = false ->
  Forall (private_call (index_operations axios ++ agent_operations axios requestConfig))
         calls ->
  forall st : Store,
    auth st = Some a ->
    exists sent,
      requests (snd (session calls st)) = requests st ++ sent /\
      map nonce_of_request sent = map (fun c => Some (1000 * clock c)) calls.
Proof.
  intros Hd. induction 1 as [|c later Hc Hlater IH]; intros st Ha.
  - exists []. split; [simpl; now rewrite app_nil_r|reflexivity].
  - destruct (private_call_sends_nonce a c st Ha Hd Hc) as [cfg [Ha1 [Hr Hn]]].
    destruct (IH _ Ha1) as [sent [Hs Hm]].
    exists (cfg :: sent). split.
    + rewrite session_step, Hs, Hr, <- app_assoc. reflexivity.
    + cbn [map]. now rewrite Hn, Hm.
Qed.

End NonceOfEveryMethod.

Lemma nonces_of_all (sent : list value) (nonces : list Z) :
  map nonce_of_request sent = map Some nonces -> nonces_of sent = nonces.
Proof.
  revert nonces. induction sent as [|cfg sent IH]; intros [|n nonces] H;
    try discriminate; [reflexivity|].
  cbn [map] in H. injection H as Hn Hs.
  unfold nonces_of. cbn [flat_map]. rewrite Hn. cbn [app]. f_equal. now apply IH.
Qed.

Lemma thousandfold_sorted (readings : list Z) :
  StronglySorted Z.lt readings <->
  StronglySorted Z.lt (map (fun t => 1000 * t) readings).
Proof.
  induction readings as [|t readings IH]; [split; constructor|].
  cbn [map]. split; intros H; apply StronglySorted_inv in H as [Hs Hall];
    constructor; try (now apply IH).
  - apply Forall_map. eapply Forall_impl; [|exact Hall]. intros t' Ht. cbv beta. lia.
  - rewrite Forall_map in Hall. eapply Forall_impl; [|exact Hall]. intros t' Ht.
    cbv beta in Ht. lia.
Qed.

(** C6, amended.  In a session of private requests under one credential
    pair (any private methods of either revision, each with an argument it
    takes, the clock readings exact, the body not replaced by the request
    configuration), each call sends one request, and the nonce in the body
    of that request is a thousand times the clock reading of the call.
    Hence the nonces are strictly increasing exactly when the clock
    readings are, and two requests made at the same reading carry the same
    nonce. *)
Theorem private_requests_carry_clock_nonce
  (axios : transport) (requestConfig : value) (a : IApiAuth) (calls : list call)
  (st : Store) :
  auth st = Some a ->
  overrides requestConfig "data" = false ->
  Forall (private_call (index_operations axios ++ agent_operations axios requestConfig))
         calls ->
  exists sent,
    requests (snd (session calls st)) = requests st ++ sent /\
    map nonce_of_request sent = map (fun c => Some (1000 * clock c)) calls /\
    (StronglySorted Z.lt (map clock calls) <-> StronglySorted Z.lt (nonces_of sent)) /\
    (forall i j t,
        nth_error (map clock calls) i = Some t ->
        nth_error (map clock calls) j = Some t ->
        nth_error (map nonce_of_request sent) i = Some (Some (1000 * t)) /\
        nth_error (map nonce_of_request sent) j = Some (Some (1000 * t))).
Proof.
  intros Ha Hd Hcalls.
  destruct (session_requests axios requestConfig a calls Hd Hcalls st Ha)
    as [sent [Hs Hm]].
  exists sent. split; [exact Hs|]. split; [exact Hm|].
  assert (Hn : map nonce_of_request sent =
               map Some (map (fun t => 1000 * t) (map clock calls))).
  { rewrite Hm, !map_map. reflexivity. }
  split.
  - rewrite (nonces_of_all sent _ Hn). apply thousandfold_sorted.
  - intros i j t Hi Hj. rewrite Hn.
    split; apply map_nth_error; now apply map_nth_error.
Qed.

Lemma private_requests_carry_clock_nonce_witness :
  let calls :=
    [ {| callee := {| method := "buy"; command := "buy"; private := true;
                      argument := Required ["currencyPair"; "rate"; "amount"; "fillOrKill";
                                            "immediateOrCancel"; "postOnly"];
                      run := Agent.Client.buy answering VNull |};
         clock := 1510000000000;
         given := VObj [("currencyPair", VStr "BTC_ETH"); ("rate", VNum 1);
                        ("amount", VNum 2)] |};
      {| callee := {| method := "returnOpenOrders"; command := "returnOpenOrders";
                      private := true;
                      argument := Optional ["currencyPair"]
                                    (VObj [("currencyPair", VStr "all")]);
                      run := Index.Client.returnOpenOrders answering |};
         clock := 1510000000001;
         given := VUndefined |} ] in
  let st := Agent.Client.getClient (Some sample_auth) in
  Forall (private_call (index_operations answering ++ agent_operations answering VNull))
         calls /\
  StronglySorted Z.lt (map clock calls) /\
  exists sent,
    requests (snd (session calls st)) = requests st ++ sent /\
    map nonce_of_request sent = [Some 1510000000000000; Some 1510000000001000] /\
    StronglySorted Z.lt (nonces_of sent).
Proof.
  intros calls st.
  assert (Hc : Forall (private_call (index_operations answering ++
                                     agent_operations answering VNull)) calls).
  { assert (Hexact : forall now, (0 <=? now) = true -> (now * 1000 <=? 2 ^ 53) = true ->
                                   exact_reading now).
    { intros now H0 H1. split; [now apply Z.leb_le | now apply Z.leb_le]. }
    constructor; [|constructor; [|constructor]].
    - split; [listed|]. split; [reflexivity|]. split; [reflexivity|].
      apply Hexact; reflexivity.
    - split; [listed|]. split; [reflexivity|]. split; [reflexivity|].
      apply Hexact; reflexivity. }
  assert (Hs : StronglySorted Z.lt (map clock calls)).
  { repeat constructor. }
  split; [exact Hc|]. split; [exact Hs|].
  destruct (private_requests_carry_clock_nonce answering VNull sample_auth calls st
              eq_refl eq_refl Hc) as [sent [Hr [Hn [Hsorted _]]]].
  exists sent. split; [exact Hr|]. split; [exact Hn|]. now apply Hsorted.
Defined.

(** C6 as stated fails: two private requests made within the same
    millisecond read the same clock value, and the bodies sent carry the
    same nonce. *)
Lemma same_millisecond_same_nonce :
  let calls :=
    [ {| callee := {| method := "buy"; command := "buy"; private := true;
                      argument := Required ["currencyPair"; "rate"; "amount"; "fillOrKill";
                                            "immediateOrCancel"; "postOnly"];
                      run := Agent.Client.buy answering VNull |};
         clock := 1510000000000;
         given := VObj [("currencyPair", VStr "BTC_ETH"); ("rate", VNum 1);
                        ("amount", VNum 2)] |};
      {| callee := {| method := "returnBalances"; command := "returnBalances";
                      private := true; argument := Nullary;
                      run := fun now _ => Agent.Client.returnBalances answering VNull now |};
         clock := 1510000000000;
         given := VUndefined |} ] in
  let st := Agent.Client.getClient (Some sample_auth) in
  map nonce_of_request (requests (snd (session calls st))) =
    [Some 1510000000000000; Some 1510000000000000] /\
  ~ StronglySorted Z.lt (nonces_of (requests (snd (session calls st)))).
Proof.
  intros calls st.
  assert (H : map nonce_of_request (requests (snd (session calls st))) =
              [Some 1510000000000000; Some 1510000000000000])
    by (vm_compute; reflexivity).
  split; [exact H|].
  rewrite (nonces_of_all _ [1510000000000000; 1510000000000000] H).
  intros Hs. apply StronglySorted_inv in Hs as [_ Hall].
  apply Forall_inv in Hall. lia.
Qed.

(** Beyond the safe integers the product is rounded: known values of the
    double product, and two successive readings with one nonce. *)
Example generateNonce_rounded :
  generateNonce 4600000000000001 = 4600000000000001024 /\
  generateNonce 4611686018427413 = 4611686018427413504 /\
  generateNonce 4611686018427414 = 4611686018427413504.
Proof. vm_compute. repeat split. Qed.
